(** * Business-data collection pipeline: a shallow embedding and its properties

    The development follows the Python sources module by module:

    - [Py]        : the fragment of Python's dynamic semantics the code relies
                    on (exceptions, name and attribute resolution, [int()],
                    [float()], [str.split()], [str.lower()], the [:02d]
                    format);
    - [Orm]       : the mapper configuration of [app/models/__init__.py],
                    which every query and every model constructor runs;
    - [Analyzer]  : [app/services/analyzer.py] and the grade table of
                    [app/models/__init__.py];
    - [Scheduler] : [app/services/scheduler.py];
    - [Cache], [QueryOptimizer] : [optimization/__init__.py];
    - [Scraper]   : [app/services/scraper.py];
    - [Tasks]     : [tasks/scraping.py] and [tasks/analysis.py] run by a
                    Celery worker;
    - [Routes]    : [app/routes/keywords.py] and [app/routes/api.py];
    - [Models]    : the quality and statistics methods of
                    [app/models/__init__.py].

    Numbers that Python holds as floats are rationals here; every concrete
    evaluation below only meets values that binary floating point represents
    exactly. *)

From Stdlib Require Import ZArith QArith Qround Lia List String Ascii Bool.
From Stdlib Require Import DecimalString.
From stdpp Require Import gmap strings list fin_maps sorting.

Local Open Scope string_scope.
Local Open Scope Z_scope.

(* ===================================================================== *)
(** * Python semantics used by the sources *)
(* ===================================================================== *)

Module Py.

(** The exception classes that occur in the modelled code.  All of them
    derive from [Exception], so a handler [except Exception] catches each. *)
Inductive exn : Type :=
| AttributeError (attr : string)
| NameError (name : string)
| ValueError (msg : string)
| TypeError (msg : string)
| TimeoutException
| OtherException (msg : string).

(** A computation either returns or raises. *)
Inductive result (A : Type) : Type :=
| Ok (a : A)
| Raise (e : exn).
Arguments Ok {A} a.
Arguments Raise {A} e.

Definition bind {A B} (c : result A) (k : A -> result B) : result B :=
  match c with
  | Ok a => k a
  | Raise e => Raise e
  end.

(** [try: c  except Exception as e: h e] *)
Definition try_except {A} (c : result A) (h : exn -> result A) : result A :=
  match c with
  | Ok a => Ok a
  | Raise e => h e
  end.

Definition is_raise {A} (c : result A) : bool :=
  match c with Ok _ => false | Raise _ => true end.

(** [self.<attr>] on an instance whose class defines exactly [methods]
    (and which has no instance attribute of that name). *)
Definition getattr (methods : list string) (attr : string) : result unit :=
  if bool_decide (attr ∈ methods) then Ok tt else Raise (AttributeError attr).

(** Loading a name that is not a local of the running function: it must be
    bound in the module's global namespace. *)
Definition load_global (globals : list string) (name : string) : result unit :=
  if bool_decide (name ∈ globals) then Ok tt else Raise (NameError name).

(** [int(q)] on a float: truncation towards zero. *)
Definition int (q : Q) : Z := Z.quot (Qnum q) (Z.pos (Qden q)).

(** Text whose characters matter one by one is a sequence of Unicode code
    points; a literal of this file stands for its ASCII codes. *)
Definition unicode : Type := list Z.

Definition unicode_of (s : string) : unicode :=
  (fun c => Z.of_nat (nat_of_ascii c)) <$> list_ascii_of_string s.

(** The characters [str.split()] treats as separators: those for which
    [str.isspace()] holds, by code point (U+0009..U+000D, U+001C..U+0020,
    U+0085, U+00A0, U+1680, U+2000..U+200A, U+2028, U+2029, U+202F, U+205F,
    U+3000). *)
Definition isspace (c : Z) : bool :=
  ((9 <=? c) && (c <=? 13)) || ((28 <=? c) && (c <=? 32))
  || (c =? 133) || (c =? 160) || (c =? 5760)
  || ((8192 <=? c) && (c <=? 8202))
  || (c =? 8232) || (c =? 8233) || (c =? 8239) || (c =? 8287) || (c =? 12288).

(** [s.split()]: maximal runs of non-blank characters.  [cur] is the word
    being read, most recent character first. *)
Fixpoint split_go (s : unicode) (cur : list Z) : list unicode :=
  let flush (rest : list unicode) :=
    match cur with
    | [] => rest
    | _ => rev cur :: rest
    end in
  match s with
  | [] => flush []
  | c :: s' =>
      if isspace c then flush (split_go s' []) else split_go s' (c :: cur)
  end.

Definition split (s : unicode) : list unicode := split_go s [].

(** [f"{n:02d}"]: decimal, padded with zeros to width two. *)
Definition format_02d (n : Z) : string :=
  let s := NilZero.string_of_int (Z.to_int n) in
  if (String.length s <? 2)%nat then "0" ++ s else s.

(** [needle in s] on text. *)
Fixpoint contains (s needle : string) : bool :=
  String.prefix needle s
  || match s with
     | EmptyString => false
     | String _ s' => contains s' needle
     end.

(** [s.split(sep)] for a one-character separator: every occurrence cuts,
    empty pieces are kept.  [cur] is the piece being read, reversed. *)
Fixpoint split_on_go (sep : ascii) (s : string) (cur : list ascii) : list string :=
  match s with
  | EmptyString => [string_of_list_ascii (rev cur)]
  | String c s' =>
      if Ascii.eqb c sep
      then string_of_list_ascii (rev cur) :: split_on_go sep s' []
      else split_on_go sep s' (c :: cur)
  end.

Definition split_on (sep : ascii) (s : string) : list string := split_on_go sep s [].

(** [sep.join(pieces)]. *)
Definition join (sep : string) (pieces : list string) : string :=
  String.concat sep pieces.

(** [c.isdigit()] and [\d] on ASCII text. *)
Definition isdigit (c : ascii) : bool :=
  let n := nat_of_ascii c in (48 <=? n)%nat && (n <=? 57)%nat.

(** [s.lower()] on ASCII text. *)
Definition lower_char (c : ascii) : ascii :=
  let n := nat_of_ascii c in
  if (65 <=? n)%nat && (n <=? 90)%nat then ascii_of_nat (n + 32) else c.

Fixpoint lower (s : string) : string :=
  match s with
  | EmptyString => EmptyString
  | String c s' => String (lower_char c) (lower s')
  end.

(** [s.replace(old, '')] for a one-character [old]. *)
Fixpoint remove_char (old : ascii) (s : string) : string :=
  match s with
  | EmptyString => EmptyString
  | String c s' =>
      if Ascii.eqb c old then remove_char old s' else String c (remove_char old s')
  end.

(** The number that a run of decimal digits denotes, continuing from
    [acc]. *)
Fixpoint digits_value (s : string) (acc : Z) : Z :=
  match s with
  | EmptyString => acc
  | String c s' => digits_value s' (10 * acc + (Z.of_nat (nat_of_ascii c) - 48))
  end.

(** [int(s)] and [float(s)] on text made of digits and dots, which is all
    the sources apply them to: [int] wants digits only, [float] one dot at
    most and one digit at least. *)
Definition int_of_text (s : string) : result Z :=
  if negb (String.eqb s "") && forallb isdigit (list_ascii_of_string s)
  then Ok (digits_value s 0)
  else Raise (ValueError "invalid literal for int() with base 10").

Definition float_of_text (s : string) : result Q :=
  match split_on "."%char s with
  | [whole] =>
      if String.eqb whole ""
      then Raise (ValueError "could not convert string to float")
      else Ok (inject_Z (digits_value whole 0))
  | [whole; frac] =>
      if String.eqb whole "" && String.eqb frac ""
      then Raise (ValueError "could not convert string to float")
      else Ok (inject_Z (digits_value (whole ++ frac) 0)
               / inject_Z (10 ^ Z.of_nat (String.length frac)))%Q
  | _ => Raise (ValueError "could not convert string to float")
  end.

End Py.

Import Py.

#[global] Instance result_ret : MRet Py.result := @Py.Ok.
#[global] Instance result_bind : MBind Py.result := fun A B k c => Py.bind c k.

(* ===================================================================== *)
(** * app/models/__init__.py : the mapper configuration *)
(* ===================================================================== *)

Module Orm.

(** A mapped class: its table, the tables that its [ForeignKey] columns
    reference, and the target classes of its [db.relationship]s. *)
Record model : Type := {
  class_name : string;
  tablename : string;
  foreign_keys : list string;
  relationships : list string
}.

Definition Keyword : model :=
  {| class_name := "Keyword"; tablename := "keywords";
     foreign_keys := [];
     relationships := ["SearchResult"; "WebsiteAnalysis"] |}.

Definition SearchResult : model :=
  {| class_name := "SearchResult"; tablename := "search_results";
     foreign_keys := ["keywords"];
     relationships := ["WebsiteAnalysis"] |}.

Definition WebsiteAnalysis : model :=
  {| class_name := "WebsiteAnalysis"; tablename := "website_analyses";
     foreign_keys := ["search_results"];
     relationships := [] |}.

Definition models : list model := [Keyword; SearchResult; WebsiteAnalysis].

Definition references (a b : model) : bool :=
  bool_decide (tablename b ∈ foreign_keys a).

(** A relationship declared without [primaryjoin] is joined along the
    foreign keys between the two tables, in one direction or the other. *)
Definition joinable (registry : list model) (m : model) (target : string) : bool :=
  match List.find (fun t => String.eqb (class_name t) target) registry with
  | Some t => references m t || references t m
  | None => false
  end.

(** The mappers of all classes are configured together, at the first query
    or the first instance built.  A relationship that cannot be joined
    raises [NoForeignKeysError] there and [InvalidRequestError] at every
    later use; both derive from [Exception], and the one value below stands
    for either. *)
Definition configure_mappers (registry : list model) : result unit :=
  if forallb (fun m => forallb (joinable registry m) (relationships m)) registry
  then Ok tt
  else Raise (OtherException "NoForeignKeysError").

(** The configuration of the classes as the module declares them. *)
Definition mappers : result unit := configure_mappers models.

(** [Model.query. ... .all()] and [Model.query.get(...)]: the rows, once the
    mappers are configured. *)
Definition query {A} (orm : result unit) (rows : A) : result A :=
  _ ← orm; Ok rows.

(** [Model(...)]: building an instance configures the mappers too. *)
Definition construct {A} (orm : result unit) (instance : A) : result A :=
  _ ← orm; Ok instance.

End Orm.

(* ===================================================================== *)
(** * app/services/analyzer.py and the grade table of app/models *)
(* ===================================================================== *)

Module Analyzer.

(** Values held in an analysis dictionary: a number, or anything else
    (text, lists of issues, timestamps), on which arithmetic raises. *)
Inductive pyval : Type :=
| VNum (q : Q)
| VOther (repr : string).

(** [dict.update]: the entries of [new] win. *)
Definition update (d new : gmap string pyval) : gmap string pyval := new ∪ d.

(** The [weights] literal of [calculate_overall_score], in source order. *)
Definition weights : list (string * Q) :=
  [ ("seo_score", 25 # 100)%Q;
    ("security_score", 20 # 100)%Q;
    ("performance_score", 20 # 100)%Q;
    ("credibility_score", 20 # 100)%Q;
    ("basic_score", 15 # 100)%Q ].

(** The [for component, weight in weights.items()] loop; the accumulator
    is [(total_score, total_weight)]. *)
Fixpoint accumulate (ws : list (string * Q)) (analysis_data : gmap string pyval)
    (acc : Q * Q) : result (Q * Q) :=
  match ws with
  | [] => Ok acc
  | (component, weight) :: ws' =>
      match analysis_data !! component with
      | None => accumulate ws' analysis_data acc
      | Some (VNum x) =>
          accumulate ws' analysis_data
            ((fst acc + x * weight)%Q, (snd acc + weight)%Q)
      | Some (VOther r) => Raise (TypeError r)
      end
  end.

Definition calculate_overall_score (analysis_data : gmap string pyval) : result Z :=
  acc ← accumulate weights analysis_data (0%Q, 0%Q);
  let total_score := fst acc in
  let total_weight := snd acc in
  if Qlt_le_dec 0 total_weight
  then Ok (Z.min 100 (Py.int ((total_score / total_weight) * 100)%Q))
  else Ok 0.

(** The weighted mean as the specification words it: the sub-scores that
    are present, each with its weight, divided by the weight present. *)
Definition present_terms (d : gmap string pyval) : list (Q * Q) :=
  omap (fun cw : string * Q =>
          match d !! cw.1 with
          | Some (VNum x) => Some (x, cw.2)
          | _ => None
          end) weights.

Definition spec_weighted_mean (d : gmap string pyval) : Q :=
  let ts := present_terms d in
  (foldr (fun t s => (t.1 * t.2 + s)%Q) 0%Q ts
   / foldr (fun t s => (t.2 + s)%Q) 0%Q ts)%Q.

(** [WebsiteAnalysis.overall_grade] (app/models/__init__.py), the letter
    grade of a persisted analysis whose composite is [score]. *)
Definition overall_grade (score : Z) : string :=
  if 90 <=? score then "A+"
  else if 80 <=? score then "A"
  else if 70 <=? score then "B"
  else if 60 <=? score then "C"
  else if 50 <=? score then "D"
  else "F".

(** The grade of a score, as the table of the specification reads. *)
Definition follows_table (s : Z) (g : string) : Prop :=
  (90 <= s -> g = "A+")
  /\ (80 <= s < 90 -> g = "A")
  /\ (70 <= s < 80 -> g = "B")
  /\ (60 <= s < 70 -> g = "C")
  /\ (50 <= s < 60 -> g = "D")
  /\ (s < 50 -> g = "F").

(** Position of a grade on the scale F < D < C < B < A < A+. *)
Definition grade_rank (g : string) : nat :=
  if String.eqb g "A+" then 5
  else if String.eqb g "A" then 4
  else if String.eqb g "B" then 3
  else if String.eqb g "C" then 2
  else if String.eqb g "D" then 1
  else 0.

(** The methods that [class IntelligentWebsiteAnalyzer] defines. *)
Definition class_methods : list string :=
  [ "__init__"; "comprehensive_analysis"; "basic_website_analysis";
    "technical_analysis"; "seo_analysis"; "security_analysis";
    "performance_analysis"; "business_credibility_analysis";
    "calculate_overall_score"; "analyze_ssl_certificate";
    "detect_technology_stack"; "measure_load_time" ].

Definition cache_timeout : Q := 3600.

Section Comprehensive.
(** The class is a parameter, so that the control flow of
    [comprehensive_analysis] is modelled for any method table; the
    source's table is [class_methods]. *)
Variable methods : list string.
(** The six passes, each returning a dictionary or raising. *)
Variables basic_website_analysis technical_analysis seo_analysis
  security_analysis performance_analysis business_credibility_analysis
  : string -> result (gmap string pyval).
(** Bodies for the two methods the source calls without defining. *)
Variable assign_grade : Z -> result pyval.
Variable get_fallback_analysis : string -> result (gmap string pyval).
Variable utcnow : pyval.

(** The body of the [try] block, up to and excluding the cache write. *)
Definition fresh_analysis (url : string) : result (gmap string pyval) :=
  r ← basic_website_analysis url; let a := update ∅ r in
  r ← technical_analysis url; let a := update a r in
  r ← seo_analysis url; let a := update a r in
  r ← security_analysis url; let a := update a r in
  r ← performance_analysis url; let a := update a r in
  r ← business_credibility_analysis url; let a := update a r in
  score ← calculate_overall_score a;
  let a := <["overall_score" := VNum (inject_Z score)]> a in
  let a := <["analysis_timestamp" := utcnow]> a in
  _ ← Py.getattr methods "assign_grade";
  g ← assign_grade score;
  Ok (<["grade" := g]> a).

(** [now] is the clock at the cache check, [later] at the cache write. *)
Definition comprehensive_analysis
    (analysis_cache : gmap string (gmap string pyval * Q))
    (now later : Q) (url : string)
  : result (gmap string pyval) * gmap string (gmap string pyval * Q) :=
  let miss :=
    match fresh_analysis url with
    | Ok analysis_results =>
        (Ok analysis_results, <[url := (analysis_results, later)]> analysis_cache)
    | Raise e =>
        (_ ← Py.getattr methods "get_fallback_analysis";
         get_fallback_analysis url, analysis_cache)
    end in
  match analysis_cache !! url with
  | Some (cached_data, timestamp) =>
      if Qlt_le_dec (now - timestamp) cache_timeout
      then (Ok cached_data, analysis_cache)
      else miss
  | None => miss
  end.
End Comprehensive.

(** What [basic_website_analysis] reads off the fetched page. *)
Record page : Type := {
  load_time : Q;
  status_code : Z;
  final_url : string;
  history_length : nat;
  content_length : nat;
  has_viewport : bool;
  page_title : option string;
  word_count : nat;
  image_count : nat;
  images_with_alt : nat;
  hrefs : list string
}.

Definition VBool (b : bool) : pyval := VNum (if b then 1 else 0).
Definition VNat (n : nat) : pyval := VNum (inject_Z (Z.of_nat n)).

Section Basic.
Variable methods : list string.
(** Bodies for the helpers the source calls without defining. *)
Variable get_meta_description : page -> result pyval.
Variable is_internal_link : string -> string -> result bool.
Variable get_basic_fallback_data : result (gmap string pyval).

(** [[link for link in links if self.is_internal_link(link['href'], url)]]
    (or its negation): the attribute is looked up once per link. *)
Fixpoint count_links (want : bool) (links : list string) (url : string) : result nat :=
  match links with
  | [] => Ok O
  | href :: rest =>
      _ ← Py.getattr methods "is_internal_link";
      internal ← is_internal_link href url;
      n ← count_links want rest url;
      Ok (if Bool.eqb internal want then S n else n)
  end.

(** [fetch] is the outcome of [requests.get] and of parsing the answer. *)
Definition basic_website_analysis (fetch : string -> result page) (url : string)
  : result (gmap string pyval) :=
  let body : result (gmap string pyval) :=
    p ← fetch url;
    let d : gmap string pyval := ∅ in
    let d := <["load_time" := VNum (load_time p)]> d in
    let d := <["status_code" := VNum (inject_Z (status_code p))]> d in
    let d := <["final_url" := VOther (final_url p)]> d in
    let d := <["redirected" := VBool (0 <? history_length p)%nat]> d in
    let d := <["content_length" := VNat (content_length p)]> d in
    let d := <["mobile_friendly" := VBool (has_viewport p)]> d in
    let d := <["title" := VOther (default "None" (page_title p))]> d in
    _ ← Py.getattr methods "get_meta_description";
    meta ← get_meta_description p;
    let d := <["meta_description" := meta]> d in
    let d := <["word_count" := VNat (word_count p)]> d in
    let d := <["image_count" := VNat (image_count p)]> d in
    let d := <["images_with_alt" := VNat (images_with_alt p)]> d in
    let d := <["total_links" := VNat (length (hrefs p))]> d in
    internal ← count_links true (hrefs p) url;
    let d := <["internal_links" := VNat internal]> d in
    external ← count_links false (hrefs p) url;
    Ok (<["external_links" := VNat external]> d) in
  Py.try_except body
    (fun _ => _ ← Py.getattr methods "get_basic_fallback_data";
              get_basic_fallback_data).
End Basic.

(** What [seo_analysis] reads off the fetched page and the URL. *)
Record seo_page : Type := {
  title_length : option nat;
  h1_count : nat;
  seo_image_count : nat;
  seo_images_with_alt : nat;
  path_length : nat;
  seo_hrefs : list string;
  seo_word_count : nat;
  has_schema : bool
}.

(** The messages appended to [issues], by rule, with the numbers they
    quote. *)
Inductive seo_issue : Type :=
| TitleLength (n : nat)
| MissingTitle
| MetaLength (n : nat)
| MissingMeta
| H1Count (n : nat)
| AltCoverage (with_alt total : nat)
| PathTooLong
| NotMobileFriendly
| FewInternalLinks (n : nat)
| LowWordCount (n : nat)
| NoSchema.

(** The points of the rule an issue belongs to. *)
Definition seo_points (i : seo_issue) : Z :=
  match i with
  | TitleLength _ | MissingTitle | MetaLength _ | MissingMeta => 15
  | _ => 10
  end.

(** The keys [seo_analysis] may set. *)
Record seo_data : Type := {
  seo_score : Z;
  seo_issues : option (list seo_issue);
  seo_grade : option pyval
}.

(** [if ok: seo_score += pts  else: issues.append(issue)] *)
Definition seo_rule (ok : bool) (pts : Z) (issue : seo_issue)
    (st : Z * list seo_issue) : Z * list seo_issue :=
  if ok then (st.1 + pts, st.2) else (st.1, (st.2 ++ [issue])%list).

Section Seo.
Variable methods : list string.
(** Bodies for the helpers the source calls without defining;
    [get_meta_description] gives the length of the description, [None] when
    there is none. *)
Variable get_meta_description : seo_page -> result (option nat).
Variable is_mobile_friendly : seo_page -> result bool.
Variable is_internal_link : string -> string -> result bool.
Variable get_seo_grade : Z -> result pyval.

(** The rules, in source order. *)
Definition seo_rules (p : seo_page) (url : string) : result (Z * list seo_issue) :=
  let st : Z * list seo_issue := (0, []) in
  let st :=
    match title_length p with
    | Some n => seo_rule ((30 <=? n)%nat && (n <=? 60)%nat) 15 (TitleLength n) st
    | None => seo_rule false 15 MissingTitle st
    end in
  _ ← Py.getattr methods "get_meta_description";
  meta_desc ← get_meta_description p;
  let st :=
    match meta_desc with
    | Some n => seo_rule ((120 <=? n)%nat && (n <=? 160)%nat) 15 (MetaLength n) st
    | None => seo_rule false 15 MissingMeta st
    end in
  let st := seo_rule (h1_count p =? 1)%nat 10 (H1Count (h1_count p)) st in
  let alt_ok :=
    match seo_image_count p with
    | O => true
    | _ => (80 * seo_image_count p <=? 100 * seo_images_with_alt p)%nat
    end in
  let st :=
    seo_rule alt_ok 10 (AltCoverage (seo_images_with_alt p) (seo_image_count p)) st in
  let st := seo_rule (path_length p <=? 50)%nat 10 PathTooLong st in
  _ ← Py.getattr methods "is_mobile_friendly";
  mobile ← is_mobile_friendly p;
  let st := seo_rule mobile 10 NotMobileFriendly st in
  internal_links ← count_links methods is_internal_link true (seo_hrefs p) url;
  let st := seo_rule (10 <=? internal_links)%nat 10 (FewInternalLinks internal_links) st in
  let st := seo_rule (300 <=? seo_word_count p)%nat 10 (LowWordCount (seo_word_count p)) st in
  let st := seo_rule (has_schema p) 10 NoSchema st in
  Ok st.

Definition seo_analysis (fetch : string -> result seo_page) (url : string) : seo_data :=
  match (p ← fetch url; seo_rules p url) with
  | Raise _ => {| seo_score := 0; seo_issues := None; seo_grade := None |}
  | Ok (score, issues) =>
      match (_ ← Py.getattr methods "get_seo_grade"; get_seo_grade score) with
      | Ok g => {| seo_score := score; seo_issues := Some issues; seo_grade := Some g |}
      | Raise _ => {| seo_score := score; seo_issues := Some issues; seo_grade := None |}
      end
  end.
End Seo.

(** The keys [business_credibility_analysis] may set. *)
Record credibility_data : Type := {
  credibility_score : Z;
  trust_indicators : option (list string);
  credibility_grade : option pyval
}.

(** [any(indicator in text for indicator in indicators)] *)
Definition any_in (text : string) (indicators : list string) : bool :=
  existsb (Py.contains text) indicators.

(** [if found: score += pts; append(yes)  else: append(no)] *)
Definition credibility_rule (found : bool) (pts : Z) (yes no : string)
    (st : Z * list string) : Z * list string :=
  if found then (st.1 + pts, (st.2 ++ [yes])%list) else (st.1, (st.2 ++ [no])%list).

Section Credibility.
Variable methods : list string.
(** Bodies for the helpers the source calls without defining. *)
Variable has_professional_design : string -> result bool.
Variable get_credibility_grade : Z -> result pyval.

(** The checks on the text of the response, in source order. *)
Definition credibility_rules (response_text : string) : result (Z * list string) :=
  let text := Py.lower response_text in
  let st : Z * list string := (0, []) in
  let st :=
    credibility_rule (any_in text ["contact"; "about"; "phone"; "email"; "address"])
      20 "Contact information present" "Missing contact information" st in
  let st :=
    credibility_rule (any_in text ["privacy"; "policy"; "gdpr"])
      15 "Privacy policy mentioned" "No privacy policy found" st in
  let st :=
    credibility_rule (any_in text ["terms"; "conditions"; "legal"])
      15 "Terms of service mentioned" "No terms of service found" st in
  let st :=
    credibility_rule (any_in text ["testimonial"; "review"; "rating"; "client"])
      15 "Social proof elements found" "No social proof elements" st in
  _ ← Py.getattr methods "has_professional_design";
  professional ← has_professional_design response_text;
  let st :=
    credibility_rule professional
      20 "Professional design" "Unprofessional design detected" st in
  let st :=
    credibility_rule (any_in text ["about us"; "our story"; "company"; "team"])
      15 "Company information available" "Limited company information" st in
  Ok st.

(** [fetch] is the outcome of [requests.get]: the text of the response. *)
Definition business_credibility_analysis (fetch : string -> result string)
    (url : string) : credibility_data :=
  match (response_text ← fetch url; credibility_rules response_text) with
  | Raise _ =>
      {| credibility_score := 0; trust_indicators := None; credibility_grade := None |}
  | Ok (score, indicators) =>
      match (_ ← Py.getattr methods "get_credibility_grade";
             get_credibility_grade score) with
      | Ok g =>
          {| credibility_score := score; trust_indicators := Some indicators;
             credibility_grade := Some g |}
      | Raise _ =>
          {| credibility_score := score; trust_indicators := Some indicators;
             credibility_grade := None |}
      end
  end.
End Credibility.

(** [round(q)] to the nearest integer, ties to the even one. *)
Definition round_half_even (q : Q) : Z :=
  let f := Qfloor q in
  let twice := Qfloor (2 * q) in
  if twice =? 2 * f then f
  else if Qeq_bool (2 * q) (inject_Z twice)
       then (if Z.even f then f else f + 1)
       else f + 1.

(** [round(q, 2)] *)
Definition round2 (q : Q) : Q := (inject_Z (round_half_even (q * 100)) / 100)%Q.

(** [measure_load_time]: [requests] are the outcomes of the timed
    [requests.get] calls, one per sample: the seconds elapsed, or an
    exception, which counts as 10 seconds. *)
Definition measure_load_time (requests : list (result Q)) : result Q :=
  let load_times :=
    (fun r => match r with Ok elapsed => elapsed | Raise _ => 10%Q end) <$> requests in
  match load_times with
  | [] => Raise (OtherException "ZeroDivisionError")
  | _ =>
      Ok (round2 (foldr Qplus 0%Q load_times
                  / inject_Z (Z.of_nat (length load_times)))%Q)
  end.

(** The issues [performance_analysis] may append. *)
Inductive performance_issue : Type :=
| SlowLoadTime (load_time : Q)
| FewOptimizedImages
| PoorCaching
| FewMinifiedResources.

(** The values of the dictionary [performance_analysis] returns. *)
Inductive performance_value : Type :=
| PVal (v : pyval)
| PIssues (issues : list performance_issue).

(** [resource_data.get(key, 0) >= threshold] *)
Definition percentage_at_least (resource_data : gmap string pyval) (key : string)
    (threshold : Q) : result bool :=
  match resource_data !! key with
  | None => Ok (if Qlt_le_dec 0 threshold then false else true)
  | Some (VNum q) => Ok (if Qlt_le_dec q threshold then false else true)
  | Some (VOther r) => Raise (TypeError r)
  end.

(** The points for the load time, and the issue when there are none. *)
Definition load_time_points (load_time : Q) : Z * list performance_issue :=
  if Qlt_le_dec load_time 3 then (40, [])
  else if Qlt_le_dec load_time 5 then (30, [])
  else if Qlt_le_dec load_time 8 then (20, [])
  else (0, [SlowLoadTime load_time]).

(** [if ok: score += 20  else: issues.append(issue)] *)
Definition performance_rule (ok : bool) (issue : performance_issue)
    (st : Z * list performance_issue) : Z * list performance_issue :=
  if ok then (st.1 + 20, st.2) else (st.1, (st.2 ++ [issue])%list).

Section Performance.
Variable methods : list string.
(** Bodies for the helpers the source calls without defining. *)
Variable analyze_page_resources : string -> result (gmap string pyval).
Variable get_performance_grade : Z -> result pyval.

(** The three checks on the resource data. *)
Definition resource_rules (resource_data : gmap string pyval)
    (st : Z * list performance_issue) : result (Z * list performance_issue) :=
  optimized ← percentage_at_least resource_data "optimized_images_percentage" 80;
  let st := performance_rule optimized FewOptimizedImages st in
  cached ← percentage_at_least resource_data "cached_resources_percentage" 70;
  let st := performance_rule cached PoorCaching st in
  minified ← percentage_at_least resource_data "minified_resources_percentage" 80;
  let st := performance_rule minified FewMinifiedResources st in
  Ok st.

(** [performance_analysis]; [requests] are the three timed requests of
    [measure_load_time].  The dictionary is filled in place, and the
    handler returns it as far as it got. *)
Definition performance_analysis (requests : result Q * result Q * result Q)
    (url : string) : gmap string performance_value :=
  let performance_data : gmap string performance_value :=
    {[ "performance_score" := PVal (VNum 0) ]} in
  match measure_load_time [requests.1.1; requests.1.2; requests.2] with
  | Raise _ => performance_data
  | Ok load_time =>
      let performance_data :=
        <["load_time" := PVal (VNum load_time)]> performance_data in
      match (_ ← Py.getattr methods "analyze_page_resources";
             analyze_page_resources url) with
      | Raise _ => performance_data
      | Ok resource_data =>
          let performance_data := (PVal <$> resource_data) ∪ performance_data in
          match resource_rules resource_data (load_time_points load_time) with
          | Raise _ => performance_data
          | Ok (performance_score, issues) =>
              let performance_data :=
                <["performance_score" := PVal (VNum (inject_Z performance_score))]>
                  performance_data in
              let performance_data :=
                <["performance_issues" := PIssues issues]> performance_data in
              match (_ ← Py.getattr methods "get_performance_grade";
                     get_performance_grade performance_score) with
              | Ok g => <["performance_grade" := PVal g]> performance_data
              | Raise _ => performance_data
              end
          end
      end
  end.
End Performance.

(** The issues [security_analysis] may append. *)
Inductive security_issue : Type :=
| NotUsingHttps
| SslCertificateIssues
| MissingSecurityHeaders (missing : nat)
| InformationDisclosure.

(** The keys [security_analysis] may set. *)
Record security_data : Type := {
  security_score : Q;
  security_issues : option (list security_issue);
  security_grade : option pyval
}.

(** The headers [security_analysis] counts. *)
Definition security_headers : list string :=
  [ "X-Frame-Options"; "X-XSS-Protection"; "X-Content-Type-Options";
    "Strict-Transport-Security" ].

(** [headers.get(header)] as a condition. *)
Definition header_set (headers : gmap string string) (header : string) : bool :=
  match headers !! header with
  | Some value => negb (String.eqb value "")
  | None => false
  end.

(** [sum(1 for header in [...] if headers.get(header))] *)
Definition count_security_headers (headers : gmap string string) : nat :=
  length (List.filter (header_set headers) security_headers).

(** [if ok: score += 25  else: issues.append(issue)] *)
Definition security_rule (ok : bool) (issue : security_issue)
    (st : Q * list security_issue) : Q * list security_issue :=
  if ok then ((st.1 + 25)%Q, st.2) else (st.1, (st.2 ++ [issue])%list).

Section Security.
Variable methods : list string.
(** [urlparse(url).hostname], and whether [analyze_ssl_certificate] on it
    reports ['ssl_valid']: that method catches everything itself. *)
Variable hostname : string -> result (option string).
Variable ssl_valid : option string -> bool.
(** Bodies for the helpers the source calls without defining. *)
Variable get_security_headers : string -> result (gmap string string).
Variable has_sensitive_info_disclosure : string -> result bool.
Variable get_security_grade : Q -> result pyval.

Definition security_rules (url : string) : result (Q * list security_issue) :=
  host ← hostname url;
  let st : Q * list security_issue := (0%Q, []) in
  let st := security_rule (String.prefix "https://" url) NotUsingHttps st in
  let st := security_rule (ssl_valid host) SslCertificateIssues st in
  _ ← Py.getattr methods "get_security_headers";
  headers ← get_security_headers url;
  let security_headers_count := count_security_headers headers in
  let st : Q * list security_issue :=
    ((st.1 + inject_Z (Z.of_nat security_headers_count) * (625 # 100))%Q, st.2) in
  let st : Q * list security_issue :=
    if (security_headers_count <? 4)%nat
    then (st.1, (st.2 ++ [MissingSecurityHeaders (4 - security_headers_count)])%list)
    else st in
  _ ← Py.getattr methods "has_sensitive_info_disclosure";
  disclosure ← has_sensitive_info_disclosure url;
  let st := security_rule (negb disclosure) InformationDisclosure st in
  Ok st.

Definition security_analysis (url : string) : security_data :=
  match security_rules url with
  | Raise _ =>
      {| security_score := 0; security_issues := None; security_grade := None |}
  | Ok (score, issues) =>
      match (_ ← Py.getattr methods "get_security_grade";
             get_security_grade score) with
      | Ok g =>
          {| security_score := score; security_issues := Some issues;
             security_grade := Some g |}
      | Raise _ =>
          {| security_score := score; security_issues := Some issues;
             security_grade := None |}
      end
  end.
End Security.

(** A fresh analysis is needed: no entry, or one at least an hour old. *)
Definition needs_fresh (analysis_cache : gmap string (gmap string pyval * Q))
    (now : Q) (url : string) : Prop :=
  match analysis_cache !! url with
  | None => True
  | Some (_, timestamp) => (cache_timeout <= now - timestamp)%Q
  end.

End Analyzer.

(* ===================================================================== *)
(** * app/services/scheduler.py *)
(* ===================================================================== *)

Module Scheduler.

(** The columns of [SearchResult] and [Keyword] that the scheduler reads. *)
Record SearchResult : Type := {
  keyword_id : Z;
  title : option string;
  website : option string
}.

Record Keyword : Type := {
  id : Z;
  keyword : Py.unicode
}.

(** Truth value of a nullable text column: [None] and [''] are false. *)
Definition truthy (o : option string) : bool :=
  match o with
  | Some s => negb (String.eqb s "")
  | None => false
  end.

Definition get_base_scraping_time (priority : string) : Z :=
  if String.eqb priority "high" then 2
  else if String.eqb priority "medium" then 4
  else if String.eqb priority "low" then 6
  else 4.

(** The quotient of two counts; the float that Python computes compares
    with 0.5 as the exact quotient does for any table below 2^53 rows. *)
Definition calculate_success_rate (results : list SearchResult) : Q :=
  match results with
  | [] => 0%Q
  | _ =>
      let successful_results :=
        length (filter (fun r => truthy (title r) && truthy (website r)) results) in
      (inject_Z (Z.of_nat successful_results)
       / inject_Z (Z.of_nat (length results)))%Q
  end.

(** Prior results that count as successes, and the reading of "success
    rate below 50%" in whole numbers: fewer than half are successes. *)
Definition successes (results : list SearchResult) : nat :=
  length (filter (fun r => truthy (title r) && truthy (website r)) results).

Definition below_half (results : list SearchResult) : bool :=
  (2 * successes results <? length results)%nat.

(** The rows that [filter_by(keyword_id=...)] selects from the table. *)
Definition filter_by_keyword_id (table : list SearchResult) (kid : Z)
  : list SearchResult :=
  filter (fun r => keyword_id r =? kid) table.

(** [orm] is the outcome of the mapper configuration, which
    [SearchResult.query] runs before it reads the table. *)
Definition calculate_keyword_adjustment (orm : result unit)
    (table : list SearchResult) (kw : Keyword) : result Z :=
  let adjustment := 0 in
  previous_results ← Orm.query orm (filter_by_keyword_id table (id kw));
  let adjustment :=
    match previous_results with
    | [] => adjustment
    | _ =>
        let success_rate := calculate_success_rate previous_results in
        if Qlt_le_dec success_rate (5 # 10) then adjustment + 2 else adjustment
    end in
  let word_count := Z.of_nat (length (Py.split (keyword kw))) in
  let adjustment := if 3 <? word_count then adjustment - 1 else adjustment in
  Ok adjustment.

Section OptimalTime.
(** The interpreter's [hash] on text.  It is keyed by a seed that the
    interpreter draws when it starts (unless PYTHONHASHSEED fixes it): a
    function of the text within one process, another one in the next. *)
Variable hash : Z -> Py.unicode -> Z.

Definition calculate_optimal_time (seed : Z) (orm : result unit)
    (table : list SearchResult) (kw : Keyword) (priority : string)
  : result string :=
  let base_hour := get_base_scraping_time priority in
  adjustment ← calculate_keyword_adjustment orm table kw;
  let adjusted_hour := (base_hour + adjustment) mod 24 in
  let random_minute := hash seed (keyword kw) mod 60 in
  Ok (Py.format_02d adjusted_hour ++ ":" ++ Py.format_02d random_minute)%string.
End OptimalTime.

(** The properties of the optimal time in the words of its description,
    written without the functions above.  The history of a keyword is what
    the table holds under its id; a result is a success when it has a
    title and a website, each a non-empty text; the rate is below 50% when
    there is a history and fewer than half of it are successes; a word is a
    maximal run of non-blank characters. *)
Definition spec_history (table : list SearchResult) (kid : Z) : list SearchResult :=
  List.filter (fun r => Z.eqb (keyword_id r) kid) table.

Definition spec_success (r : SearchResult) : bool :=
  match title r, website r with
  | Some t, Some w => negb (String.eqb t "") && negb (String.eqb w "")
  | _, _ => false
  end.

Definition spec_rate_below_half (history : list SearchResult) : bool :=
  (0 <? length history)%nat
  && (2 * length (List.filter spec_success history) <? length history)%nat.

Fixpoint spec_word_count (after_blank : bool) (s : Py.unicode) : nat :=
  match s with
  | [] => 0
  | c :: s' =>
      if Py.isspace c then spec_word_count true s'
      else ((if after_blank then 1 else 0) + spec_word_count false s')%nat
  end.

(** The columns [calculate_average_quality] reads. *)
Record QualityRow : Type := {
  q_title : option string;
  q_website : option string;
  q_phone : option string;
  q_stars : option Q
}.

(** Truth value of a nullable float column: [None] and [0.0] are false. *)
Definition truthy_float (o : option Q) : bool :=
  match o with
  | Some q => negb (Qnum q =? 0)
  | None => false
  end.

(** The body of the [for result in results] loop. *)
Definition quality_points (r : QualityRow) : Z :=
  let score := 0 in
  let score := if truthy (q_title r) then score + 30 else score in
  let score := if truthy (q_website r) then score + 30 else score in
  let score := if truthy (q_phone r) then score + 20 else score in
  let score := if truthy_float (q_stars r) then score + 20 else score in
  score.

Definition calculate_average_quality (results : list QualityRow) : Q :=
  match results with
  | [] => 0%Q
  | _ =>
      let quality_scores := quality_points <$> results in
      let total := foldr Z.add 0 quality_scores in
      (inject_Z total / inject_Z (Z.of_nat (length quality_scores)))%Q
  end.

(** One record of [performance_metrics]. *)
Record metric : Type := {
  timestamp : Q;
  result_count : Z;
  success : bool
}.

(** [update_performance_metrics]; [now] is [datetime.now()]. *)
Definition update_performance_metrics (performance_metrics : gmap Z (list metric))
    (now : Q) (kid : Z) (count : Z) : gmap Z (list metric) :=
  let history := default [] (performance_metrics !! kid) in
  let history :=
    (history ++ [{| timestamp := now; result_count := count;
                    success := 0 <? count |}])%list in
  let history :=
    if (10 <? length history)%nat
    then drop (length history - 10) history
    else history in
  <[kid := history]> performance_metrics.

(** An entry of [scheduled_tasks]. *)
Record task : Type := {
  task_id : string;
  scheduled_time : string;
  priority : string;
  status : string;
  updated_at : option Q
}.

(** The [for ... break] loop of [update_task_status]: the first task with
    the given id is updated, and only that one. *)
Fixpoint update_first (tasks : list task) (tid new_status : string) (now : Q)
  : list task :=
  match tasks with
  | [] => []
  | t :: rest =>
      if String.eqb (task_id t) tid
      then {| task_id := task_id t; scheduled_time := scheduled_time t;
              priority := priority t; status := new_status;
              updated_at := Some now |} :: rest
      else t :: update_first rest tid new_status now
  end.

(** [scheduled_tasks] is a [defaultdict(list)]: indexing a missing keyword
    creates its empty list. *)
Definition update_task_status (scheduled_tasks : gmap Z (list task))
    (kid : Z) (tid new_status : string) (now : Q) : gmap Z (list task) :=
  let tasks := default [] (scheduled_tasks !! kid) in
  <[kid := update_first tasks tid new_status now]> scheduled_tasks.

(** [cancel_scheduled_task]: the membership test does not create the key. *)
Definition cancel_scheduled_task (scheduled_tasks : gmap Z (list task))
    (kid : Z) (tid : string) : bool * gmap Z (list task) :=
  match scheduled_tasks !! kid with
  | Some tasks =>
      (true,
       <[kid := filter (fun t => negb (String.eqb (task_id t) tid)) tasks]>
         scheduled_tasks)
  | None => (false, scheduled_tasks)
  end.

(** [range(start, stop, step)] for a positive [step]; [fuel] bounds the
    number of elements. *)
Fixpoint range_step (fuel start stop step : nat) : list nat :=
  match fuel with
  | O => []
  | S fuel' =>
      if (start <? stop)%nat
      then start :: range_step fuel' (start + step) stop step
      else []
  end.

(** The list comprehension of [schedule_batch_processing]:
    [keyword_ids[i:i + batch_size] for i in range(0, len(keyword_ids),
    batch_size)].  A zero step makes [range] raise. *)
Definition batches (keyword_ids : list Z) (batch_size : nat) : result (list (list Z)) :=
  match batch_size with
  | O => Raise (ValueError "range() arg 3 must not be zero")
  | _ =>
      Ok ((fun i => take batch_size (drop i keyword_ids))
            <$> range_step (length keyword_ids) 0 (length keyword_ids) batch_size)
  end.

(** [(now + timedelta(minutes=i * delay)).strftime("%H:%M")], for [now] at
    [now_minutes] minutes past midnight. *)
Definition time_str (now_minutes : Z) (i : nat) (delay_minutes : Z) : string :=
  let m := (now_minutes + Z.of_nat i * delay_minutes) mod 1440 in
  (Py.format_02d (m / 60) ++ ":" ++ Py.format_02d (m mod 60))%string.

(** What [schedule_batch_processing] registers: for each batch, in order,
    the time of day and the batch.  [now i] is the clock at iteration [i]. *)
Definition schedule_batch_processing (now : nat -> Z) (keyword_ids : list Z)
    (batch_size : nat) (delay_minutes : Z) : result (list (string * list Z)) :=
  bs ← batches keyword_ids batch_size;
  Ok (imap (fun i batch => (time_str (now i) i delay_minutes, batch)) bs).

(** The methods that [class IntelligentScheduler] defines. *)
Definition class_methods : list string :=
  [ "__init__"; "start_scheduler"; "_run_scheduler"; "schedule_optimal_scraping";
    "calculate_optimal_time"; "get_base_scraping_time";
    "calculate_keyword_adjustment"; "execute_scheduled_scraping";
    "schedule_batch_processing"; "process_keyword_batch";
    "optimize_schedule_based_on_performance"; "analyze_scraping_performance";
    "calculate_success_rate"; "calculate_average_quality"; "update_task_status";
    "update_performance_metrics"; "get_scheduled_tasks"; "cancel_scheduled_task";
    "stop_scheduler" ].

Section Optimize.
Variable methods : list string.
(** What [reschedule_keyword] does where the class defines it. *)
Variable reschedule_keyword : Z -> result unit.
(** The outcome of the mapper configuration, which every query runs. *)
Variable orm : result unit.

(** [analyze_scraping_performance]: one entry per keyword of
    [Keyword.query.all()] (ids are primary keys), in that order, with the
    success rate of the keyword's results. *)
Fixpoint analyze_loop (table : list SearchResult) (keywords : list Keyword)
  : result (list (Z * Q)) :=
  match keywords with
  | [] => Ok []
  | kw :: rest =>
      results ← Orm.query orm (filter_by_keyword_id table (id kw));
      let success_rate := calculate_success_rate results in
      performance_data ← analyze_loop table rest;
      Ok ((id kw, success_rate) :: performance_data)
  end.

Definition analyze_scraping_performance (table : list SearchResult)
    (all_keywords : list Keyword) : result (list (Z * Q)) :=
  keywords ← Orm.query orm all_keywords;
  analyze_loop table keywords.

(** The loop of [optimize_schedule_based_on_performance] over the
    performance data; it returns the keywords it rescheduled. *)
Fixpoint optimize_loop (performance_data : list (Z * Q)) : result (list Z) :=
  match performance_data with
  | [] => Ok []
  | (kid, success_rate) :: rest =>
      if Qlt_le_dec success_rate (6 # 10)
      then
        _ ← Py.getattr methods "reschedule_keyword";
        _ ← reschedule_keyword kid;
        rescheduled ← optimize_loop rest;
        Ok (kid :: rescheduled)
      else optimize_loop rest
  end.

Definition optimize_schedule_based_on_performance (table : list SearchResult)
    (all_keywords : list Keyword) : result (list Z) :=
  performance_data ← analyze_scraping_performance table all_keywords;
  optimize_loop performance_data.
End Optimize.

End Scheduler.

(* ===================================================================== *)
(** * optimization/__init__.py : CacheManager *)
(* ===================================================================== *)

Module Cache.

(** An entry is a value with its expiry instant ([None]: no expiry).
    Values are text, which is what the Redis client hands back. *)
Definition entry : Type := string * option Q.

(** The Redis server as the client sees it: keys with an optional expiry,
    and a key whose expiry has passed is gone. *)
Definition redis_get (store : gmap string entry) (now : Q) (key : string)
  : option string :=
  match store !! key with
  | Some (value, Some expiry) =>
      if Qlt_le_dec now expiry then Some value else None
  | Some (value, None) => Some value
  | None => None
  end.

Definition redis_setex (store : gmap string entry) (now : Q) (key : string)
    (seconds : Q) (value : string) : gmap string entry :=
  <[key := (value, Some (now + seconds)%Q)]> store.

Definition redis_set (store : gmap string entry) (key value : string)
  : gmap string entry :=
  <[key := (value, None)]> store.

(** An entry is live at [now] when it has no expiry or [now] is before it. *)
Definition live (expiry : option Q) (now : Q) : Prop :=
  match expiry with
  | None => True
  | Some e => (now < e)%Q
  end.

(** [redis_client] is [None] when [setup_redis] found no server. *)
Record CacheManager : Type := {
  redis_client : option (gmap string entry);
  local_cache : gmap string entry
}.

(** [if expire_seconds] and [if value]: zero and the empty text are false. *)
Definition Qtruthy (q : Q) : bool := negb (Qnum q =? 0).
Definition str_truthy (s : string) : bool := negb (String.eqb s "").

(** [get(key)] at clock reading [now].  [redis_raises] tells whether the
    Redis command fails this time (the source catches it and logs). *)
Definition get (self : CacheManager) (now : Q) (redis_raises : bool)
    (key : string) : option string * CacheManager :=
  let try_redis (local : gmap string entry) :=
    match redis_client self with
    | Some store =>
        if redis_raises then (None, {| redis_client := Some store; local_cache := local |})
        else
          match redis_get store now key with
          | Some value =>
              if str_truthy value
              then (Some value,
                    {| redis_client := Some store;
                       local_cache := <[key := (value, Some (now + 300)%Q)]> local |})
              else (None, {| redis_client := Some store; local_cache := local |})
          | None => (None, {| redis_client := Some store; local_cache := local |})
          end
    | None => (None, {| redis_client := None; local_cache := local |})
    end in
  match local_cache self !! key with
  | Some (value, None) => (Some value, self)
  | Some (value, Some expiry) =>
      if Qlt_le_dec now expiry then (Some value, self)
      else try_redis (delete key (local_cache self))
  | None => try_redis (local_cache self)
  end.

(** [set(key, value, expire_seconds)] at clock reading [now]. *)
Definition set (self : CacheManager) (now : Q) (redis_raises : bool)
    (key value : string) (expire_seconds : Q) : CacheManager :=
  let expiry :=
    if Qtruthy expire_seconds then Some (now + expire_seconds)%Q else None in
  let local := <[key := (value, expiry)]> (local_cache self) in
  match redis_client self with
  | Some store =>
      if redis_raises then {| redis_client := Some store; local_cache := local |}
      else if Qtruthy expire_seconds
      then {| redis_client := Some (redis_setex store now key expire_seconds value);
              local_cache := local |}
      else {| redis_client := Some (redis_set store key value);
              local_cache := local |}
  | None => {| redis_client := None; local_cache := local |}
  end.

(** The value a read returns, from the two entries of its key: the local
    one, and the one in Redis ([None] without a client). *)
Definition answer (local_entry : option entry) (redis_entry : option (option entry))
    (now : Q) (redis_raises : bool) : option string :=
  let from_redis :=
    match redis_entry with
    | Some (Some (value, expiry)) =>
        if redis_raises then None
        else if str_truthy value
        then match expiry with
             | Some e => if Qlt_le_dec now e then Some value else None
             | None => Some value
             end
        else None
    | _ => None
    end in
  match local_entry with
  | Some (value, None) => Some value
  | Some (value, Some e) => if Qlt_le_dec now e then Some value else from_redis
  | None => from_redis
  end.

(** [delete(key)]: the local entry goes, and the Redis key when the
    command goes through. *)
Definition delete (self : CacheManager) (redis_raises : bool) (key : string)
  : CacheManager :=
  let local := base.delete key (local_cache self) in
  match redis_client self with
  | Some store =>
      if redis_raises then {| redis_client := Some store; local_cache := local |}
      else {| redis_client := Some (base.delete key store); local_cache := local |}
  | None => {| redis_client := None; local_cache := local |}
  end.

(** [clear()]: [local_cache.clear()] and [flushdb()]. *)
Definition clear (self : CacheManager) (redis_raises : bool) : CacheManager :=
  match redis_client self with
  | Some store =>
      if redis_raises then {| redis_client := Some store; local_cache := ∅ |}
      else {| redis_client := Some ∅; local_cache := ∅ |}
  | None => {| redis_client := None; local_cache := ∅ |}
  end.

End Cache.

Module QueryOptimizer.

(** [query.filter(model_class.id > last_id).order_by(model_class.id)
    .limit(batch_size).all()], on the primary keys of the table. *)
Definition next_batch (ids : list Z) (last_id : Z) (batch_size : nat) : list Z :=
  take batch_size (merge_sort Z.le (filter (fun i => last_id < i) ids)).

(** The [while True] loop of [batch_processing], called with the default
    [condition=None] on a table that does not change meanwhile: the rows
    the generator yields when it is consumed to the end.  After a batch,
    [last_id] is the id of its last row. *)
Fixpoint batch_loop (fuel : nat) (ids : list Z) (batch_size : nat) (last_id : Z)
  : option (list Z) :=
  match fuel with
  | O => None
  | S fuel' =>
      match next_batch ids last_id batch_size with
      | [] => Some []
      | batch =>
          rest ← batch_loop fuel' ids batch_size (default last_id (last batch));
          Some (batch ++ rest)%list
      end
  end.

(** Every round but the last yields at least one row, so one round more
    than there are rows is enough. *)
Definition batch_processing (ids : list Z) (batch_size : nat) : option (list Z) :=
  batch_loop (S (length ids)) ids batch_size 0.

End QueryOptimizer.

(* ===================================================================== *)
(** * app/services/scraper.py *)
(* ===================================================================== *)

Module Scraper.

(** What a harness call leaves behind, in program order. *)
Inductive effect : Type :=
| Sleep (seconds : Z)
| RandomDelay (lo hi : Z)
| Quit.

(** The methods that [class AdvancedScraperService] defines. *)
Definition class_methods : list string :=
  [ "__init__"; "load_proxy_list"; "load_user_agents"; "create_stealth_driver";
    "handle_captcha"; "scrape_google_maps_advanced"; "scroll_and_collect";
    "extract_visible_results"; "extract_business_data"; "extract_ratings";
    "extract_contact_info"; "enrich_business_data"; "discover_social_media" ].

(** The names bound at module level by the import statements, the
    [logger] assignment and the class statement. *)
Definition module_globals : list string :=
  [ "random"; "time"; "logging"; "webdriver"; "By"; "WebDriverWait"; "EC";
    "TimeoutException"; "NoSuchElementException"; "SearchResult"; "Keyword";
    "get_random_delay"; "rotate_user_agent"; "logger";
    "AdvancedScraperService" ].

(** [handle_captcha]: [captcha_elements] is the outcome of the XPath probe
    for text containing 'CAPTCHA' (the number of elements found). *)
Definition handle_captcha (captcha_elements : result nat) : bool * list effect :=
  match captcha_elements with
  | Ok n => if (0 <? n)%nat then (true, [Sleep 30]) else (false, [])
  | Raise _ => (false, [])
  end.

Section Collector.
Context {item : Type} `{EqDecision item}.

(** The page as the scroll loop observes it: at step [k], the listings
    extracted at the top of the iteration and the [scrollHeight] read at
    its end.  A driver call that raises leaves the loop; that path is the
    [Raise] of [scrape_body]'s earlier steps and is not repeated here. *)
Definition feed : Type := nat -> list item * Z.

Record loop_state : Type := {
  results : list item;
  last_height : Z;
  no_new_results_count : nat;
  steps : nat
}.

Definition max_no_new_results : nat := 3.

Definition initial : loop_state :=
  {| results := []; last_height := 0; no_new_results_count := 0; steps := 0 |}.

(** The [while] condition. *)
Definition continue (max_results : nat) (st : loop_state) : bool :=
  (length (results st) <? max_results)%nat
  && (no_new_results_count st <? max_no_new_results)%nat.

(** One iteration of the loop body. *)
Definition scroll_step (f : feed) (st : loop_state) : loop_state :=
  let current_results := (f (steps st)).1 in
  let new_results := filter (fun r => r ∉ results st) current_results in
  let count :=
    match new_results with
    | [] => S (no_new_results_count st)
    | _ => 0%nat
    end in
  let new_height := (f (steps st)).2 in
  let count := if new_height =? last_height st then S count else count in
  {| results := results st ++ new_results;
     last_height := new_height;
     no_new_results_count := count;
     steps := S (steps st) |}.

Fixpoint scroll_loop (fuel : nat) (f : feed) (max_results : nat)
    (st : loop_state) : option loop_state :=
  if continue max_results st then
    match fuel with
    | O => None
    | S fuel' => scroll_loop fuel' f max_results (scroll_step f st)
    end
  else Some st.

(** Iterations that certainly suffice from [st] (see [scroll_loop_total]). *)
Definition budget (max_results : nat) (st : loop_state) : nat :=
  3 * (max_results - length (results st))
  + (max_no_new_results - no_new_results_count st).

Definition scroll_and_collect (f : feed) (max_results : nat)
  : option (list item * nat) :=
  st ← scroll_loop (budget max_results initial) f max_results initial;
  Some (take max_results (results st), steps st).

(** A step of the feed is stalled with respect to what was collected and
    the height last seen: nothing new, same height. *)
Definition stalled_step (f : feed) (st : loop_state) : bool :=
  forallb (fun r => bool_decide (r ∈ results st)) (f (steps st)).1
  && ((f (steps st)).2 =? last_height st).

(** The state after [n] iterations of the body from the start. *)
Definition state_after (f : feed) (n : nat) : loop_state :=
  Nat.iter n (scroll_step f) initial.

(** The two stopping conditions as the specification words them, for a
    loop that has made [n] steps: (a) the target count is reached;
    (b) the last three steps all brought nothing new and no change of
    height. *)
Definition spec_stop_a (f : feed) (max_results n : nat) : Prop :=
  (max_results <= length (results (state_after f n)))%nat.

Definition spec_stop_b (f : feed) (n : nat) : Prop :=
  (3 <= n)%nat
  /\ forall j, (n - 3 <= j < n)%nat -> stalled_step f (state_after f j) = true.

(** Every collected listing was shown at an earlier step. *)
Definition collected_from (f : feed) (st : loop_state) : Prop :=
  forall r, r ∈ results st -> exists k, (k < steps st)%nat /\ r ∈ (f k).1.

(** From [st] on, the feed shows nothing new and its height stays. *)
Definition stalled_from (f : feed) (st : loop_state) : Prop :=
  forall j, (steps st <= j)%nat ->
    (forall r, r ∈ (f j).1 -> r ∈ results st) /\ (f j).2 = last_height st.

(** The loop in the words of its description, written without the
    functions above.  What has been collected after [n] steps: each step
    adds the shown listings that were not collected before.  The height
    known after [n] steps (0 at the start).  The counter after [n] steps: a
    step that brings no new listing adds 1, a step with new listings resets
    it to 0, and a step whose height equals the previous one adds 1 more.
    The loop has stopped after [n] steps when the count has reached the
    target or the counter has reached 3. *)
Fixpoint spec_collected (f : feed) (n : nat) : list item :=
  match n with
  | O => []
  | S k =>
      let seen := spec_collected f k in
      (seen ++ List.filter (fun r => negb (bool_decide (r ∈ seen))) (f k).1)%list
  end.

Definition spec_height (f : feed) (n : nat) : Z :=
  match n with
  | O => 0
  | S k => (f k).2
  end.

Definition spec_brings_new (f : feed) (k : nat) : bool :=
  existsb (fun r => negb (bool_decide (r ∈ spec_collected f k))) (f k).1.

Fixpoint spec_counter (f : feed) (n : nat) : nat :=
  match n with
  | O => O
  | S k =>
      let c := if spec_brings_new f k then O else S (spec_counter f k) in
      if (f k).2 =? spec_height f k then S c else c
  end.

Definition spec_stopped (f : feed) (max_results n : nat) : bool :=
  (max_results <=? length (spec_collected f n))%nat
  || (3 <=? spec_counter f n)%nat.

(** From step [m] on, the feed shows nothing that the first [m] steps did
    not collect, and its height stays what it was. *)
Definition spec_stalled_from (f : feed) (m : nat) : Prop :=
  forall j, (m <= j)%nat ->
    (forall r, r ∈ (f j).1 -> r ∈ spec_collected f m)
    /\ (f j).2 = spec_height f m.

Record Harness : Type := {
  create_stealth_driver : result unit;
  driver_get : result unit;
  captcha_elements : result nat;
  feed_located : bool;
  visible : feed
}.

(** The same browser on a page where the CAPTCHA probe finds [probe]. *)
Definition with_captcha_elements (h : Harness) (probe : result nat) : Harness :=
  {| create_stealth_driver := create_stealth_driver h;
     driver_get := driver_get h;
     captcha_elements := probe;
     feed_located := feed_located h;
     visible := visible h |}.

Section Scrape.
Variable methods : list string.
(** What [handle_popups] does where the class defines it. *)
Variable handle_popups : result unit.
Variable enrich_business_data : list item -> list item.

Definition scrape_body (h : Harness) (max_results : nat)
  : result (list item * list effect) :=
  _ ← driver_get h;
  _ ← Py.getattr methods "handle_popups";
  _ ← handle_popups;
  _ ← (if feed_located h then Ok tt else Raise TimeoutException);
  match scroll_and_collect (visible h) max_results with
  | Some (rs, n) =>
      Ok (enrich_business_data rs, replicate n (RandomDelay 2 4))
  | None => Raise (OtherException "scroll loop did not finish")
  end.

Definition scrape_google_maps_advanced (h : Harness) (max_results : nat)
  : list item * list effect :=
  match create_stealth_driver h with
  | Raise _ => ([], [])
  | Ok _ =>
      match scrape_body h max_results with
      | Ok (enriched_results, effs) => (enriched_results, (effs ++ [Quit])%list)
      | Raise TimeoutException => ([], [Quit])
      | Raise _ => ([], [Quit])
      end
  end.
End Scrape.
End Collector.

(** An element of [re.findall]'s result: text when the pattern has at most
    one group, a tuple of the groups otherwise. *)
Inductive re_match : Type :=
| MStr (s : string)
| MTuple (groups : list string).

Definition phone_patterns : list string :=
  [ "(\+?\d{1,2}[-.\s]?)?(\(?\d{3}\)?[-.\s]?)?\d{3}[-.\s]?\d{4}";
    "(\+?\d{1,2}[-.\s]?)?\d{5}[-.\s]?\d{5}";
    "\b\d{3}[-.\s]?\d{3}[-.\s]?\d{4}\b" ].

Definition address_pattern : string :=
  "\d+\s+[\w\s]+,?\s*\w+[\s\w]*,?\s*[A-Z]{2}\s*\d{5}".

Section Contact.
(** The module namespace is a parameter; the source's is
    [module_globals]. *)
Variable globals : list string.
Variable re_findall : string -> string -> list re_match.

(** The [for pattern in phone_patterns] loop, with its [break]. *)
Fixpoint phone_loop (patterns : list string) (text_content : string)
    (contact_data : gmap string re_match) : result (gmap string re_match) :=
  match patterns with
  | [] => Ok contact_data
  | pattern :: rest =>
      _ ← Py.load_global globals "re";
      match re_findall pattern text_content with
      | [] => phone_loop rest text_content contact_data
      | MTuple (g :: _) :: _ => Ok (<["phone" := MStr g]> contact_data)
      | MTuple [] :: _ => Raise (OtherException "IndexError")
      | MStr s :: _ => Ok (<["phone" := MStr s]> contact_data)
      end
  end.

Definition address_step (text_content : string)
    (contact_data : gmap string re_match) : result (gmap string re_match) :=
  _ ← Py.load_global globals "re";
  match re_findall address_pattern text_content with
  | m :: _ => Ok (<["address" := m]> contact_data)
  | [] => Ok contact_data
  end.

(** [item_text] is the outcome of reading [item.text].  Whatever raises
    inside the [try], the dictionary built so far is returned. *)
Definition extract_contact_info (item_text : result string)
  : gmap string re_match :=
  let contact_data : gmap string re_match := ∅ in
  match item_text with
  | Raise _ => contact_data
  | Ok text_content =>
      match phone_loop phone_patterns text_content contact_data with
      | Raise _ => contact_data
      | Ok contact_data =>
          match address_step text_content contact_data with
          | Raise _ => contact_data
          | Ok contact_data => contact_data
          end
      end
  end.
End Contact.

(** The [social_platforms] literal of [discover_social_media], in source
    order. *)
Definition social_platforms : list (string * string) :=
  [ ("facebook", "facebook.com"); ("instagram", "instagram.com");
    ("twitter", "twitter.com"); ("linkedin", "linkedin.com");
    ("youtube", "youtube.com") ].

(** The inner [for url in results] loop, with its [break]. *)
Fixpoint first_with_domain (domain : string) (urls : list string) : option string :=
  match urls with
  | [] => None
  | url :: rest =>
      if Py.contains url domain then Some url else first_with_domain domain rest
  end.

Section Social.
(** [from googlesearch import search], and [list(search(query,
    num_results=3, lang='en'))] for a query. *)
Variable import_search : result unit.
Variable search : string -> result (list string).

Fixpoint social_loop (platforms : list (string * string)) (search_query : string)
    (social_data : gmap string string) : gmap string string :=
  match platforms with
  | [] => social_data
  | (platform, domain) :: rest =>
      let query := (search_query ++ " " ++ domain)%string in
      match search query with
      | Ok results =>
          match first_with_domain domain results with
          | Some url => social_loop rest search_query (<[platform := url]> social_data)
          | None => social_loop rest search_query social_data
          end
      | Raise _ => social_loop rest search_query social_data
      end
  end.

Definition discover_social_media (business_name : string) : gmap string string :=
  match import_search with
  | Raise _ => ∅
  | Ok _ =>
      social_loop social_platforms (business_name ++ " official")%string ∅
  end.
End Social.

(** A value of a listing dictionary. *)
Inductive field : Type :=
| FNone
| FText (s : string)
| FNum (q : Q).

Definition field_truthy (f : field) : bool :=
  match f with
  | FNone => false
  | FText s => negb (String.eqb s "")
  | FNum q => negb (Qnum q =? 0)
  end.

(** The characters of the class [[\d.]]. *)
Definition number_char (c : ascii) : bool := Py.isdigit c || Ascii.eqb c ".".

(** [re.findall(r'[\d.]+', s)] on ASCII text: the maximal runs of digits
    and dots.  [cur] is the run being read, most recent character first. *)
Fixpoint findall_numbers_go (s : string) (cur : list ascii) : list string :=
  let flush (rest : list string) :=
    match cur with
    | [] => rest
    | _ => string_of_list_ascii (rev cur) :: rest
    end in
  match s with
  | EmptyString => flush []
  | String c s' =>
      if number_char c then findall_numbers_go s' (c :: cur)
      else flush (findall_numbers_go s' [])
  end.

Definition findall_numbers (s : string) : list string := findall_numbers_go s [].

(** The body under [if aria_label and 'stars' in aria_label.lower()] of
    [extract_ratings], up to its [break]; what was set before an exception
    stays set. *)
Definition rate (aria_label : string) : gmap string field :=
  match findall_numbers aria_label with
  | [] => ∅
  | first :: more =>
      match Py.float_of_text first with
      | Raise _ => ∅
      | Ok stars =>
          let ratings_data : gmap string field := {[ "stars" := FNum stars ]} in
          match more with
          | [] => ratings_data
          | second :: _ =>
              match Py.int_of_text (Py.remove_char "," second) with
              | Ok reviews => <["reviews" := FNum (inject_Z reviews)]> ratings_data
              | Raise _ => ratings_data
              end
          end
      end
  end.

(** The [for element in rating_elements] loop over the outcomes of
    [element.get_attribute('aria-label')]: the first label that mentions
    stars ends it. *)
Fixpoint ratings_loop (labels : list (result (option string))) : gmap string field :=
  match labels with
  | [] => ∅
  | Raise _ :: _ => ∅
  | Ok None :: rest => ratings_loop rest
  | Ok (Some aria_label) :: rest =>
      if negb (String.eqb aria_label "") && Py.contains (Py.lower aria_label) "stars"
      then rate aria_label
      else ratings_loop rest
  end.

(** [extract_ratings]; [rating_elements] is the outcome of
    [item.find_elements]. *)
Definition extract_ratings (rating_elements : result (list (result (option string))))
  : gmap string field :=
  match rating_elements with
  | Raise _ => ∅
  | Ok labels => ratings_loop labels
  end.

(** What a listing element answers to the probes of
    [extract_business_data]: the stripped text of its headline, the [href]
    of its first link, the [href]s of its links to [http] addresses, the
    labels of its rating images, and its text. *)
Record element : Type := {
  title_text : result string;
  link_href : result (option string);
  website_hrefs : result (list (option string));
  rating_labels : result (list (result (option string)));
  element_text : result string
}.

(** [except NoSuchElementException] lets every other exception through. *)
Definition is_no_such_element (e : exn) : bool :=
  match e with
  | OtherException msg => String.eqb msg "NoSuchElementException"
  | _ => false
  end.

Definition opt_text (o : option string) : field :=
  match o with
  | Some s => FText s
  | None => FNone
  end.

(** A phone is the text or the first group of a match, and the address
    pattern has no group: what [extract_contact_info] stores is text. *)
Definition field_of_match (m : re_match) : field :=
  match m with
  | MStr s => FText s
  | MTuple _ => FNone
  end.

(** The [for element in website_elements] loop, with its [break]. *)
Fixpoint first_outside_google (hrefs : list (option string)) : option string :=
  match hrefs with
  | [] => None
  | Some href :: rest =>
      if negb (String.eqb href "") && negb (Py.contains href "google.com")
      then Some href
      else first_outside_google rest
  | None :: rest => first_outside_google rest
  end.

Section Extract.
Variable methods : list string.
Variable globals : list string.
Variable re_findall : string -> string -> list re_match.
(** A body for [extract_metadata], which the source calls without
    defining. *)
Variable extract_metadata : element -> result (gmap string field).

(** [extract_business_data]: the dictionary is filled in place, and the
    outer handler returns it as far as it got. *)
Definition extract_business_data (item : element) (keyword_id : string)
  : gmap string field :=
  let data : gmap string field := {[ "keyword_id" := FText keyword_id ]} in
  match title_text item with
  | Raise _ => data
  | Ok t =>
      let data := <["title" := FText t]> data in
      let linked : result (gmap string field) :=
        match link_href item with
        | Ok href => Ok (<["link" := opt_text href]> data)
        | Raise e =>
            if is_no_such_element e then Ok (<["link" := FNone]> data) else Raise e
        end in
      match linked with
      | Raise _ => data
      | Ok data =>
          let sited : result (gmap string field) :=
            match website_hrefs item with
            | Ok hrefs =>
                Ok match first_outside_google hrefs with
                   | Some href => <["website" := FText href]> data
                   | None => data
                   end
            | Raise e =>
                if is_no_such_element e then Ok (<["website" := FNone]> data)
                else Raise e
            end in
          match sited with
          | Raise _ => data
          | Ok data =>
              let data := extract_ratings (rating_labels item) ∪ data in
              let data :=
                (field_of_match
                   <$> extract_contact_info globals re_findall (element_text item))
                ∪ data in
              match (_ ← Py.getattr methods "extract_metadata";
                     extract_metadata item) with
              | Ok metadata => metadata ∪ data
              | Raise _ => data
              end
          end
      end
  end.

(** [extract_visible_results]; [items] is the outcome of
    [driver.find_elements]. *)
Definition extract_visible_results (items : result (list element))
    (keyword_id : string) : result (list (gmap string field)) :=
  match items with
  | Raise e => if is_no_such_element e then Ok [] else Raise e
  | Ok items =>
      Ok (filter (fun business_data =>
                    field_truthy (default FNone (business_data !! "title")))
            ((fun item => extract_business_data item keyword_id) <$> items))
  end.
End Extract.

(** The entries a listing has before the ratings are added: the keyword,
    the headline, the link, and a website that is [None] or an address
    outside google.com. *)
Definition plain_entry (item : element) (keyword_id key : string) (v : field) : Prop :=
  (key = "keyword_id" /\ v = FText keyword_id)
  \/ (key = "title" /\ exists t, v = FText t /\ title_text item = Ok t)
  \/ key = "link"
  \/ (key = "website"
      /\ (v = FNone
          \/ exists href, v = FText href /\ href <> ""
                          /\ Py.contains href "google.com" = false)).

Definition rated_entry (item : element) (keyword_id key : string) (v : field) : Prop :=
  plain_entry item keyword_id key v \/ key = "stars" \/ key = "reviews".

Section Enrich.
Variable methods : list string.
(** [discover_social_media] on a title: it catches everything itself. *)
Variable discover : field -> gmap string field.
(** Bodies for the two methods the source calls without defining. *)
Variable preliminary_website_analysis : field -> result (gmap string field).
Variable categorize_business : field -> result field.

(** The body of the [for result in results] loop: the listing is updated
    in place, and what was done before an exception stays done. *)
Definition enrich_one (listing : gmap string field) : gmap string field :=
  let listing :=
    match listing !! "title" with
    | Some t => if field_truthy t then discover t ∪ listing else listing
    | None => listing
    end in
  let analysed : result (gmap string field) :=
    match listing !! "website" with
    | Some w =>
        if field_truthy w
        then
          _ ← Py.getattr methods "preliminary_website_analysis";
          website_data ← preliminary_website_analysis w;
          Ok (website_data ∪ listing)
        else Ok listing
    | None => Ok listing
    end in
  match analysed with
  | Raise _ => listing
  | Ok listing =>
      let categorized : result (gmap string field) :=
        _ ← Py.getattr methods "categorize_business";
        match listing !! "title" with
        | None => Raise (OtherException "KeyError")
        | Some t =>
            category ← categorize_business t;
            Ok (<["category" := category]> listing)
        end in
      match categorized with
      | Raise _ => listing
      | Ok listing => listing
      end
  end.

Definition enrich_business_data (results : list (gmap string field))
  : list (gmap string field) :=
  enrich_one <$> results.
End Enrich.

End Scraper.

(* ===================================================================== *)
(** * tasks/scraping.py, as a Celery worker runs it *)
(* ===================================================================== *)

Module Tasks.

Record Keyword : Type := {
  keyword : string;
  status : string;
  total_results : nat
}.

Definition with_status (kw : Keyword) (s : string) : Keyword :=
  {| keyword := keyword kw; status := s; total_results := total_results kw |}.

(** What an observer of the job sees, in order. *)
Inductive event : Type :=
| Attempt (retries : nat)
| Browser (e : Scraper.effect)
| CompletionAlert (keyword_id : Z) (saved_count : nat)
| SystemAlert (alert_type severity : string)
| RetryScheduled (countdown : Z).

(** The dictionary a finished task returns. *)
Record task_return : Type := {
  ret_status : string;
  results_count : option nat;
  error : option exn
}.

(** An invocation either returns, or leaves through [self.retry], which
    re-queues the task with [retries + 1] after [countdown] seconds. *)
Inductive outcome : Type :=
| Returned (r : task_return)
| Retry (countdown : Z) (exc : exn).

(** [@celery.task(bind=True, max_retries=3, default_retry_delay=60)] *)
Definition max_retries : nat := 3.
Definition default_retry_delay : Z := 60.

(** The calls of one invocation that leave the task's own code, in program
    order.  Each of them can raise; none of those in the handler is
    guarded. *)
Inductive step : Type :=
| QueryKeyword      (* [Keyword.query.get(keyword_id)] in the [try] block *)
| CommitInProgress  (* [db.session.commit()] after [status = 'in_progress'] *)
| SaveResults       (* [SearchResult(...)] and [db.session.add], per listing *)
| CommitCompleted   (* [db.session.commit()] after [status = 'completed'] *)
| NotifyCompletion  (* [NotificationService()], [send_scraping_completion_alert] *)
| HandlerQuery      (* [Keyword.query.get(keyword_id)] in the handler *)
| HandlerCommit     (* [db.session.commit()] after [status = 'error'] *)
| NotifyFailure.    (* [NotificationService()], [send_system_alert] *)

(** The calls that query a model or build an instance of one
    ([send_scraping_completion_alert] starts with [Keyword.query.get]):
    they run the mapper configuration. *)
Definition uses_models (s : step) : bool :=
  match s with
  | QueryKeyword | SaveResults | NotifyCompletion | HandlerQuery => true
  | CommitInProgress | CommitCompleted | HandlerCommit | NotifyFailure => false
  end.

(** The calls a [try] block with no listing to save goes through, and
    those of the handler. *)
Definition try_steps : list step :=
  [QueryKeyword; CommitInProgress; CommitCompleted; NotifyCompletion].
Definition handler_steps : list step :=
  [HandlerQuery; HandlerCommit; NotifyFailure].

Section Task.
Context {item : Type} `{EqDecision item}.
Variable scraper_methods : list string.
Variable handle_popups : result unit.
Variable enrich_business_data : list item -> list item.

(** What the outside world does during one invocation: how the browser
    behaves, and what each call of a collaborator (the models, the
    database session, the notifier) comes to. *)
Record attempt_env : Type := {
  harness : @Scraper.Harness item;
  collaborator : step -> result unit
}.

(** The world with the models as the repository declares them: every call
    that runs the mapper configuration gets its outcome. *)
Definition as_declared (env : attempt_env) : Prop :=
  forall s, uses_models s = true -> collaborator env s = Orm.mappers.

(** The world in which the given calls succeed. *)
Definition collaborators_work (steps : list step) (env : attempt_env) : Prop :=
  Forall (fun s => collaborator env s = Ok tt) steps.

Definition try_block (db : gmap Z Keyword) (env : attempt_env) (keyword_id : Z)
  : result nat * gmap Z Keyword * list event :=
  match collaborator env QueryKeyword with
  | Raise e => (Raise e, db, [])
  | Ok _ =>
  match db !! keyword_id with
  | None => (Raise (ValueError "Keyword not found"), db, [])
  | Some kw =>
  match collaborator env CommitInProgress with
  | Raise e => (Raise e, db, [])
  | Ok _ =>
      let db := <[keyword_id := with_status kw "in_progress"]> db in
      let scraped :=
        Scraper.scrape_google_maps_advanced scraper_methods handle_popups
          enrich_business_data (harness env) 50 in
      let evs := Browser <$> scraped.2 in
      let saved_count := length scraped.1 in
      match (match scraped.1 with
             | [] => Ok tt
             | _ => collaborator env SaveResults
             end) with
      | Raise e => (Raise e, db, evs)
      | Ok _ =>
      match collaborator env CommitCompleted with
      | Raise e => (Raise e, db, evs)
      | Ok _ =>
          let db :=
            <[keyword_id := {| keyword := keyword kw; status := "completed";
                               total_results := saved_count |}]> db in
          match collaborator env NotifyCompletion with
          | Raise e => (Raise e, db, evs)
          | Ok _ =>
              (Ok saved_count, db,
               (evs ++ [CompletionAlert keyword_id saved_count])%list)
          end
      end
      end
  end
  end
  end.

(** One invocation with [self.request.retries = retries].  [Raise] is an
    exception that leaves the task: the handler's own calls are not
    guarded, the worker records the task as failed with that exception and
    does not run it again. *)
Definition scrape_keyword_task (retries : nat) (db : gmap Z Keyword)
    (env : attempt_env) (keyword_id : Z)
  : result outcome * gmap Z Keyword * list event :=
  match try_block db env keyword_id with
  | (Ok saved_count, db, evs) =>
      (Ok (Returned {| ret_status := "completed";
                       results_count := Some saved_count;
                       error := None |}), db, evs)
  | (Raise e, db, evs) =>
      match collaborator env HandlerQuery with
      | Raise e' => (Raise e', db, evs)
      | Ok _ =>
          let committed :=
            match db !! keyword_id with
            | Some kw =>
                _ ← collaborator env HandlerCommit;
                Ok (<[keyword_id := with_status kw "error"]> db)
            | None => Ok db
            end in
          match committed with
          | Raise e' => (Raise e', db, evs)
          | Ok db =>
              if (retries <? max_retries)%nat
              then (Ok (Retry default_retry_delay e), db, evs)
              else
                match collaborator env NotifyFailure with
                | Raise e' => (Raise e', db, evs)
                | Ok _ =>
                    (Ok (Returned {| ret_status := "failed";
                                     results_count := None;
                                     error := Some e |}), db,
                     (evs ++ [SystemAlert "scraping_failure" "error"])%list)
                end
          end
      end
  end.

(** The worker: run the task, and run it again each time it asks for a
    retry.  [envs i] is the world during the invocation with
    [retries = i].  The job ends with the dictionary the task returns, or
    with the exception that left it. *)
Fixpoint run_job (fuel : nat) (retries : nat) (db : gmap Z Keyword)
    (envs : nat -> attempt_env) (keyword_id : Z)
  : option (result task_return * gmap Z Keyword * list event) :=
  match fuel with
  | O => None
  | S fuel' =>
      match scrape_keyword_task retries db (envs retries) keyword_id with
      | (Raise e, db, evs) => Some (Raise e, db, Attempt retries :: evs)
      | (Ok (Returned r), db, evs) => Some (Ok r, db, Attempt retries :: evs)
      | (Ok (Retry countdown _), db, evs) =>
          rest ← run_job fuel' (S retries) db envs keyword_id;
          Some (rest.1.1, rest.1.2,
                (Attempt retries :: evs ++ RetryScheduled countdown :: rest.2)%list)
      end
  end.
End Task.

(** The dictionary [batch_scraping_task] returns. *)
Record batch_return : Type := {
  total_keywords : nat;
  completed : nat;
  failed : nat;
  task_ids : list string
}.

(** The attributes of the bound task that this file uses.  The
    [get_priority_value] written after the [return] of
    [batch_scraping_task] is a nested function that is never defined, and
    not an attribute of the task. *)
Definition task_attributes : list string :=
  [ "request"; "max_retries"; "retry"; "update_state" ].

Section Batch.
Variable attributes : list string.
Variable get_priority_value : string -> result Z.
(** [scrape_keyword_task.apply_async(args=[keyword_id], queue='scraping',
    priority=...)]: the id of the queued task, or an exception. *)
Variable apply_async : Z -> Z -> result string.

(** The [for keyword_id in keyword_ids] loop; the state is
    [(results, completed, failed)]. *)
Fixpoint batch_loop (keyword_ids : list Z) (priority : string)
    (st : list string * nat * nat) : list string * nat * nat :=
  match keyword_ids with
  | [] => st
  | keyword_id :: rest =>
      let '(results, completed, failed) := st in
      let queued : result string :=
        _ ← Py.getattr attributes "get_priority_value";
        p ← get_priority_value priority;
        apply_async keyword_id p in
      let '(results, failed) :=
        match queued with
        | Ok r => ((results ++ [r])%list, failed)
        | Raise _ => (results, S failed)
        end in
      batch_loop rest priority (results, S completed, failed)
  end.

Definition batch_scraping_task (keyword_ids : list Z) (priority : string)
  : batch_return :=
  let '(results, completed, failed) := batch_loop keyword_ids priority ([], O, O) in
  {| total_keywords := length keyword_ids; completed := completed;
     failed := failed; task_ids := results |}.
End Batch.

(** [analyzer = IntelligentWebsiteAnalyzer()] followed by
    [analyzer.comprehensive_analysis(url)]: the class as written, on an
    empty cache; [clock] gives the two clock readings of the call. *)
Definition new_analyzer_call
    (basic_website_analysis technical_analysis seo_analysis
     security_analysis performance_analysis business_credibility_analysis
     : string -> result (gmap string Analyzer.pyval))
    (assign_grade : Z -> result Analyzer.pyval)
    (get_fallback_analysis : string -> result (gmap string Analyzer.pyval))
    (utcnow : Analyzer.pyval) (clock : string -> Q * Q) (url : string)
  : result (gmap string Analyzer.pyval) :=
  (Analyzer.comprehensive_analysis Analyzer.class_methods basic_website_analysis
     technical_analysis seo_analysis security_analysis performance_analysis
     business_credibility_analysis assign_grade get_fallback_analysis utcnow
     ∅ (clock url).1 (clock url).2 url).1.

(** [@celery.task(bind=True, max_retries=2, default_retry_delay=30)] of
    [tasks/analysis.py]. *)
Definition analysis_max_retries : nat := 2.
Definition analysis_retry_delay : Z := 30.

Section AnalysisTask.
(** The interpreter's [hash], and [comprehensive_analysis] on the
    [IntelligentWebsiteAnalyzer()] that the task creates. *)
Variable hash : string -> Z.
Variable comprehensive_analysis : string -> result (gmap string Analyzer.pyval).
(** Building and saving the [WebsiteAnalysis] row from an analysis
    dictionary and sending the notification: the score, or an exception. *)
Variable save_analysis : gmap string Analyzer.pyval -> result Z.

Definition cache_key (website : string) : string :=
  ("analysis_" ++ NilZero.string_of_int (Z.to_int (hash website)))%string.

(** The [try] block.  [website] is the column of the row that
    [SearchResult.query.get(result_id)] finds, if it finds one; [redis] is
    the shared store that the task's own [CacheManager()] connects to. *)
Definition analysis_try (website : option (option string))
    (redis : option (gmap string Cache.entry)) (now : Q) (redis_raises : bool)
  : result (Z * bool) :=
  match website with
  | Some (Some site) =>
      if String.eqb site "" then Raise (ValueError "no website")
      else
        let cache_manager :=
          {| Cache.redis_client := redis; Cache.local_cache := ∅ |} in
        match (Cache.get cache_manager now redis_raises (cache_key site)).1 with
        | Some cached_analysis =>
            if Cache.str_truthy cached_analysis
            then
              (* [analysis_data] is the cached text: [analysis_data.get] *)
              Raise (AttributeError "get")
            else
              analysis_data ← comprehensive_analysis site;
              score ← save_analysis analysis_data;
              Ok (score, false)
        | None =>
            analysis_data ← comprehensive_analysis site;
            score ← save_analysis analysis_data;
            Ok (score, false)
        end
  | _ => Raise (ValueError "not found or no website")
  end.

(** One invocation with [self.request.retries = retries]. *)
Definition analyze_website_task (retries : nat) (website : option (option string))
    (redis : option (gmap string Cache.entry)) (now : Q) (redis_raises : bool)
  : outcome :=
  match analysis_try website redis now redis_raises with
  | Ok (score, is_cached) =>
      Returned {| ret_status := "completed"; results_count := None; error := None |}
  | Raise e =>
      if (retries <? analysis_max_retries)%nat
      then Retry analysis_retry_delay e
      else Returned {| ret_status := "failed"; results_count := None;
                       error := Some e |}
  end.

(** The worker; [world i] is what the invocation with [retries = i] finds:
    the row's website, the Redis store, the clock, a Redis failure. *)
Fixpoint run_analysis_job (fuel retries : nat)
    (world : nat -> option (option string) * option (gmap string Cache.entry) * Q * bool)
  : option (task_return * list event) :=
  match fuel with
  | O => None
  | S fuel' =>
      let '(website, redis, now, redis_raises) := world retries in
      match analyze_website_task retries website redis now redis_raises with
      | Returned r => Some (r, [Attempt retries])
      | Retry countdown _ =>
          rest ← run_analysis_job fuel' (S retries) world;
          Some (rest.1, (Attempt retries :: RetryScheduled countdown :: rest.2)%list)
      end
  end.
End AnalysisTask.

Definition is_attempt (e : event) : bool :=
  match e with Attempt _ => true | _ => false end.
Definition is_system_alert (e : event) : bool :=
  match e with SystemAlert _ _ => true | _ => false end.
Definition is_completion_alert (e : event) : bool :=
  match e with CompletionAlert _ _ => true | _ => false end.
Definition is_sleep (e : event) : bool :=
  match e with Browser (Scraper.Sleep _) => true | _ => false end.
Definition retry_delays (evs : list event) : list Z :=
  omap (fun e => match e with RetryScheduled c => Some c | _ => None end) evs.

End Tasks.

(* ===================================================================== *)
(** * app/routes/keywords.py and app/routes/api.py *)
(* ===================================================================== *)

Module Routes.

(** The values a member of the posted JSON object can take here. *)
Inductive json : Type :=
| JNull
| JBool (b : bool)
| JNum (n : Z)
| JStr (s : string).

(** A row of the [Keyword] table; [status] defaults to 'pending'. *)
Record Keyword : Type := {
  keyword : json;
  status : string
}.

Record response : Type := {
  code : Z;
  body : gmap string json
}.

(** What [request.get_json()] hands to the view: any JSON value.  The
    members of an object and the items of an array are scalars here. *)
Inductive posted : Type :=
| BNull
| BBool (b : bool)
| BNum (n : Z)
| BText (s : string)
| BArray (items : list json)
| BObject (members : gmap string json).

(** [not data] *)
Definition falsy (data : posted) : bool :=
  match data with
  | BNull => true
  | BBool b => negb b
  | BNum n => n =? 0
  | BText s => String.eqb s ""
  | BArray items => match items with [] => true | _ => false end
  | BObject members => bool_decide (members = ∅)
  end.

Definition is_keyword (j : json) : bool :=
  match j with
  | JStr s => String.eqb s "keyword"
  | _ => false
  end.

(** ['keyword' in data]: a key of an object, an item of an array, a piece
    of a text; a number or a truth value is not a container. *)
Definition contains_keyword (data : posted) : result bool :=
  match data with
  | BObject members => Ok (bool_decide (is_Some (members !! "keyword")))
  | BArray items => Ok (existsb is_keyword items)
  | BText s => Ok (Py.contains s "keyword")
  | BNull | BBool _ | BNum _ => Raise (TypeError "argument is not iterable")
  end.

(** [not data or 'keyword' not in data] *)
Definition missing_keyword (data : posted) : result bool :=
  if falsy data then Ok true
  else present ← contains_keyword data; Ok (negb present).

(** [data['keyword']] *)
Definition subscript_keyword (data : posted) : result json :=
  match data with
  | BObject members =>
      match members !! "keyword" with
      | Some k => Ok k
      | None => Raise (OtherException "KeyError")
      end
  | BText _ | BArray _ => Raise (TypeError "indices must be integers")
  | BNull | BBool _ | BNum _ => Raise (TypeError "object is not subscriptable")
  end.

(** [data.get('max_results', 50)] *)
Definition get_max_results (data : posted) : result json :=
  match data with
  | BObject members => Ok (default (JNum 50) (members !! "max_results"))
  | _ => Raise (AttributeError "get")
  end.

(** The status of the answer: an exception that leaves a view makes the
    framework answer 500. *)
Definition status_code (answer : result response) : Z :=
  match answer with
  | Ok r => code r
  | Raise _ => 500
  end.

(** [create_keyword].  [orm] is the outcome of the mapper configuration,
    which [Keyword(...)] runs; [session] that of [db.session.commit()],
    which moreover raises on a null keyword, the column being declared
    [nullable=False].  Nothing in the view catches an exception. *)
Definition create_keyword (orm session : result unit) (table : list Keyword)
    (data : posted) : result response * list Keyword :=
  match missing_keyword data with
  | Raise e => (Raise e, table)
  | Ok true =>
      (Ok {| code := 400; body := {[ "error" := JStr "Keyword is required" ]} |},
       table)
  | Ok false =>
      let stored :=
        k ← subscript_keyword data;
        row ← Orm.construct orm {| keyword := k; status := "pending" |};
        _ ← session;
        _ ← match k with
            | JNull => Raise (OtherException "IntegrityError")
            | _ => Ok tt
            end;
        Ok row in
      match stored with
      | Raise e => (Raise e, table)
      | Ok row =>
          (Ok {| code := 201;
                 body := {[ "keyword" := keyword row;
                            "status" := JStr (status row) ]} |},
           (table ++ [row])%list)
      end
  end.

Section ApiScrape.
(** The scraper service call [scrape_google_maps_advanced(keyword,
    max_results)]: the number of results, or an exception. *)
Variable scrape : json -> json -> result nat.

(** [api_scrape_keyword]: only the scrape is inside the [try]. *)
Definition api_scrape_keyword (data : posted) : result response :=
  missing ← missing_keyword data;
  if missing : bool
  then Ok {| code := 400; body := {[ "error" := JStr "Keyword required" ]} |}
  else
    k ← subscript_keyword data;
    max_results ← get_max_results data;
    match scrape k max_results with
    | Ok n =>
        Ok {| code := 200;
              body := {[ "success" := JBool true; "keyword" := k;
                         "results_count" := JNum (Z.of_nat n) ]} |}
    | Raise _ =>
        Ok {| code := 500; body := {[ "success" := JBool false ]} |}
    end.
End ApiScrape.

(** The bodies that the description of the routes calls rejected: an
    empty one (null, false, zero, the empty text, array or object), and an
    object, array or text that holds no 'keyword'. *)
Definition spec_rejected (data : posted) : Prop :=
  data = BNull \/ data = BBool false \/ data = BNum 0 \/ data = BText ""
  \/ data = BArray []
  \/ (exists members, data = BObject members /\ members !! "keyword" = None)
  \/ (exists items, data = BArray items /\ Forall (fun j => j <> JStr "keyword") items)
  \/ (exists s, data = BText s /\ Py.contains s "keyword" = false).

(** How a posted value reads where text is expected. *)
Definition json_text (j : json) : string :=
  match j with
  | JNull => "None"
  | JBool true => "True"
  | JBool false => "False"
  | JNum n => NilZero.string_of_int (Z.to_int n)
  | JStr s => s
  end.

Section ApiAnalyze.
(** The two entry points of the module-level [analyzer_service];
    [comprehensive_analysis] reads and may extend the service's cache. *)
Variable comprehensive_analysis :
  gmap string (gmap string Analyzer.pyval * Q) -> string ->
  result (gmap string Analyzer.pyval) * gmap string (gmap string Analyzer.pyval * Q).
Variable basic_website_analysis : string -> result (gmap string Analyzer.pyval).

(** [api_analyze_website]: the response, the analysis it carries, and the
    service's cache afterwards. *)
Definition api_analyze_website
    (analysis_cache : gmap string (gmap string Analyzer.pyval * Q))
    (data : option (gmap string json))
  : response * option (gmap string Analyzer.pyval)
    * gmap string (gmap string Analyzer.pyval * Q) :=
  match data with
  | None =>
      ({| code := 400; body := {[ "error" := JStr "URL required" ]} |}, None,
       analysis_cache)
  | Some d =>
      match d !! "url" with
      | None =>
          ({| code := 400; body := {[ "error" := JStr "URL required" ]} |}, None,
           analysis_cache)
      | Some url =>
          let analysis_type := default (JStr "comprehensive") (d !! "analysis_type") in
          let '(analysis, analysis_cache) :=
            if match analysis_type with
               | JStr t => String.eqb t "comprehensive"
               | _ => false
               end
            then comprehensive_analysis analysis_cache (json_text url)
            else (basic_website_analysis (json_text url), analysis_cache) in
          match analysis with
          | Ok a =>
              ({| code := 200; body := {[ "success" := JBool true; "url" := url ]} |},
               Some a, analysis_cache)
          | Raise _ =>
              ({| code := 500; body := {[ "success" := JBool false ]} |}, None,
               analysis_cache)
          end
      end
  end.
End ApiAnalyze.

(** The names bound at module level in [app/routes/api.py]: its imports,
    the blueprint, the four services, the routes and the four helpers. *)
Definition api_globals : list string :=
  [ "Blueprint"; "jsonify"; "request"; "AdvancedScraperService";
    "IntelligentWebsiteAnalyzer"; "BusinessIntelligenceReporter";
    "IntelligentScheduler"; "db"; "bp"; "scraper_service"; "analyzer_service";
    "reporter_service"; "scheduler_service"; "api_scrape_keyword";
    "api_analyze_website"; "api_generate_report"; "api_schedule_scraping";
    "api_dashboard_analytics"; "api_batch_operations"; "get_system_summary";
    "get_performance_metrics"; "get_recent_activity"; "get_upcoming_tasks" ].

Section ApiBatch.
Variable globals : list string.
(** Bodies for the two functions the route calls and no module defines. *)
Variable batch_analyze_websites generate_batch_reports : list Z -> result Z.
(** The clock of the scheduler at each batch, in minutes past midnight. *)
Variable now : nat -> Z.

Definition count_text (n : Z) : string := NilZero.string_of_int (Z.to_int n).

(** [api_batch_operations]: the response and the batches registered with
    the scheduler.  [keyword_ids] is the posted array of ids, [None] when
    the member is absent. *)
Definition api_batch_operations (data : option (gmap string json))
    (keyword_ids : option (list Z)) : response * list (string * list Z) :=
  match data ≫= (.!! "operation") with
  | None =>
      ({| code := 400; body := {[ "error" := JStr "Operation type required" ]} |}, [])
  | Some operation =>
      let keyword_ids := default [] keyword_ids in
      let operation_is (name : string) :=
        match operation with
        | JStr s => String.eqb s name
        | _ => false
        end in
      let succeeded (message : string) :=
        {| code := 200;
           body := {[ "success" := JBool true; "message" := JStr message;
                      "operation" := operation ]} |} in
      let failed := {| code := 500; body := {[ "success" := JBool false ]} |} in
      if operation_is "scrape" then
        match Scheduler.schedule_batch_processing now keyword_ids 5 30 with
        | Ok registered =>
            (succeeded ("Scheduled batch scraping for "
                   ++ count_text (Z.of_nat (length keyword_ids)) ++ " keywords"),
             registered)
        | Raise _ => (failed, [])
        end
      else if operation_is "analyze" then
        match (_ ← Py.load_global globals "batch_analyze_websites";
               batch_analyze_websites keyword_ids) with
        | Ok analyzed_count =>
            (succeeded ("Analyzed " ++ count_text analyzed_count ++ " websites"), [])
        | Raise _ => (failed, [])
        end
      else if operation_is "report" then
        match (_ ← Py.load_global globals "generate_batch_reports";
               generate_batch_reports keyword_ids) with
        | Ok reports_generated =>
            (succeeded ("Generated " ++ count_text reports_generated ++ " reports"), [])
        | Raise _ => (failed, [])
        end
      else ({| code := 400; body := {[ "error" := JStr "Invalid operation" ]} |}, [])
  end.
End ApiBatch.

Section ApiDashboard.
Variable globals : list string.
(** The queries of [get_system_summary], and bodies for the four functions
    [get_performance_metrics] calls and no module defines. *)
Variable get_system_summary : result unit.
Variable calculate_scraping_success_rate calculate_analysis_success_rate
         get_average_scraping_time get_system_uptime : result Q.
Variable get_recent_activity : result unit.

Definition get_performance_metrics : result (list Q) :=
  _ ← Py.load_global globals "calculate_scraping_success_rate";
  a ← calculate_scraping_success_rate;
  _ ← Py.load_global globals "calculate_analysis_success_rate";
  b ← calculate_analysis_success_rate;
  _ ← Py.load_global globals "get_average_scraping_time";
  c ← get_average_scraping_time;
  _ ← Py.load_global globals "get_system_uptime";
  d ← get_system_uptime;
  Ok [a; b; c; d].

(** The status of [api_dashboard_analytics]. *)
Definition api_dashboard_analytics : Z :=
  match (_ ← get_system_summary;
         _ ← get_performance_metrics;
         get_recent_activity) with
  | Ok _ => 200
  | Raise _ => 500
  end.
End ApiDashboard.

End Routes.

(* ===================================================================== *)
(** * app/models/__init__.py *)
(* ===================================================================== *)

Module Models.

(** The columns of [SearchResult] that the quality code reads. *)
Record SearchResult : Type := {
  title : option string;
  website : option string;
  phone : option string;
  email : option string;
  stars : option Q;
  facebook : option string;
  instagram : option string;
  linkedin : option string;
  twitter : option string;
  has_website : bool;
  has_contact : bool;
  has_social : bool
}.

Definition truthy (o : option string) : bool :=
  match o with
  | Some s => negb (String.eqb s "")
  | None => false
  end.

Definition truthy_float (o : option Q) : bool :=
  match o with
  | Some q => negb (Qnum q =? 0)
  | None => false
  end.

Definition quality_score (self : SearchResult) : Z :=
  let score := 0 in
  let score := if truthy (title self) then score + 20 else score in
  let score := if truthy (website self) then score + 30 else score in
  let score := if truthy (phone self) || truthy (email self) then score + 20 else score in
  let score := if truthy_float (stars self) then score + 15 else score in
  let score :=
    if truthy (facebook self) || truthy (instagram self) || truthy (linkedin self)
    then score + 15 else score in
  score.

Definition update_quality_flags (self : SearchResult) : SearchResult :=
  {| title := title self; website := website self; phone := phone self;
     email := email self; stars := stars self; facebook := facebook self;
     instagram := instagram self; linkedin := linkedin self;
     twitter := twitter self;
     has_website := truthy (website self);
     has_contact := truthy (phone self) || truthy (email self);
     has_social := truthy (facebook self) || truthy (instagram self)
                   || truthy (linkedin self) || truthy (twitter self) |}.

(** [Keyword.update_stats]: the new [(total_results, success_rate)], given
    the keyword's results and its present rate. *)
Definition update_stats (results : list SearchResult) (success_rate : Q) : nat * Q :=
  let total_results := length results in
  let successful_results :=
    length (filter (fun r => bool_decide (title r <> None)
                             && bool_decide (website r <> None)) results) in
  if (0 <? total_results)%nat
  then (total_results,
        (inject_Z (Z.of_nat successful_results)
         / inject_Z (Z.of_nat total_results) * 100)%Q)
  else (total_results, success_rate).

(** [issues='|'.join(...)] in [analyze_website_task], and
    [self.issues.split('|') if self.issues else []] in [to_dict]. *)
Definition store_issues (issues : list string) : string := Py.join "|" issues.

Definition load_issues (issues : string) : list string :=
  if String.eqb issues "" then [] else Py.split_on "|"%char issues.

(** No '|' in an issue text. *)
Definition no_bar (s : string) : bool :=
  forallb (fun c => negb (Ascii.eqb c "|"%char)) (list_ascii_of_string s).

(** [r'] has every field that [r] has. *)
Definition fills (r r' : SearchResult) : Prop :=
  (truthy (title r) = true -> truthy (title r') = true)
  /\ (truthy (website r) = true -> truthy (website r') = true)
  /\ (truthy (phone r) = true -> truthy (phone r') = true)
  /\ (truthy (email r) = true -> truthy (email r') = true)
  /\ (truthy_float (stars r) = true -> truthy_float (stars r') = true)
  /\ (truthy (facebook r) = true -> truthy (facebook r') = true)
  /\ (truthy (instagram r) = true -> truthy (instagram r') = true)
  /\ (truthy (linkedin r) = true -> truthy (linkedin r') = true).

End Models.

(* ===================================================================== *)
(** * Properties *)
(* ===================================================================== *)

(** ** Python helpers *)

(** Membership of a literal in a literal list, decided by evaluation. *)
Ltac decide_absent :=
  apply (proj1 (bool_decide_eq_false _)); vm_compute; reflexivity.
Ltac decide_present :=
  apply (proj1 (bool_decide_eq_true _)); vm_compute; reflexivity.

Lemma ok_inj {A} (a b : A) : Ok a = Ok b -> a = b.
Proof. congruence. Qed.

Lemma bind_ok {A B} (a : A) (k : A -> result B) : (Ok a ≫= k) = k a.
Proof. reflexivity. Qed.

Lemma bind_raise {A B} (e : exn) (k : A -> result B) : (Raise e ≫= k) = Raise e.
Proof. reflexivity. Qed.

Lemma getattr_defined methods attr :
  attr ∈ methods -> Py.getattr methods attr = Ok tt.
Proof. intros Hin. unfold Py.getattr. by rewrite bool_decide_eq_true_2. Qed.

Lemma getattr_undefined methods attr :
  attr ∉ methods -> Py.getattr methods attr = Raise (AttributeError attr).
Proof. intros Hin. unfold Py.getattr. by rewrite bool_decide_eq_false_2. Qed.

Lemma load_global_unbound globals name :
  name ∉ globals -> Py.load_global globals name = Raise (NameError name).
Proof. intros Hin. unfold Py.load_global. by rewrite bool_decide_eq_false_2. Qed.

Lemma load_global_bound globals name :
  name ∈ globals -> Py.load_global globals name = Ok tt.
Proof. intros Hin. unfold Py.load_global. by rewrite bool_decide_eq_true_2. Qed.

(** [int()] of a float that is at least [n] is at least [n], for [n >= 0]. *)
Lemma int_lower_bound (q : Q) (n : Z) :
  0 <= n -> (inject_Z n <= q)%Q -> n <= Py.int q.
Proof.
  intros Hn Hle. unfold Py.int. unfold Qle in Hle. simpl in Hle.
  apply Z.quot_le_lower_bound; lia.
Qed.

(** ** The analyzer *)

Section AnalyzerFacts.
Import Analyzer.

(** The composite never exceeds 100. *)
Lemma calculate_overall_score_le_100 d z :
  calculate_overall_score d = Ok z -> z <= 100.
Proof.
  unfold calculate_overall_score.
  destruct (accumulate weights d (0%Q, 0%Q)) as [[ts tw]|e]; simpl; [|discriminate].
  destruct (Qlt_le_dec 0 tw); intros [= <-]; lia.
Qed.

(** What the code computes from the two sums: the quotient is scaled by
    100 before it is truncated and capped. *)
Lemma calculate_overall_score_scaled d ts tw :
  accumulate weights d (0%Q, 0%Q) = Ok (ts, tw) ->
  (0 < tw)%Q ->
  calculate_overall_score d = Ok (Z.min 100 (Py.int (ts / tw * 100)%Q)).
Proof.
  intros Hacc Hpos. unfold calculate_overall_score. rewrite Hacc. simpl.
  destruct (Qlt_le_dec 0 tw) as [_|Hle]; [reflexivity|].
  exfalso. apply (Qlt_not_le _ _ Hpos Hle).
Qed.

(** Hence every quotient of at least 1 is reported as 100. *)
Lemma calculate_overall_score_saturates d ts tw :
  accumulate weights d (0%Q, 0%Q) = Ok (ts, tw) ->
  (0 < tw)%Q -> (1 <= ts / tw)%Q ->
  calculate_overall_score d = Ok 100.
Proof.
  intros Hacc Hpos Hone.
  rewrite (calculate_overall_score_scaled d ts tw Hacc Hpos). f_equal.
  apply Z.min_l. apply int_lower_bound; [lia|].
  change (inject_Z 100) with (1 * 100)%Q.
  apply Qmult_le_compat_r; [exact Hone | discriminate].
Qed.

(** C1 (evaluation at the failing input).  With the single sub-score
    [seo_score = 50] the weighted mean of the sub-scores present is 50,
    and [calculate_overall_score] returns 100: it multiplies the mean by
    100 before capping.  All intermediate values (12.5, 0.25, 50, 5000)
    are exact in binary floating point. *)
Theorem calculate_overall_score_seo_50 :
  calculate_overall_score {[ "seo_score" := VNum 50 ]} = Ok 100
  /\ (spec_weighted_mean {[ "seo_score" := VNum 50 ]} == 50)%Q.
Proof. split; [vm_compute; reflexivity | vm_compute; reflexivity]. Qed.

(** The input of the repository's own [test_score_calculation]. *)
Example calculate_overall_score_test_data :
  let test_data : gmap string pyval :=
    <["seo_score" := VNum 80]> (<["security_score" := VNum 90]>
    (<["performance_score" := VNum 70]> (<["credibility_score" := VNum 85]>
    {[ "basic_score" := VNum 75 ]}))) in
  calculate_overall_score test_data = Ok 100
  /\ (spec_weighted_mean test_data == 8025 # 100)%Q.
Proof. split; vm_compute; reflexivity. Qed.

Example calculate_overall_score_empty : calculate_overall_score ∅ = Ok 0.
Proof. reflexivity. Qed.

Lemma overall_grade_cases (s : Z) :
  (90 <= s /\ overall_grade s = "A+")
  \/ (80 <= s < 90 /\ overall_grade s = "A")
  \/ (70 <= s < 80 /\ overall_grade s = "B")
  \/ (60 <= s < 70 /\ overall_grade s = "C")
  \/ (50 <= s < 60 /\ overall_grade s = "D")
  \/ (s < 50 /\ overall_grade s = "F").
Proof.
  unfold overall_grade.
  destruct (Z.leb_spec 90 s); [left; auto|].
  destruct (Z.leb_spec 80 s); [right; left; auto with zarith|].
  destruct (Z.leb_spec 70 s); [do 2 right; left; auto with zarith|].
  destruct (Z.leb_spec 60 s); [do 3 right; left; auto with zarith|].
  destruct (Z.leb_spec 50 s); [do 4 right; left; auto with zarith|].
  do 5 right. auto.
Qed.

(** C2.  The grade of a composite score is read off the fixed table
    (>=90 A+, >=80 A, >=70 B, >=60 C, >=50 D, else F); being a function of
    the score it is deterministic, and it is monotone: a score that is not
    smaller never gets a lower grade. *)
Theorem overall_grade_table_monotone (s s' : Z) :
  s <= s' ->
  follows_table s (overall_grade s)
  /\ (grade_rank (overall_grade s) <= grade_rank (overall_grade s'))%nat.
Proof.
  intros Hle. split.
  - unfold follows_table.
    destruct (overall_grade_cases s) as [[? ->]|[[? ->]|[[? ->]|[[? ->]|[[? ->]|[? ->]]]]]];
      repeat split; intros; solve [reflexivity | lia].
  - destruct (overall_grade_cases s) as [[? ->]|[[? ->]|[[? ->]|[[? ->]|[[? ->]|[? ->]]]]]];
    destruct (overall_grade_cases s') as [[? ->]|[[? ->]|[[? ->]|[[? ->]|[[? ->]|[? ->]]]]]];
      solve [vm_compute; lia | lia].
Qed.

Lemma overall_grade_table_monotone_witness :
  75 <= 92
  /\ follows_table 75 (overall_grade 75)
  /\ (grade_rank (overall_grade 75) <= grade_rank (overall_grade 92))%nat.
Proof. split; [lia | apply (overall_grade_table_monotone 75 92); lia]. Defined.

Example overall_grade_75 : overall_grade 75 = "B".
Proof. reflexivity. Qed.

(** Neither method is defined by the class. *)
Lemma assign_grade_undefined : "assign_grade" ∉ class_methods.
Proof. decide_absent. Qed.

Lemma get_fallback_analysis_undefined : "get_fallback_analysis" ∉ class_methods.
Proof. decide_absent. Qed.

Section Fresh.
Variables basic_website_analysis technical_analysis seo_analysis
  security_analysis performance_analysis business_credibility_analysis
  : string -> result (gmap string pyval).
Variable assign_grade : Z -> result pyval.
Variable get_fallback_analysis : string -> result (gmap string pyval).
Variable utcnow : pyval.

(** Whatever the passes do, the [try] block does not complete. *)
Lemma fresh_analysis_raises url :
  exists e,
    fresh_analysis class_methods basic_website_analysis technical_analysis
      seo_analysis security_analysis performance_analysis
      business_credibility_analysis assign_grade utcnow url = Raise e.
Proof.
  unfold fresh_analysis.
  destruct (basic_website_analysis url); [|eauto].
  destruct (technical_analysis url); [|eauto].
  destruct (seo_analysis url); [|eauto].
  destruct (security_analysis url); [|eauto].
  destruct (performance_analysis url); [|eauto].
  destruct (business_credibility_analysis url); [|eauto].
  rewrite !bind_ok.
  destruct (calculate_overall_score _); [|eauto].
  rewrite bind_ok, (getattr_undefined _ _ assign_grade_undefined). eauto.
Qed.
End Fresh.

(** C10.  For a URL with no cache entry, or with an entry at least an hour
    old, [comprehensive_analysis] raises instead of returning a result and
    leaves the cache as it was: when the six passes and the composite
    computation succeed, the [try] block stops at the call of the undefined
    [assign_grade]; whatever stopped it, the handler calls the undefined
    [get_fallback_analysis]. *)
Theorem comprehensive_analysis_fresh_raises
    (basic_website_analysis technical_analysis seo_analysis
     security_analysis performance_analysis business_credibility_analysis
     : string -> result (gmap string pyval))
    (assign_grade : Z -> result pyval)
    (get_fallback_analysis : string -> result (gmap string pyval))
    (utcnow : pyval)
    (analysis_cache : gmap string (gmap string pyval * Q))
    (now later : Q) (url : string) :
  needs_fresh analysis_cache now url ->
  comprehensive_analysis class_methods basic_website_analysis
    technical_analysis seo_analysis security_analysis performance_analysis
    business_credibility_analysis assign_grade get_fallback_analysis utcnow
    analysis_cache now later url
  = (Raise (AttributeError "get_fallback_analysis"), analysis_cache)
  /\ (forall r1 r2 r3 r4 r5 r6 score,
        basic_website_analysis url = Ok r1 ->
        technical_analysis url = Ok r2 ->
        seo_analysis url = Ok r3 ->
        security_analysis url = Ok r4 ->
        performance_analysis url = Ok r5 ->
        business_credibility_analysis url = Ok r6 ->
        calculate_overall_score
          (update (update (update (update (update (update ∅ r1) r2) r3) r4) r5) r6)
        = Ok score ->
        fresh_analysis class_methods basic_website_analysis technical_analysis
          seo_analysis security_analysis performance_analysis
          business_credibility_analysis assign_grade utcnow url
        = Raise (AttributeError "assign_grade")).
Proof.
  intros Hfresh. split.
  - unfold comprehensive_analysis, needs_fresh in *.
    destruct (fresh_analysis_raises basic_website_analysis technical_analysis
                seo_analysis security_analysis performance_analysis
                business_credibility_analysis assign_grade utcnow url) as [e ->].
    rewrite (getattr_undefined _ _ get_fallback_analysis_undefined), bind_raise.
    destruct (analysis_cache !! url) as [[cached ts]|]; [|reflexivity].
    destruct (Qlt_le_dec (now - ts) cache_timeout) as [Hlt|_]; [|reflexivity].
    exfalso. apply (Qlt_not_le _ _ Hlt Hfresh).
  - intros r1 r2 r3 r4 r5 r6 score H1 H2 H3 H4 H5 H6 Hscore.
    unfold fresh_analysis. rewrite H1, H2, H3, H4, H5, H6, !bind_ok, Hscore, bind_ok.
    rewrite (getattr_undefined _ _ assign_grade_undefined). reflexivity.
Qed.

Lemma comprehensive_analysis_fresh_raises_witness :
  needs_fresh ∅ 0 "https://example.com"
  /\ comprehensive_analysis class_methods
       (fun _ => Ok ∅) (fun _ => Ok ∅) (fun _ => Ok {[ "seo_score" := VNum 50 ]})
       (fun _ => Ok ∅) (fun _ => Ok ∅) (fun _ => Ok ∅)
       (fun s => Ok (VOther (overall_grade s))) (fun _ => Ok ∅) (VOther "now")
       ∅ 0 1 "https://example.com"
     = (Raise (AttributeError "get_fallback_analysis"), ∅).
Proof.
  split; [exact I | apply comprehensive_analysis_fresh_raises; exact I].
Defined.

Example fresh_analysis_stops_at_assign_grade :
  fresh_analysis class_methods
    (fun _ => Ok ∅) (fun _ => Ok ∅) (fun _ => Ok {[ "seo_score" := VNum 50 ]})
    (fun _ => Ok ∅) (fun _ => Ok ∅) (fun _ => Ok ∅)
    (fun s => Ok (VOther (overall_grade s))) (VOther "now") "https://example.com"
  = Raise (AttributeError "assign_grade").
Proof. vm_compute. reflexivity. Qed.

(** A live cache entry is returned without running anything. *)
Lemma comprehensive_analysis_hit
    methods p1 p2 p3 p4 p5 p6 ag fb (utcnow : pyval)
    (analysis_cache : gmap string (gmap string pyval * Q))
    (now later : Q) url cached ts :
  analysis_cache !! url = Some (cached, ts) ->
  (now - ts < cache_timeout)%Q ->
  comprehensive_analysis methods p1 p2 p3 p4 p5 p6 ag fb utcnow
    analysis_cache now later url = (Ok cached, analysis_cache).
Proof.
  intros Hin Hlt. unfold comprehensive_analysis. rewrite Hin.
  destruct (Qlt_le_dec (now - ts) cache_timeout) as [_|Hle]; [reflexivity|].
  exfalso. apply (Qlt_not_le _ _ Hlt Hle).
Qed.

(** Were the two methods defined, a fresh analysis would return and be
    written to the cache: the exception is due to the method table. *)
Example comprehensive_analysis_with_methods :
  (comprehensive_analysis ("assign_grade" :: class_methods)
     (fun _ => Ok ∅) (fun _ => Ok ∅) (fun _ => Ok ∅)
     (fun _ => Ok ∅) (fun _ => Ok ∅) (fun _ => Ok ∅)
     (fun s => Ok (VOther (overall_grade s))) (fun _ => Ok ∅) (VOther "now")
     ∅ 0 1 "u").2 !! "u"
  = Some (<["grade" := VOther "F"]> (<["analysis_timestamp" := VOther "now"]>
            (<["overall_score" := VNum 0]> ∅)), 1%Q).
Proof. vm_compute. reflexivity. Qed.

End AnalyzerFacts.

(** ** The scheduler *)

Section SchedulerFacts.
Import Scheduler.

(** The comparison of a ratio of counts with 0.5, in whole numbers. *)
Lemma ratio_below_half (s n : nat) :
  (0 < n)%nat ->
  (if Qlt_le_dec (inject_Z (Z.of_nat s) / inject_Z (Z.of_nat n)) (5 # 10)
   then true else false) = (2 * s <? n)%nat.
Proof.
  intros Hn. destruct n as [|n']; [lia|].
  destruct (Qlt_le_dec _ _) as [H|H]; symmetry;
    [apply Nat.ltb_lt | apply Nat.ltb_ge];
    unfold Qlt, Qle, Qdiv, Qmult, Qinv, inject_Z in H; simpl in H; lia.
Qed.

(** The float comparison [success_rate < 0.5] on a non-empty history says
    that fewer than half of the results are successes. *)
Lemma success_rate_below_half (r : SearchResult) (rs : list SearchResult) :
  (if Qlt_le_dec (calculate_success_rate (r :: rs)) (5 # 10) then true else false)
  = below_half (r :: rs).
Proof.
  unfold below_half. rewrite <- ratio_below_half by (simpl; lia). reflexivity.
Qed.

(** The mappers of the classes as declared do not configure:
    [Keyword.analyses] targets [WebsiteAnalysis], and neither table has a
    foreign key to the other. *)
Lemma mappers_raise : Orm.mappers = Raise (OtherException "NoForeignKeysError").
Proof. reflexivity. Qed.

(** With a foreign key from [website_analyses] to [keywords] they would. *)
Example mappers_with_foreign_key :
  Orm.configure_mappers
    [ Orm.Keyword; Orm.SearchResult;
      {| Orm.class_name := "WebsiteAnalysis"; Orm.tablename := "website_analyses";
         Orm.foreign_keys := ["search_results"; "keywords"];
         Orm.relationships := [] |} ]
  = Ok tt.
Proof. reflexivity. Qed.

Lemma filter_Is_true {A} (f : A -> bool) (l : list A) :
  filter (fun a => Is_true (f a)) l = List.filter f l.
Proof.
  induction l as [|a l IH]; [reflexivity|].
  rewrite filter_cons. simpl. rewrite IH.
  destruct (decide (Is_true (f a))) as [H|H]; destruct (f a); simpl in *;
    try reflexivity; exfalso; [exact H | apply H; exact I].
Qed.

Lemma filter_by_keyword_id_history table kid :
  filter_by_keyword_id table kid = spec_history table kid.
Proof. unfold filter_by_keyword_id, spec_history. apply filter_Is_true. Qed.

Lemma successes_spec (rs : list SearchResult) :
  successes rs = length (List.filter spec_success rs).
Proof.
  unfold successes.
  rewrite (filter_Is_true (fun r => truthy (title r) && truthy (website r))).
  f_equal. apply List.filter_ext. intros r. unfold spec_success, truthy.
  destruct (title r), (website r); simpl; try reflexivity.
  by rewrite andb_false_r.
Qed.

Lemma split_go_length (s : Py.unicode) (cur : list Z) :
  length (Py.split_go s cur)
  = match cur with
    | [] => spec_word_count true s
    | _ => S (spec_word_count false s)
    end.
Proof.
  revert cur. induction s as [|c s IH]; intros cur.
  - destruct cur; reflexivity.
  - cbn [Py.split_go spec_word_count]. destruct (Py.isspace c).
    + rewrite <- (IH []). destruct cur; reflexivity.
    + rewrite (IH (c :: cur)). destruct cur; reflexivity.
Qed.

Lemma split_length (s : Py.unicode) :
  length (Py.split s) = spec_word_count true s.
Proof. apply split_go_length. Qed.

Lemma calculate_keyword_adjustment_spec table kw :
  calculate_keyword_adjustment (Ok tt) table kw
  = Ok ((if spec_rate_below_half (spec_history table (id kw)) then 2 else 0)
        - (if (3 <? spec_word_count true (keyword kw))%nat then 1 else 0)).
Proof.
  unfold calculate_keyword_adjustment, Orm.query. rewrite !bind_ok.
  rewrite filter_by_keyword_id_history, split_length.
  set (prev := spec_history table (id kw)).
  set (words := spec_word_count true (keyword kw)).
  assert (Hw : (3 <? Z.of_nat words) = (3 <? words)%nat).
  { destruct (Nat.ltb_spec 3 words); [apply Z.ltb_lt | apply Z.ltb_ge]; lia. }
  rewrite Hw. f_equal.
  destruct prev as [|r rs].
  - change (spec_rate_below_half []) with false. destruct (3 <? words)%nat; lia.
  - assert (Hhalf : spec_rate_below_half (r :: rs) = below_half (r :: rs)).
    { unfold spec_rate_below_half, below_half. rewrite successes_spec. reflexivity. }
    rewrite Hhalf, <- success_rate_below_half.
    destruct (Qlt_le_dec _ _); destruct (3 <? words)%nat; lia.
Qed.

Lemma calculate_keyword_adjustment_raises e table kw :
  calculate_keyword_adjustment (Raise e) table kw = Raise e.
Proof. reflexivity. Qed.

(** C5.  As the models are declared, [SearchResult.query] raises in
    [calculate_keyword_adjustment] and no time is returned, for every
    keyword and priority.  With mappers that configure, the time is "HH:MM"
    with hour [(base + adjustment) mod 24], where base is 2, 4, 6 for high,
    medium, low priority, the adjustment adds 2 when the keyword has prior
    results and fewer than half of them have a title and a website, and
    subtracts 1 when the keyword has more than three words; the minute is
    [hash(text) mod 60] under the hash seed of the running process; the
    time depends on the table only through this keyword's own history, so
    with that history unchanged a second call in the same process returns
    the same time. *)
Theorem calculate_optimal_time_spec (hash : Z -> Py.unicode -> Z) (seed : Z)
    (table : list SearchResult) (kw : Keyword) (priority : string) (base : Z) :
  (priority = "high" /\ base = 2) \/ (priority = "medium" /\ base = 4)
    \/ (priority = "low" /\ base = 6) ->
  let history := spec_history table (id kw) in
  let up := if spec_rate_below_half history then 2 else 0 in
  let down := if (3 <? spec_word_count true (keyword kw))%nat then 1 else 0 in
  let hour := (base + up - down) mod 24 in
  let minute := hash seed (keyword kw) mod 60 in
  calculate_optimal_time hash seed Orm.mappers table kw priority
    = Raise (OtherException "NoForeignKeysError")
  /\ (forall e, calculate_optimal_time hash seed (Raise e) table kw priority = Raise e)
  /\ calculate_optimal_time hash seed (Ok tt) table kw priority
     = Ok (Py.format_02d hour ++ ":" ++ Py.format_02d minute)%string
  /\ 0 <= hour < 24 /\ 0 <= minute < 60
  /\ forall table',
       spec_history table' (id kw) = history ->
       calculate_optimal_time hash seed (Ok tt) table' kw priority
       = calculate_optimal_time hash seed (Ok tt) table kw priority.
Proof.
  intros Hp history up down hour minute.
  assert (Hbase : get_base_scraping_time priority = base).
  { destruct Hp as [[-> ->]|[[-> ->]|[-> ->]]]; reflexivity. }
  assert (Htime : forall t, spec_history t (id kw) = history ->
            calculate_optimal_time hash seed (Ok tt) t kw priority
            = Ok (Py.format_02d hour ++ ":" ++ Py.format_02d minute)%string).
  { intros t Ht. unfold calculate_optimal_time.
    rewrite Hbase, calculate_keyword_adjustment_spec, Ht, bind_ok.
    subst hour up down. do 4 f_equal. lia. }
  split; [reflexivity|].
  split; [reflexivity|].
  split; [apply Htime; reflexivity|].
  split; [apply Z.mod_pos_bound; lia|].
  split; [apply Z.mod_pos_bound; lia|].
  intros table' Ht. rewrite (Htime table' Ht), (Htime table eq_refl). reflexivity.
Qed.

Lemma calculate_optimal_time_spec_witness :
  let kw := {| id := 1; keyword := Py.unicode_of "best coffee shops in Denver" |} in
  let row ok := {| keyword_id := 1; title := Some "Cafe";
                   website := if ok : bool then Some "https://cafe.example" else None |} in
  let table := [row false; row false; row true] in
  calculate_optimal_time (fun _ _ => 123) 0 Orm.mappers table kw "high"
    = Raise (OtherException "NoForeignKeysError")
  /\ calculate_optimal_time (fun _ _ => 123) 0 (Ok tt) table kw "high" = Ok "03:03".
Proof.
  intros kw row table.
  pose proof (calculate_optimal_time_spec (fun _ _ => 123) 0 table kw "high" 2
                (or_introl (conj eq_refl eq_refl))) as (Hraise & _ & Htime & _).
  split; [exact Hraise | exact Htime].
Defined.

Example calculate_optimal_time_wraps :
  calculate_optimal_time (fun _ _ => -1) 0 (Ok tt)
    [] {| id := 7; keyword := Py.unicode_of "a b c d" |} "high" = Ok "01:59".
Proof. reflexivity. Qed.

(** The minute follows the hash seed: the same keyword in two processes. *)
Example calculate_optimal_time_seeds :
  let hash (seed : Z) (s : Py.unicode) := seed + Z.of_nat (length s) in
  let kw := {| id := 7; keyword := Py.unicode_of "coffee" |} in
  calculate_optimal_time hash 1 (Ok tt) [] kw "low" = Ok "06:07"
  /\ calculate_optimal_time hash 2 (Ok tt) [] kw "low" = Ok "06:08".
Proof. split; reflexivity. Qed.

Example split_blank_runs :
  Py.split (Py.unicode_of "  coffee shops  in Denver ")
  = Py.unicode_of <$> ["coffee"; "shops"; "in"; "Denver"].
Proof. reflexivity. Qed.

(** A no-break space (U+00A0) separates words as a blank does. *)
Example split_no_break_space :
  let text := (Py.unicode_of "a b c" ++ [160] ++ Py.unicode_of "d")%list in
  length (Py.split text) = 4%nat
  /\ calculate_optimal_time (fun _ _ => 0) 0 (Ok tt) [] {| id := 1; keyword := text |} "high"
     = Ok "01:00".
Proof. split; reflexivity. Qed.

End SchedulerFacts.

(** ** The cache *)

Section CacheFacts.
Import Cache.







(** A read only ever returns an entry that is live, in the local tier or
    in Redis. *)
Lemma get_returns_live (self : CacheManager) (now : Q) (redis_raises : bool)
    (key value : string) :
  (get self now redis_raises key).1 = Some value ->
  (exists expiry, local_cache self !! key = Some (value, expiry) /\ live expiry now)
  \/ (exists store, redis_client self = Some store
                    /\ redis_get store now key = Some value).
Proof.
  unfold get.
  assert (Hredis : forall local,
    (match redis_client self with
     | Some store =>
         if redis_raises
         then (None, {| redis_client := Some store; local_cache := local |})
         else match redis_get store now key with
              | Some value0 =>
                  if str_truthy value0
                  then (Some value0,
                        {| redis_client := Some store;
                           local_cache := <[key := (value0, Some (now + 300)%Q)]> local |})
                  else (None, {| redis_client := Some store; local_cache := local |})
              | None => (None, {| redis_client := Some store; local_cache := local |})
              end
     | None => (None, {| redis_client := None; local_cache := local |})
     end).1 = Some value ->
    exists store, redis_client self = Some store
                  /\ redis_get store now key = Some value).
  { intros local. destruct (redis_client self) as [store|]; [|discriminate].
    destruct redis_raises; [discriminate|].
    destruct (redis_get store now key) as [v0|] eqn:Hhit; [|discriminate].
    destruct (str_truthy v0); [|discriminate].
    simpl. intros [= ->]. eauto. }
  destruct (local_cache self !! key) as [[v [e|]]|] eqn:Hloc.
  - destruct (Qlt_le_dec now e) as [Hlt|_].
    + intros [= ->]. left. exists (Some e). split; [reflexivity | exact Hlt].
    + intros Hget. right. exact (Hredis _ Hget).
  - intros [= ->]. left. exists None. split; [reflexivity | exact I].
  - intros Hget. right. exact (Hredis _ Hget).
Qed.

(** The local copy made on a Redis hit lives 300 seconds from the read,
    whatever is left of the TTL: a second manager that read the entry
    shortly before its expiry still serves it afterwards, while the manager
    that wrote it does not. *)
Example second_manager_keeps_copy :
  let a := set {| redis_client := Some ∅; local_cache := ∅ |} 0 false "k" "v" 10 in
  let b := {| redis_client := redis_client a; local_cache := ∅ |} in
  let b' := (get b 9 false "k").2 in
  (get a 20 false "k").1 = None
  /\ (get b' 20 false "k").1 = Some "v"
  /\ (get b' 309 false "k").1 = None.
Proof. repeat split; vm_compute; reflexivity. Qed.

End CacheFacts.

(** ** The collector's scroll loop *)

Section CollectorFacts.
Import Scraper.
Context {item : Type} `{EqDecision item}.
Implicit Types (f : @feed item) (st : @loop_state item).

(** A filter that keeps nothing. *)
Lemma filter_none (P : item -> Prop) `{forall x, Decision (P x)} (l : list item) :
  (forall x, x ∈ l -> ~ P x) -> filter P l = [].
Proof.
  induction l as [|x l IH]; intros Hall; [reflexivity|].
  rewrite filter_cons_False by (apply Hall; left).
  apply IH. intros y Hy. apply Hall. by right.
Qed.

(** An iteration either collects something or moves the counter. *)
Lemma scroll_step_progress f st :
  (length (results st) < length (results (scroll_step f st)))%nat
  \/ (results (scroll_step f st) = results st
      /\ (no_new_results_count st < no_new_results_count (scroll_step f st))%nat).
Proof.
  unfold scroll_step; simpl.
  destruct (filter _ _) as [|x l].
  - right. split; [apply app_nil_r|]. destruct (_ =? _); lia.
  - left. rewrite length_app. simpl. lia.
Qed.

Lemma budget_decreases f max_results st :
  continue max_results st = true ->
  (budget max_results (scroll_step f st) < budget max_results st)%nat.
Proof.
  unfold continue, budget, max_no_new_results.
  intros [Hl Hc]%andb_true_iff. apply Nat.ltb_lt in Hl, Hc.
  destruct (scroll_step_progress f st) as [Hlt | [Heq Hlt]].
  - lia.
  - rewrite Heq. lia.
Qed.

Lemma budget_positive max_results st :
  continue max_results st = true -> (0 < budget max_results st)%nat.
Proof.
  unfold continue, budget, max_no_new_results.
  intros [Hl Hc]%andb_true_iff. apply Nat.ltb_lt in Hl, Hc. lia.
Qed.

Lemma scroll_loop_unfold fuel f max_results st :
  scroll_loop fuel f max_results st
  = if continue max_results st then
      match fuel with
      | O => None
      | S fuel' => scroll_loop fuel' f max_results (scroll_step f st)
      end
    else Some st.
Proof. destruct fuel; reflexivity. Qed.

(** The loop finishes within its budget, for every feed. *)
Lemma scroll_loop_total f max_results fuel st :
  (budget max_results st <= fuel)%nat ->
  exists st', scroll_loop fuel f max_results st = Some st'.
Proof.
  revert st. induction fuel as [|fuel IH]; intros st Hb;
    rewrite scroll_loop_unfold; destruct (continue max_results st) eqn:Hc; eauto.
  - apply budget_positive in Hc. lia.
  - apply IH. apply (budget_decreases f) in Hc. lia.
Qed.

(** When it finishes, the [while] condition is false. *)
Lemma scroll_loop_stops f max_results fuel st st' :
  scroll_loop fuel f max_results st = Some st' ->
  continue max_results st' = false.
Proof.
  revert st. induction fuel as [|fuel IH]; intros st;
    rewrite scroll_loop_unfold; destruct (continue max_results st) eqn:Hc;
    try discriminate; try (intros [= <-]; exact Hc).
  apply IH.
Qed.

(** More fuel does not change the answer. *)
Lemma scroll_loop_fuel_mono f max_results fuel fuel' st st' :
  scroll_loop fuel f max_results st = Some st' -> (fuel <= fuel')%nat ->
  scroll_loop fuel' f max_results st = Some st'.
Proof.
  revert fuel' st. induction fuel as [|fuel IH]; intros fuel' st;
    rewrite (scroll_loop_unfold fuel'), scroll_loop_unfold;
    destruct (continue max_results st); try discriminate; try done.
  intros Hrun Hle. destruct fuel' as [|fuel']; [lia|].
  apply (IH fuel'); [exact Hrun | lia].
Qed.

Lemma scroll_and_collect_total f max_results :
  exists rs n, scroll_and_collect f max_results = Some (rs, n)
               /\ (length rs <= max_results)%nat.
Proof.
  unfold scroll_and_collect.
  destruct (scroll_loop_total f max_results
              (budget max_results (@initial item)) initial) as [st' ->]; [lia|].
  simpl. eexists _, _. split; [reflexivity|].
  rewrite length_take. lia.
Qed.

(** A step on a stalled feed: nothing is collected, and the counter goes
    up by two, once for "nothing new" and once for "same height". *)
Lemma scroll_step_stalled f st :
  stalled_from f st ->
  scroll_step f st
  = {| results := results st; last_height := last_height st;
       no_new_results_count := S (S (no_new_results_count st));
       steps := S (steps st) |}.
Proof.
  intros Hst. destruct (Hst (steps st)) as [Hin Hh]; [lia|].
  unfold scroll_step.
  rewrite (filter_none (fun r => r ∉ results st)).
  2:{ intros x Hx Hnot. apply Hnot, Hin, Hx. }
  rewrite Hh, Z.eqb_refl, app_nil_r. reflexivity.
Qed.

Lemma stalled_from_step f st :
  stalled_from f st -> stalled_from f (scroll_step f st).
Proof.
  intros Hst. rewrite (scroll_step_stalled f st Hst).
  intros j Hj. simpl in *. apply Hst. lia.
Qed.

(** On a stalled state the loop stops after at most 2 further steps, with
    the results unchanged. *)
Lemma scroll_loop_stalled_state f max_results st :
  stalled_from f st ->
  exists st',
    (forall fuel, (2 <= fuel)%nat -> scroll_loop fuel f max_results st = Some st')
    /\ continue max_results st' = false
    /\ (steps st' <= steps st + 2)%nat
    /\ results st' = results st.
Proof.
  intros Hst.
  assert (Hrun : exists st', scroll_loop 2 f max_results st = Some st'
                   /\ (steps st' <= steps st + 2)%nat /\ results st' = results st).
  { rewrite scroll_loop_unfold. destruct (continue max_results st) eqn:Hc.
    2:{ exists st. repeat split; [lia]. }
    rewrite scroll_loop_unfold.
    pose proof (stalled_from_step f st Hst) as Hst1.
    destruct (continue max_results (scroll_step f st)) eqn:Hc1.
    2:{ eexists. split; [reflexivity|].
        rewrite (scroll_step_stalled f st Hst). simpl. split; [lia | reflexivity]. }
    rewrite scroll_loop_unfold.
    rewrite (scroll_step_stalled f _ Hst1), (scroll_step_stalled f st Hst).
    unfold continue at 1. simpl.
    rewrite andb_false_r. eexists. split; [reflexivity|].
    simpl. split; [lia | reflexivity]. }
  destruct Hrun as (st' & Hrun & Hsteps & Hres).
  exists st'. repeat split; try assumption.
  - intros fuel Hfuel. exact (scroll_loop_fuel_mono f max_results 2 fuel st st' Hrun Hfuel).
  - exact (scroll_loop_stops f max_results 2 st st' Hrun).
Qed.

(** The listings a step adds, as a boolean filter. *)
Lemma filter_not_elem (seen l : list item) :
  filter (fun r => r ∉ seen) l
  = List.filter (fun r => negb (bool_decide (r ∈ seen))) l.
Proof.
  induction l as [|x l IH]; [reflexivity|].
  rewrite filter_cons. simpl. rewrite IH.
  destruct (decide (x ∉ seen)) as [Hx|Hx].
  - by rewrite bool_decide_eq_false_2.
  - rewrite bool_decide_eq_true_2; [reflexivity|].
    destruct (decide (x ∈ seen)); [assumption | contradiction].
Qed.

Lemma filter_nil_existsb {A} (g : A -> bool) (l : list A) :
  match List.filter g l with [] => true | _ => false end = negb (existsb g l).
Proof.
  induction l as [|x l IH]; [reflexivity|].
  simpl. destruct (g x); [reflexivity | exact IH].
Qed.

(** The state after [n] iterations holds what the description says. *)
Lemma state_after_spec f n :
  state_after f n
  = {| results := spec_collected f n; last_height := spec_height f n;
       no_new_results_count := spec_counter f n; steps := n |}.
Proof.
  induction n as [|n IH]; [reflexivity|].
  change (state_after f (S n)) with (scroll_step f (state_after f n)). rewrite IH.
  unfold scroll_step. cbn [results last_height no_new_results_count steps].
  rewrite filter_not_elem. cbn [spec_collected spec_height spec_counter].
  f_equal. unfold spec_brings_new.
  pose proof (filter_nil_existsb
                (fun r => negb (bool_decide (r ∈ spec_collected f n))) (f n).1) as Hnew.
  destruct (List.filter _ _); destruct (existsb _ _); try discriminate; reflexivity.
Qed.

Lemma continue_spec f max_results n :
  continue max_results (state_after f n) = negb (spec_stopped f max_results n).
Proof.
  rewrite state_after_spec. unfold continue, spec_stopped, max_no_new_results.
  cbn [results no_new_results_count].
  rewrite negb_orb, !Nat.ltb_antisym. reflexivity.
Qed.

(** A run of the loop from the state after [k] steps ends in the state
    after some [n] steps, the first from [k] on at which it has stopped. *)
Lemma scroll_loop_first_stop f max_results fuel k st' :
  scroll_loop fuel f max_results (state_after f k) = Some st' ->
  exists n, (k <= n)%nat /\ st' = state_after f n
            /\ spec_stopped f max_results n = true
            /\ forall j, (k <= j < n)%nat -> spec_stopped f max_results j = false.
Proof.
  revert k. induction fuel as [|fuel IH]; intros k;
    rewrite scroll_loop_unfold, continue_spec;
    destruct (spec_stopped f max_results k) eqn:Hstop; cbn [negb];
    try discriminate.
  - intros [= <-]. exists k. repeat split; [lia | exact Hstop | lia].
  - intros [= <-]. exists k. repeat split; [lia | exact Hstop | lia].
  - change (scroll_step f (state_after f k)) with (state_after f (S k)).
    intros Hrun. destruct (IH (S k) Hrun) as (n & Hle & -> & Hn & Hbefore).
    exists n. repeat split; [lia | exact Hn |].
    intros j Hj. destruct (decide (j = k)) as [->|Hne]; [exact Hstop|].
    apply Hbefore. lia.
Qed.

(** On a stalled feed nothing more is collected, and each step adds 2 to
    the counter. *)
Lemma spec_stalled_step f m j :
  spec_stalled_from f m -> (m <= j)%nat ->
  spec_collected f (S j) = spec_collected f j
  /\ spec_collected f j = spec_collected f m
  /\ spec_height f (S j) = spec_height f m
  /\ spec_counter f (S j) = S (S (spec_counter f j)).
Proof.
  intros Hst Hj.
  assert (Hsame : forall i, (m <= i)%nat ->
            spec_collected f i = spec_collected f m /\ spec_height f i = spec_height f m
            /\ spec_brings_new f i = false).
  { intros i Hi. induction i as [|i IH].
    - assert (m = 0)%nat as -> by lia. repeat split.
      unfold spec_brings_new. apply not_true_is_false. intros Hex.
      apply existsb_exists in Hex as (r & Hr & Hfresh).
      apply negb_true_iff, bool_decide_eq_false in Hfresh.
      apply Hfresh. apply (Hst 0%nat); [lia|]. apply list_elem_of_In. exact Hr.
    - destruct (decide (m = S i)) as [->|Hne].
      + repeat split. unfold spec_brings_new. apply not_true_is_false. intros Hex.
        apply existsb_exists in Hex as (r & Hr & Hfresh).
        apply negb_true_iff, bool_decide_eq_false in Hfresh.
        apply Hfresh. apply (Hst (S i)); [lia|]. apply list_elem_of_In. exact Hr.
      + destruct IH as (Hc & Hh & Hnew); [lia|].
        assert (Hc' : spec_collected f (S i) = spec_collected f m).
        { cbn [spec_collected]. unfold spec_brings_new in Hnew.
          pose proof (filter_nil_existsb
                        (fun r => negb (bool_decide (r ∈ spec_collected f i))) (f i).1)
            as Hnil.
          rewrite Hnew in Hnil. destruct (List.filter _ _); [|discriminate].
          rewrite app_nil_r. exact Hc. }
        split; [exact Hc'|]. split.
        * cbn [spec_height]. apply (Hst i). lia.
        * unfold spec_brings_new. rewrite Hc'. apply not_true_is_false. intros Hex.
          apply existsb_exists in Hex as (r & Hr & Hfresh).
          apply negb_true_iff, bool_decide_eq_false in Hfresh.
          apply Hfresh. apply (Hst (S i)); [lia|]. apply list_elem_of_In. exact Hr. }
  destruct (Hsame j Hj) as (Hc & Hh & Hnew).
  destruct (Hsame (S j)) as (Hc' & Hh' & _); [lia|].
  repeat split; [congruence | exact Hc | exact Hh' |].
  cbn [spec_counter]. rewrite Hnew.
  destruct (Hst j Hj) as [_ Hheight]. rewrite Hheight, Hh, Z.eqb_refl. reflexivity.
Qed.

(** C4 (as the code has it).  On every feed the loop terminates, and it
    makes exactly the steps up to the first one after which the count has
    reached the target or the counter has reached 3, where a step that
    brings no new listing adds 1 to the counter, a step with new listings
    resets it to 0, and a step whose height equals the previous one adds 1
    more; it returns what those steps collected, cut to the target.  On a
    feed that has stalled from step [m] on (no new listings, same height)
    it makes at most 2 further steps, hence fewer than 3, and returns what
    the first [m] steps collected. *)
Theorem scroll_loop_stalled_feed f max_results :
  (exists n,
     scroll_and_collect f max_results
     = Some (take max_results (spec_collected f n), n)
     /\ spec_stopped f max_results n = true
     /\ forall j, (j < n)%nat -> spec_stopped f max_results j = false)
  /\ (forall m, spec_stalled_from f m ->
      forall rs n, scroll_and_collect f max_results = Some (rs, n) ->
      (n <= m + 2)%nat
      /\ ((m <= n)%nat -> rs = take max_results (spec_collected f m))).
Proof.
  assert (Hrun : exists n,
     scroll_and_collect f max_results
     = Some (take max_results (spec_collected f n), n)
     /\ spec_stopped f max_results n = true
     /\ forall j, (j < n)%nat -> spec_stopped f max_results j = false).
  { unfold scroll_and_collect.
    destruct (scroll_loop_total f max_results
                (budget max_results (@initial item)) initial) as [st' Hst']; [lia|].
    rewrite Hst'. change (@initial item) with (state_after f 0) in Hst'.
    apply scroll_loop_first_stop in Hst' as (n & _ & -> & Hn & Hbefore).
    exists n. rewrite state_after_spec. simpl. repeat split; [exact Hn|].
    intros j Hj. apply Hbefore. lia. }
  split; [exact Hrun|].
  intros m Hst rs n Hres.
  destruct Hrun as (n' & Hres' & Hn & Hbefore).
  rewrite Hres' in Hres. injection Hres as <- <-.
  assert (Hle : (n' <= m + 2)%nat).
  { destruct (le_lt_dec n' (m + 2)) as [Hle|Hgt]; [exact Hle|exfalso].
    pose proof (Hbefore (m + 2)%nat Hgt) as Hnot.
    unfold spec_stopped in Hnot. apply orb_false_iff in Hnot as [_ Hcount].
    apply Nat.leb_gt in Hcount.
    destruct (spec_stalled_step f m m Hst) as (_ & _ & _ & H1); [lia|].
    destruct (spec_stalled_step f m (S m) Hst) as (_ & _ & _ & H2); [lia|].
    replace (m + 2)%nat with (S (S m)) in Hcount by lia. lia. }
  split; [exact Hle|].
  intros Hge. f_equal.
  destruct (decide (n' = m)) as [->|Hne]; [reflexivity|].
  destruct n' as [|k]; [lia|].
  destruct (spec_stalled_step f m k Hst) as (Hs & Hk & _); [lia|]. congruence.
Qed.

End CollectorFacts.

Lemma scroll_loop_stalled_feed_witness :
  let f : @Scraper.feed nat :=
    fun k => match k with
             | O => ([1%nat], 100)
             | _ => ([1%nat; 2%nat], 200)
             end in
  Scraper.spec_stalled_from f 2
  /\ Scraper.scroll_and_collect f 20 = Some ([1; 2]%nat, 4%nat)
  /\ (4 <= 2 + 2)%nat.
Proof.
  intros f.
  assert (Hst : Scraper.spec_stalled_from f 2).
  { intros j Hj. destruct j as [|j]; [lia|]. split; [|reflexivity].
    intros r Hr. exact Hr. }
  assert (Hres : Scraper.scroll_and_collect f 20 = Some ([1; 2]%nat, 4%nat))
    by reflexivity.
  split; [exact Hst|]. split; [exact Hres|].
  exact (proj1 (proj2 (scroll_loop_stalled_feed f 20) 2%nat Hst _ _ Hres)).
Defined.

(** C4 (counterexample).  On a feed with no listings and a constant height
    the loop stops after two steps: the target is not reached and there have
    not been three consecutive stalled steps. *)
Lemma scroll_loop_stops_after_two_steps :
  let f : @Scraper.feed nat := fun _ => ([], 0) in
  Scraper.scroll_and_collect f 5 = Some ([], 2%nat)
  /\ ~ (Scraper.spec_stop_a f 5 2 \/ Scraper.spec_stop_b f 2).
Proof.
  intros f. split; [reflexivity|].
  intros [Ha | [Hb _]].
  - unfold Scraper.spec_stop_a in Ha. simpl in Ha. lia.
  - lia.
Qed.

(** The counter also runs up without any stalled step: no new items while
    the height keeps growing stops the loop after three steps. *)
Example scroll_loop_growing_height :
  let f : @Scraper.feed nat := fun k => ([], Z.of_nat (S k)) in
  Scraper.scroll_and_collect f 5 = Some ([], 3%nat)
  /\ Scraper.stalled_step f (Scraper.state_after f 2) = false.
Proof. split; reflexivity. Qed.

(** A step with new items resets the counter, so a productive feed is read
    until the target is reached, whatever its height does. *)
Example scroll_loop_reaches_target :
  let f : @Scraper.feed nat := fun k => ([k], 0) in
  Scraper.scroll_and_collect f 5
  = Some ([0; 1; 2; 3; 4]%nat, 5%nat).
Proof. reflexivity. Qed.

(** ** Contact extraction *)

Section ContactFacts.
Import Scraper.

(** No statement of the module binds [re]; only [extract_ratings] imports
    it, as a local of its own. *)
Lemma re_unbound : "re" ∉ module_globals.
Proof. decide_absent. Qed.

(** C8 (what the code does).  In the module as written, the first use of
    [re] raises [NameError] inside the [try], and the handler returns the
    dictionary still empty: for every listing text, with or without a
    phone number or an address, no field is extracted. *)
Theorem extract_contact_info_extracts_nothing
    (re_findall : string -> string -> list re_match) (item_text : result string) :
  extract_contact_info module_globals re_findall item_text = ∅.
Proof.
  unfold extract_contact_info. destruct item_text as [text|e]; [|reflexivity].
  unfold phone_patterns. cbn [phone_loop].
  rewrite (load_global_unbound _ _ re_unbound), bind_raise. reflexivity.
Qed.

(** The text of the repository's own [test_contact_info_extraction], with
    a [findall] that does find the phone number and the address. *)
Example extract_contact_info_test_text :
  let text := "Contact us at +1-234-567-8900 or visit 123 Main St, New York, NY 10001" in
  let findall (pattern _ : string) :=
    if String.eqb pattern address_pattern
    then [MStr "123 Main St, New York, NY 10001"]
    else [MTuple ["+1-"; "234-"]] in
  extract_contact_info module_globals findall (Ok text) !! "phone" = None
  /\ extract_contact_info module_globals findall (Ok text) !! "address" = None
  /\ extract_contact_info ("re" :: module_globals) findall (Ok text) !! "phone"
     = Some (MStr "+1-")
  /\ extract_contact_info ("re" :: module_globals) findall (Ok text) !! "address"
     = Some (MStr "123 Main St, New York, NY 10001").
Proof. repeat split; vm_compute; reflexivity. Qed.

(** With [re] bound, the loop is first-match-wins: the patterns before the
    first one that matches are skipped, those after it are not tried. *)
Lemma phone_loop_first_match globals re_findall skipped pattern rest text s ms cd :
  "re" ∈ globals ->
  Forall (fun p => re_findall p text = []) skipped ->
  re_findall pattern text = MStr s :: ms ->
  phone_loop globals re_findall (skipped ++ pattern :: rest) text cd
  = Ok (<["phone" := MStr s]> cd).
Proof.
  intros Hre Hskip Hhit. induction Hskip as [|p ps Hp _ IH]; cbn [app phone_loop];
    rewrite (load_global_bound _ _ Hre), bind_ok.
  - rewrite Hhit. reflexivity.
  - rewrite Hp. exact IH.
Qed.

End ContactFacts.

(** ** The scraping job *)

Section TaskFacts.
Import Scraper Tasks.
Context {item : Type} `{EqDecision item}.
Variable scraper_methods : list string.
Variable handle_popups : result unit.
Variable enrich_business_data : list item -> list item.

Local Abbreviation scrape :=
  (scrape_google_maps_advanced scraper_methods handle_popups enrich_business_data).
Local Abbreviation scrape_body :=
  (scrape_body scraper_methods handle_popups enrich_business_data).
Local Abbreviation try_block :=
  (try_block scraper_methods handle_popups enrich_business_data).
Local Abbreviation scrape_keyword_task :=
  (scrape_keyword_task scraper_methods handle_popups enrich_business_data).
Local Abbreviation run_job :=
  (run_job scraper_methods handle_popups enrich_business_data).

(** [handle_captcha] waits thirty seconds once when the probe finds a
    marker, and does nothing else in any case. *)
Lemma handle_captcha_spec (probe : result nat) :
  (exists n, probe = Ok (S n) /\ handle_captcha probe = (true, [Sleep 30]))
  \/ ((probe = Ok O \/ exists e, probe = Raise e)
      /\ handle_captcha probe = (false, [])).
Proof.
  destruct probe as [[|n]|e]; simpl; eauto 6.
Qed.

(** When the results feed does not appear, the collection returns the
    empty list; the browser, if one was created, is quit. *)
Lemma scrape_feed_missing (h : @Harness item) max_results :
  feed_located h = false ->
  scrape h max_results
  = ([], match create_stealth_driver h with Ok _ => [Quit] | Raise _ => [] end).
Proof.
  intros Hfeed. unfold scrape_google_maps_advanced, scrape_body.
  destruct (create_stealth_driver h); [|reflexivity].
  destruct (driver_get h) as [?|[]]; try reflexivity.
  destruct (Py.getattr scraper_methods "handle_popups") as [?|[]]; try reflexivity.
  destruct handle_popups as [?|[]]; try reflexivity.
  rewrite Hfeed. reflexivity.
Qed.

(** The collection never sleeps thirty seconds: its only pauses are the
    random delays between scroll steps. *)
Lemma scrape_effects (h : @Harness item) max_results eff :
  eff ∈ (scrape h max_results).2 -> eff = Quit \/ eff = RandomDelay 2 4.
Proof.
  unfold scrape_google_maps_advanced.
  destruct (create_stealth_driver h); [|intros []%elem_of_nil].
  destruct (scrape_body h max_results) as [[rs effs]|e] eqn:Hbody.
  - intros [Hin| ->%list_elem_of_singleton]%elem_of_app; [|by left].
    right. unfold scrape_body in Hbody.
    destruct (driver_get h); [|discriminate].
    destruct (Py.getattr scraper_methods "handle_popups"); [|discriminate].
    destruct handle_popups; [|discriminate].
    destruct (feed_located h); [|discriminate].
    rewrite !bind_ok in Hbody.
    destruct (scroll_and_collect _ _) as [[rs' n]|]; [|discriminate].
    injection Hbody as <- <-. by apply elem_of_replicate_inv in Hin.
  - destruct e; intros ->%list_elem_of_singleton; by left.
Qed.

Lemma filter_browser (p : event -> bool) effs :
  (forall e, p (Browser e) = false) -> List.filter p (Browser <$> effs) = [].
Proof. intros Hp. induction effs as [|e effs IH]; simpl; [|rewrite Hp]; done. Qed.

Lemma retry_delays_browser effs : retry_delays (Browser <$> effs) = [].
Proof. induction effs; done. Qed.

Lemma retry_delays_cons e evs :
  retry_delays (e :: evs)
  = match e with
    | RetryScheduled c => c :: retry_delays evs
    | _ => retry_delays evs
    end.
Proof. destruct e; reflexivity. Qed.

Lemma retry_delays_app evs1 evs2 :
  retry_delays (evs1 ++ evs2) = (retry_delays evs1 ++ retry_delays evs2)%list.
Proof. apply omap_app. Qed.

(** The collection does the same whatever the CAPTCHA probe would find:
    it never consults it. *)
Lemma scrape_ignores_captcha (h : @Harness item) (probe : result nat) max_results :
  scrape (with_captcha_elements h probe) max_results = scrape h max_results.
Proof. reflexivity. Qed.

(** What a [try] block leaves behind: it neither creates nor removes the
    keyword's row; when it fails it has only touched the browser; and it
    fails only where the row is missing or a collaborator raised, whatever
    the browser did. *)
Lemma try_block_inv db env keyword_id r db' evs :
  try_block db env keyword_id = (r, db', evs) ->
  (db' !! keyword_id = None <-> db !! keyword_id = None)
  /\ (Py.is_raise r = true ->
      (exists effs, evs = Browser <$> effs)
      /\ (db !! keyword_id = None
          \/ exists s, Py.is_raise (collaborator env s) = true)).
Proof.
  unfold Tasks.try_block.
  destruct (collaborator env QueryKeyword) as [[]|e0] eqn:Hq.
  2:{ intros [= <- <- <-]. split; [reflexivity|]. intros _.
      split; [by exists []|]. right. exists QueryKeyword. by rewrite Hq. }
  destruct (db !! keyword_id) as [kw|] eqn:Hkw.
  2:{ intros [= <- <- <-]. split; [by rewrite Hkw|]. intros _.
      split; [by exists [] | by left]. }
  destruct (collaborator env CommitInProgress) as [[]|e1] eqn:Hc1.
  2:{ intros [= <- <- <-]. split; [by rewrite Hkw|]. intros _.
      split; [by exists []|]. right. exists CommitInProgress. by rewrite Hc1. }
  cbv zeta.
  destruct (Scraper.scrape_google_maps_advanced _ _ _ _ _) as [rs effs].
  cbn [fst snd].
  assert (Hhere : forall d : gmap Z Keyword, forall k : Keyword,
            <[keyword_id := k]> d !! keyword_id = None <-> Some kw = None).
  { intros d k. rewrite lookup_insert_eq. split; discriminate. }
  destruct (match rs with [] => Ok tt | _ => collaborator env SaveResults end)
    as [[]|e2] eqn:Hs.
  2:{ intros [= <- <- <-]. split; [apply Hhere|]. intros _.
      split; [by exists effs|]. right. exists SaveResults.
      destruct rs; [discriminate|]. by rewrite Hs. }
  destruct (collaborator env CommitCompleted) as [[]|e3] eqn:Hc2.
  2:{ intros [= <- <- <-]. split; [apply Hhere|]. intros _.
      split; [by exists effs|]. right. exists CommitCompleted. by rewrite Hc2. }
  destruct (collaborator env NotifyCompletion) as [[]|e4] eqn:Hn.
  2:{ intros [= <- <- <-]. split; [apply Hhere|]. intros _.
      split; [by exists effs|]. right. exists NotifyCompletion. by rewrite Hn. }
  intros [= <- <- <-]. split; [apply Hhere | discriminate].
Qed.

Lemma try_block_raise db env keyword_id e db' evs :
  try_block db env keyword_id = (Raise e, db', evs) ->
  exists effs, evs = Browser <$> effs.
Proof. intros Htry. by apply (try_block_inv _ _ _ _ _ _ Htry). Qed.

Lemma try_block_presence db env keyword_id r db' evs :
  try_block db env keyword_id = (r, db', evs) ->
  (db' !! keyword_id = None <-> db !! keyword_id = None).
Proof. intros Htry. by apply (try_block_inv _ _ _ _ _ _ Htry). Qed.

Lemma handler_presence (db : gmap Z Keyword) keyword_id :
  match db !! keyword_id with
  | Some kw => <[keyword_id := with_status kw "error"]> db
  | None => db
  end !! keyword_id = None <-> db !! keyword_id = None.
Proof.
  destruct (db !! keyword_id) eqn:Hkw; [|by rewrite Hkw].
  rewrite lookup_insert_eq. split; discriminate.
Qed.

(** With the models as declared, the query of the [try] block raises, the
    handler catches it, and the handler's own query raises in turn: the
    exception leaves the task before anything else is done. *)
Lemma scrape_keyword_task_declared retries db env keyword_id :
  as_declared env ->
  scrape_keyword_task retries db env keyword_id
  = (Raise (OtherException "NoForeignKeysError"), db, []).
Proof.
  intros Hdecl. unfold Tasks.scrape_keyword_task, Tasks.try_block.
  rewrite (Hdecl QueryKeyword eq_refl), (Hdecl HandlerQuery eq_refl). reflexivity.
Qed.

Lemma run_job_declared fuel retries db envs keyword_id :
  as_declared (envs retries) ->
  run_job (S fuel) retries db envs keyword_id
  = Some (Raise (OtherException "NoForeignKeysError"), db, [Attempt retries]).
Proof.
  intros Hdecl. cbn [Tasks.run_job].
  by rewrite (scrape_keyword_task_declared _ _ _ _ Hdecl).
Qed.

(** An exception of the handler's query leaves the task at once. *)
Lemma handler_query_raises retries db env keyword_id e' :
  Py.is_raise (try_block db env keyword_id).1.1 = true ->
  collaborator env HandlerQuery = Raise e' ->
  exists db' evs,
    scrape_keyword_task retries db env keyword_id = (Raise e', db', evs)
    /\ List.filter is_system_alert evs = []
    /\ List.filter is_completion_alert evs = [].
Proof.
  intros Hf Hq. unfold Tasks.scrape_keyword_task.
  destruct (try_block db env keyword_id) as [[[c|e] db1] evs] eqn:Htry;
    [discriminate|].
  destruct (try_block_raise _ _ _ _ _ _ Htry) as [effs ->].
  rewrite Hq. eexists _, _. split; [reflexivity|].
  by rewrite !filter_browser.
Qed.

Lemma handler_steps_work (env : @attempt_env item) :
  collaborators_work handler_steps env ->
  collaborator env HandlerQuery = Ok tt
  /\ collaborator env HandlerCommit = Ok tt
  /\ collaborator env NotifyFailure = Ok tt.
Proof.
  unfold collaborators_work, handler_steps.
  intros (Hq & (Hc & (Hn & _)%Forall_cons)%Forall_cons)%Forall_cons. done.
Qed.

Lemma try_steps_work (env : @attempt_env item) :
  collaborators_work try_steps env ->
  collaborator env QueryKeyword = Ok tt
  /\ collaborator env CommitInProgress = Ok tt
  /\ collaborator env CommitCompleted = Ok tt
  /\ collaborator env NotifyCompletion = Ok tt.
Proof.
  unfold collaborators_work, try_steps.
  intros (Hq & (Hc & (Hd & (Hn & _)%Forall_cons)%Forall_cons)%Forall_cons)%Forall_cons.
  done.
Qed.

(** The handler where its collaborators work: the row, if there is one,
    gets status 'error'; then a retry or, at the ceiling, the alert. *)
Lemma scrape_keyword_task_handled retries db env keyword_id e db1 evs :
  try_block db env keyword_id = (Raise e, db1, evs) ->
  collaborators_work handler_steps env ->
  scrape_keyword_task retries db env keyword_id
  = let db2 := match db1 !! keyword_id with
               | Some kw => <[keyword_id := with_status kw "error"]> db1
               | None => db1
               end in
    if (retries <? max_retries)%nat
    then (Ok (Retry default_retry_delay e), db2, evs)
    else (Ok (Returned {| ret_status := "failed"; results_count := None;
                          error := Some e |}), db2,
          (evs ++ [SystemAlert "scraping_failure" "error"])%list).
Proof.
  intros Htry (Hq & Hc & Hn)%handler_steps_work.
  unfold Tasks.scrape_keyword_task. rewrite Htry, Hq, Hc, Hn.
  destruct (db1 !! keyword_id); reflexivity.
Qed.

(** A [try] block on an existing keyword whose collection brings nothing,
    with working collaborators. *)
Lemma try_block_empty db env keyword_id kw effs :
  db !! keyword_id = Some kw ->
  collaborators_work try_steps env ->
  scrape (harness env) 50 = ([], effs) ->
  try_block db env keyword_id
  = (Ok 0%nat,
     <[keyword_id := {| keyword := keyword kw; status := "completed";
                        total_results := 0 |}]>
       (<[keyword_id := with_status kw "in_progress"]> db),
     ((Browser <$> effs) ++ [CompletionAlert keyword_id 0])%list).
Proof.
  intros Hkw (Hq & Hc & Hd & Hn)%try_steps_work Hscrape.
  unfold Tasks.try_block. rewrite Hq, Hkw, Hc, Hscrape. cbn [fst snd length].
  rewrite Hd, Hn. reflexivity.
Qed.

Section Failing.
Variable envs : nat -> @attempt_env item.
Variable keyword_id : Z.
Variable db0 : gmap Z Keyword.
(** The handler's collaborators work at every attempt. *)
Hypothesis handled :
  forall retries, collaborators_work handler_steps (envs retries).
(** Every attempt fails, in every state of the table the job can be in:
    one where the keyword's row is present exactly if it was at the start. *)
Hypothesis always_fails :
  forall retries db,
    (db !! keyword_id = None <-> db0 !! keyword_id = None) ->
    Py.is_raise (try_block db (envs retries) keyword_id).1.1 = true.

(** From [retries], with [n] retries left, the job makes [n + 1]
    attempts and then fails. *)
Lemma run_job_failing n :
  forall retries db,
  (db !! keyword_id = None <-> db0 !! keyword_id = None) ->
  (retries + n = max_retries)%nat ->
  exists r db' evs,
    (forall fuel, (n < fuel)%nat ->
                  run_job fuel retries db envs keyword_id = Some (Ok r, db', evs))
    /\ (forall fuel, (fuel <= n)%nat -> run_job fuel retries db envs keyword_id = None)
    /\ ret_status r = "failed"
    /\ length (List.filter is_attempt evs) = S n
    /\ retry_delays evs = replicate n default_retry_delay
    /\ List.filter is_system_alert evs = [SystemAlert "scraping_failure" "error"]
    /\ List.filter is_completion_alert evs = [].
Proof.
  induction n as [|n IH]; intros retries db Hpres Hn.
  - pose proof (always_fails retries db Hpres) as Hf.
    destruct (try_block db (envs retries) keyword_id) as [[[c|e] db1] evs] eqn:Htry;
      [discriminate|].
    destruct (try_block_raise _ _ _ _ _ _ Htry) as [effs ->].
    assert (Hlast : (retries <? max_retries)%nat = false) by (apply Nat.ltb_ge; lia).
    eexists _, _, _. split; [|split].
    + intros [|fuel] Hfuel; [lia|]. cbn [Tasks.run_job].
      rewrite (scrape_keyword_task_handled _ _ _ _ _ _ _ Htry (handled retries)).
      cbv zeta. rewrite Hlast. reflexivity.
    + intros fuel Hfuel. assert (fuel = O) as -> by lia. reflexivity.
    + cbn [ret_status]. split; [reflexivity|].
      cbn [List.filter is_attempt is_system_alert is_completion_alert].
      rewrite retry_delays_cons, retry_delays_app, retry_delays_browser.
      rewrite !List.filter_app, !filter_browser by done.
      repeat split.
  - pose proof (always_fails retries db Hpres) as Hf.
    destruct (try_block db (envs retries) keyword_id) as [[[c|e] db1] evs] eqn:Htry;
      [discriminate|].
    destruct (try_block_raise _ _ _ _ _ _ Htry) as [effs ->].
    pose proof (try_block_presence _ _ _ _ _ _ Htry) as Hpres1.
    assert (Hmore : (retries <? max_retries)%nat = true) by (apply Nat.ltb_lt; lia).
    set (db2 := match db1 !! keyword_id with
                | Some kw => <[keyword_id := with_status kw "error"]> db1
                | None => db1
                end).
    assert (Hpres2 : db2 !! keyword_id = None <-> db0 !! keyword_id = None).
    { subst db2. rewrite handler_presence, Hpres1. exact Hpres. }
    destruct (IH (S retries) db2 Hpres2)
      as (r & db' & evs' & Hrun & Hshort & Hst & Hatt & Hdel & Hal & Hco); [lia|].
    exists r, db', (Attempt retries :: (Browser <$> effs)
                    ++ RetryScheduled default_retry_delay :: evs')%list.
    split; [|split].
    + intros [|fuel] Hfuel; [lia|]. cbn [Tasks.run_job].
      rewrite (scrape_keyword_task_handled _ _ _ _ _ _ _ Htry (handled retries)).
      cbv zeta. rewrite Hmore.
      fold db2. rewrite (Hrun fuel) by lia. reflexivity.
    + intros [|fuel] Hfuel; [reflexivity|]. cbn [Tasks.run_job].
      rewrite (scrape_keyword_task_handled _ _ _ _ _ _ _ Htry (handled retries)).
      cbv zeta. rewrite Hmore.
      fold db2. rewrite (Hshort fuel) by lia. reflexivity.
    + split; [exact Hst|].
      cbn [List.filter is_attempt is_system_alert is_completion_alert].
      rewrite retry_delays_cons, retry_delays_app, retry_delays_browser.
      rewrite retry_delays_cons, Hdel.
      rewrite !List.filter_app, !filter_browser by done.
      cbn [List.filter app length is_attempt is_system_alert is_completion_alert].
      rewrite Hatt, Hal, Hco. repeat split.
Qed.
End Failing.

(** C3.  With the models as declared, a job ends at its first attempt: the
    query of the [try] block raises the mapper error, the handler's own
    query raises it again, and the exception leaves the task with no retry
    scheduled, no alert and no 'failed' return.  In general an attempt
    fails only where the keyword's row is missing or a collaborator raises
    (a browser that fails is not a failure of the job), and an exception of
    the handler's query leaves the task at that attempt.  Where the
    handler's collaborators work, a job whose every attempt fails is
    retried three times, sixty seconds after each failure, and returns
    status 'failed' at its fourth attempt, never more and never fewer,
    raising one system alert. *)
Theorem failing_job_exhausts_retries
    (envs : nat -> @attempt_env item) (db : gmap Z Keyword) (keyword_id : Z) :
  (as_declared (envs 0%nat) ->
   forall fuel,
     run_job (S fuel) 0%nat db envs keyword_id
     = Some (Raise (OtherException "NoForeignKeysError"), db, [Attempt 0]))
  /\ (forall env d,
        Py.is_raise (try_block d env keyword_id).1.1 = true ->
        d !! keyword_id = None
        \/ exists s, Py.is_raise (collaborator env s) = true)
  /\ (forall env retries d e',
        Py.is_raise (try_block d env keyword_id).1.1 = true ->
        collaborator env HandlerQuery = Raise e' ->
        exists db' evs,
          scrape_keyword_task retries d env keyword_id = (Raise e', db', evs)
          /\ List.filter is_system_alert evs = []
          /\ List.filter is_completion_alert evs = [])
  /\ ((forall retries, collaborators_work handler_steps (envs retries)) ->
      (forall retries d,
          (d !! keyword_id = None <-> db !! keyword_id = None) ->
          Py.is_raise (try_block d (envs retries) keyword_id).1.1 = true) ->
      exists r db' evs,
        (forall fuel, (max_retries + 1 <= fuel)%nat ->
                      run_job fuel 0%nat db envs keyword_id = Some (Ok r, db', evs))
        /\ (forall fuel, (fuel <= max_retries)%nat ->
                         run_job fuel 0%nat db envs keyword_id = None)
        /\ ret_status r = "failed"
        /\ length (List.filter is_attempt evs) = (max_retries + 1)%nat
        /\ retry_delays evs = [60; 60; 60]
        /\ List.filter is_system_alert evs = [SystemAlert "scraping_failure" "error"]
        /\ List.filter is_completion_alert evs = []).
Proof.
  split; [|split; [|split]].
  - intros Hdecl fuel. by apply run_job_declared.
  - intros env d Hf.
    destruct (try_block d env keyword_id) as [[r d'] evs] eqn:Htry.
    by apply (try_block_inv _ _ _ _ _ _ Htry).
  - intros env retries d e'. apply handler_query_raises.
  - intros Hhandled Hfail.
    destruct (run_job_failing envs keyword_id db Hhandled Hfail max_retries 0%nat db
                (conj (fun x => x) (fun x => x)) eq_refl)
      as (r & db' & evs & Hrun & Hshort & Hst & Hatt & Hdel & Hal & Hco).
    exists r, db', evs. repeat split; assumption.
Qed.

(** C7 (as the code has it).  [handle_captcha] sleeps thirty seconds once
    and answers [True] when its probe finds a marker, and answers [False]
    at once when the probe finds none or raises; it neither probes again
    nor solves anything.  The collection does not call it: it does the
    same whatever the probe would find, its only pauses are the random
    delays between scroll steps, and a page on which the results feed never
    appears makes it return the empty list, the browser being quit.  With
    the models as declared the job ends at its first attempt with the
    mapper error, before the browser is opened.  With working
    collaborators, a page without results feed ends the job 'completed'
    with zero results and one completion notification, at its first
    attempt, with no pause and no retry. *)
Theorem blocked_collection_completes_empty
    (envs : nat -> @attempt_env item) (db : gmap Z Keyword) (keyword_id : Z)
    (kw : Keyword) (fuel : nat) :
  (forall n, handle_captcha (Ok (S n)) = (true, [Sleep 30]))
  /\ handle_captcha (Ok O) = (false, [])
  /\ (forall e, handle_captcha (Raise e) = (false, []))
  /\ (forall (h : @Harness item) probe max_results,
        scrape (with_captcha_elements h probe) max_results = scrape h max_results)
  /\ (forall (h : @Harness item) max_results eff,
        eff ∈ (scrape h max_results).2 -> eff = Quit \/ eff = RandomDelay 2 4)
  /\ (forall (h : @Harness item) max_results,
        feed_located h = false ->
        scrape h max_results
        = ([], match create_stealth_driver h with Ok _ => [Quit] | Raise _ => [] end))
  /\ (as_declared (envs 0%nat) ->
      run_job (S fuel) 0%nat db envs keyword_id
      = Some (Raise (OtherException "NoForeignKeysError"), db, [Attempt 0]))
  /\ (db !! keyword_id = Some kw ->
      feed_located (harness (envs 0%nat)) = false ->
      collaborators_work try_steps (envs 0%nat) ->
      exists effs db',
        run_job (S fuel) 0%nat db envs keyword_id
        = Some (Ok {| ret_status := "completed"; results_count := Some 0%nat;
                      error := None |}, db',
                (Attempt 0 :: (Browser <$> effs)
                 ++ [CompletionAlert keyword_id 0])%list)
        /\ db' !! keyword_id
           = Some {| keyword := keyword kw; status := "completed";
                     total_results := 0 |}
        /\ (effs = [Quit] \/ effs = [])).
Proof.
  split; [reflexivity|]. split; [reflexivity|]. split; [reflexivity|].
  split; [intros; apply scrape_ignores_captcha|].
  split; [apply scrape_effects|].
  split; [apply scrape_feed_missing|].
  split; [intros Hdecl; by apply run_job_declared|].
  intros Hkw Hfeed Hwork. cbn [Tasks.run_job]. unfold Tasks.scrape_keyword_task.
  rewrite (try_block_empty _ _ _ _ _ Hkw Hwork (scrape_feed_missing _ _ Hfeed)).
  eexists _, _. split; [reflexivity|].
  split; [apply lookup_insert_eq|].
  destruct (create_stealth_driver _); auto.
Qed.

End TaskFacts.

Lemma failing_job_exhausts_retries_witness :
  let h : @Scraper.Harness nat :=
    {| Scraper.create_stealth_driver := Ok tt; Scraper.driver_get := Ok tt;
       Scraper.captcha_elements := Ok 0%nat; Scraper.feed_located := true;
       Scraper.visible := fun _ => ([], 0) |} in
  let declared := fun _ : nat =>
    {| Tasks.harness := h;
       Tasks.collaborator := fun s =>
         if Tasks.uses_models s then Orm.mappers else Ok tt |} in
  let working := fun _ : nat =>
    {| Tasks.harness := h; Tasks.collaborator := fun _ => Ok tt |} in
  let kw := {| Tasks.keyword := "coffee"; Tasks.status := "pending";
               Tasks.total_results := 0 |} in
  Tasks.run_job Scraper.class_methods (Ok tt) id 1 0%nat {[ 7 := kw ]} declared 7
  = Some (Raise (OtherException "NoForeignKeysError"), {[ 7 := kw ]}, [Tasks.Attempt 0])
  /\ exists r db' evs,
       Tasks.run_job Scraper.class_methods (Ok tt) id 4 0%nat ∅ working 7
       = Some (Ok r, db', evs)
       /\ Tasks.ret_status r = "failed"
       /\ length (List.filter Tasks.is_attempt evs) = 4%nat.
Proof.
  intros h declared working kw. split.
  - apply (proj1 (failing_job_exhausts_retries Scraper.class_methods (Ok tt) id
                    declared {[ 7 := kw ]} 7)).
    intros s Hs. simpl. by rewrite Hs.
  - assert (Hhandled : forall retries,
               Tasks.collaborators_work Tasks.handler_steps (working retries)).
    { intros retries. repeat constructor. }
    assert (Hfail : forall retries (d : gmap Z Tasks.Keyword),
               (d !! 7 = None <-> (∅ : gmap Z Tasks.Keyword) !! 7 = None) ->
               Py.is_raise (Tasks.try_block Scraper.class_methods (Ok tt) id d
                              (working retries) 7).1.1 = true).
    { intros retries d [_ Hnone]. unfold Tasks.try_block. simpl.
      rewrite (Hnone (lookup_empty 7)). reflexivity. }
    destruct (proj2 (proj2 (proj2 (failing_job_exhausts_retries Scraper.class_methods
                                     (Ok tt) id working ∅ 7))) Hhandled Hfail)
      as (r & db' & evs & Hrun & _ & Hst & Hatt & _).
    exists r, db', evs. split; [apply Hrun; reflexivity|]. split; assumption.
Defined.

(** A commit that raises at every attempt, with a handler whose
    collaborators work: the keyword exists, and the row is left with status
    'error'. *)
Example faulty_collaborator_job :
  let kw := {| Tasks.keyword := "coffee"; Tasks.status := "pending";
               Tasks.total_results := 0 |} in
  exists r db' evs,
    Tasks.run_job (item := nat) Scraper.class_methods (Ok tt) id 4 0%nat {[ 7 := kw ]}
      (fun _ => {| Tasks.harness :=
                     {| Scraper.create_stealth_driver := Raise (OtherException "no browser");
                        Scraper.driver_get := Ok tt;
                        Scraper.captcha_elements := Ok 0%nat;
                        Scraper.feed_located := true;
                        Scraper.visible := fun _ => ([], 0) |};
                   Tasks.collaborator := fun s =>
                     match s with
                     | Tasks.CommitCompleted =>
                         Raise (OtherException "database is locked")
                     | _ => Ok tt
                     end |}) 7
    = Some (Ok r, db', evs)
    /\ Tasks.ret_status r = "failed"
    /\ Tasks.status <$> db' !! 7 = Some "error"
    /\ Tasks.retry_delays evs = [60; 60; 60].
Proof. eexists _, _, _. split; [vm_compute; reflexivity|]. repeat split. Qed.

(** A keyword that does not exist fails every attempt in the same way. *)
Example missing_keyword_job :
  exists evs,
    Tasks.run_job (item := nat) Scraper.class_methods (Ok tt) id 4 0%nat ∅
      (fun _ => {| Tasks.harness :=
                     {| Scraper.create_stealth_driver := Ok tt;
                        Scraper.driver_get := Ok tt;
                        Scraper.captcha_elements := Ok 0%nat;
                        Scraper.feed_located := true;
                        Scraper.visible := fun _ => ([], 0) |};
                   Tasks.collaborator := fun _ => Ok tt |}) 7
    = Some (Ok {| Tasks.ret_status := "failed"; Tasks.results_count := None;
                  Tasks.error := Some (ValueError "Keyword not found") |}, ∅, evs)
    /\ evs = [ Tasks.Attempt 0; Tasks.RetryScheduled 60;
               Tasks.Attempt 1; Tasks.RetryScheduled 60;
               Tasks.Attempt 2; Tasks.RetryScheduled 60;
               Tasks.Attempt 3; Tasks.SystemAlert "scraping_failure" "error" ].
Proof. eexists. split; [vm_compute; reflexivity | reflexivity]. Qed.

(** A browser that cannot be started at any attempt does not fail the job:
    with working collaborators it ends 'completed' at its first attempt. *)
Example failing_browser_job :
  let kw := {| Tasks.keyword := "coffee"; Tasks.status := "pending";
               Tasks.total_results := 0 |} in
  exists db',
    Tasks.run_job (item := nat) Scraper.class_methods (Ok tt) id 4 0%nat {[ 7 := kw ]}
      (fun _ => {| Tasks.harness :=
                     {| Scraper.create_stealth_driver := Raise (OtherException "no browser");
                        Scraper.driver_get := Ok tt;
                        Scraper.captcha_elements := Ok 0%nat;
                        Scraper.feed_located := true;
                        Scraper.visible := fun _ => ([], 0) |};
                   Tasks.collaborator := fun _ => Ok tt |}) 7
    = Some (Ok {| Tasks.ret_status := "completed"; Tasks.results_count := Some 0%nat;
                  Tasks.error := None |}, db',
            [Tasks.Attempt 0; Tasks.CompletionAlert 7 0]).
Proof. eexists. vm_compute. reflexivity. Qed.

(** A failure alert that cannot be built leaves the task at the last
    attempt: the job ends with that exception, not with status 'failed'. *)
Example failing_alert_job :
  exists db' evs,
    Tasks.run_job (item := nat) Scraper.class_methods (Ok tt) id 4 0%nat ∅
      (fun _ => {| Tasks.harness :=
                     {| Scraper.create_stealth_driver := Ok tt;
                        Scraper.driver_get := Ok tt;
                        Scraper.captcha_elements := Ok 0%nat;
                        Scraper.feed_located := true;
                        Scraper.visible := fun _ => ([], 0) |};
                   Tasks.collaborator := fun s =>
                     match s with
                     | Tasks.NotifyFailure => Raise (OtherException "no notifier")
                     | _ => Ok tt
                     end |}) 7
    = Some (Raise (OtherException "no notifier"), db', evs)
    /\ Tasks.retry_delays evs = [60; 60; 60]
    /\ List.filter Tasks.is_system_alert evs = [].
Proof. eexists _, _. split; [vm_compute; reflexivity|]. split; reflexivity. Qed.

Lemma blocked_collection_completes_empty_witness :
  let h : @Scraper.Harness nat :=
    {| Scraper.create_stealth_driver := Ok tt; Scraper.driver_get := Ok tt;
       Scraper.captcha_elements := Ok 1%nat; Scraper.feed_located := false;
       Scraper.visible := fun _ => ([], 0) |} in
  let declared := fun _ : nat =>
    {| Tasks.harness := h;
       Tasks.collaborator := fun s =>
         if Tasks.uses_models s then Orm.mappers else Ok tt |} in
  let working := fun _ : nat =>
    {| Tasks.harness := h; Tasks.collaborator := fun _ => Ok tt |} in
  let kw := {| Tasks.keyword := "coffee shops in Denver"; Tasks.status := "pending";
               Tasks.total_results := 0 |} in
  Scraper.handle_captcha (Scraper.captcha_elements h) = (true, [Scraper.Sleep 30])
  /\ Tasks.run_job ("handle_popups" :: Scraper.class_methods) (Ok tt) id 1 0%nat
       {[ 1 := kw ]} declared 1
     = Some (Raise (OtherException "NoForeignKeysError"), {[ 1 := kw ]},
             [Tasks.Attempt 0])
  /\ exists effs db',
       Tasks.run_job ("handle_popups" :: Scraper.class_methods) (Ok tt) id 1 0%nat
         {[ 1 := kw ]} working 1
       = Some (Ok {| Tasks.ret_status := "completed";
                     Tasks.results_count := Some 0%nat;
                     Tasks.error := None |}, db',
               (Tasks.Attempt 0 :: (Tasks.Browser <$> effs)
                ++ [Tasks.CompletionAlert 1 0])%list).
Proof.
  intros h declared working kw.
  pose proof (blocked_collection_completes_empty
                ("handle_popups" :: Scraper.class_methods) (Ok tt) id
                declared {[ 1 := kw ]} 1 kw 0%nat)
    as (Hmarker & _ & _ & _ & _ & _ & Hdeclared & _).
  pose proof (blocked_collection_completes_empty
                ("handle_popups" :: Scraper.class_methods) (Ok tt) id
                working {[ 1 := kw ]} 1 kw 0%nat)
    as (_ & _ & _ & _ & _ & _ & _ & Hworking).
  split; [exact (Hmarker 0%nat)|]. split.
  - apply Hdeclared. intros s Hs. simpl. by rewrite Hs.
  - destruct (Hworking (lookup_singleton_eq 1 kw) eq_refl) as (effs & db' & Hrun & _).
    { repeat constructor. }
    exists effs, db'. exact Hrun.
Defined.

(** C7 (counterexample).  A page that shows a CAPTCHA marker and no results
    feed.  With the models as declared the job ends with the mapper error at
    its first attempt, before the browser is opened; with working
    collaborators it returns 'completed', not 'failed'.  Neither trace has a
    thirty-second wait. *)
Lemma captcha_blocked_job_is_completed :
  let h : @Scraper.Harness nat :=
    {| Scraper.create_stealth_driver := Ok tt; Scraper.driver_get := Ok tt;
       Scraper.captcha_elements := Ok 1%nat; Scraper.feed_located := false;
       Scraper.visible := fun _ => ([], 0) |} in
  let declared := fun _ : nat =>
    {| Tasks.harness := h;
       Tasks.collaborator := fun s =>
         if Tasks.uses_models s then Orm.mappers else Ok tt |} in
  let working := fun _ : nat =>
    {| Tasks.harness := h; Tasks.collaborator := fun _ => Ok tt |} in
  let kw := {| Tasks.keyword := "coffee shops in Denver"; Tasks.status := "pending";
               Tasks.total_results := 0 |} in
  Tasks.run_job Scraper.class_methods (Ok tt) id 1 0%nat {[ 1 := kw ]} declared 1
  = Some (Raise (OtherException "NoForeignKeysError"), {[ 1 := kw ]}, [Tasks.Attempt 0])
  /\ exists r db' evs,
       Tasks.run_job Scraper.class_methods (Ok tt) id 1 0%nat {[ 1 := kw ]} working 1
       = Some (Ok r, db', evs)
       /\ Tasks.ret_status r = "completed"
       /\ Tasks.ret_status r <> "failed"
       /\ evs = [Tasks.Attempt 0; Tasks.Browser Scraper.Quit; Tasks.CompletionAlert 1 0]
       /\ List.filter Tasks.is_sleep evs = [].
Proof.
  intros h declared working kw. split; [vm_compute; reflexivity|].
  eexists _, _, _.
  split; [vm_compute; reflexivity|].
  repeat split. discriminate.
Qed.

(** ** The submission routes *)

Section RoutesFacts.
Import Routes.

Lemma existsb_is_keyword (items : list json) :
  Forall (fun j => j <> JStr "keyword") items -> existsb is_keyword items = false.
Proof.
  induction 1 as [|j items Hj _ IH]; [reflexivity|].
  simpl. rewrite IH, orb_false_r.
  destruct j as [| | |s]; try reflexivity. simpl.
  apply String.eqb_neq. congruence.
Qed.

Lemma missing_keyword_rejected (data : posted) :
  spec_rejected data -> missing_keyword data = Ok true.
Proof.
  unfold spec_rejected, missing_keyword.
  intros [->|[->|[->|[->|[->|[(d & -> & Hd)|[(items & -> & Hi)|(s & -> & Hs)]]]]]]];
    try reflexivity.
  - simpl. destruct (bool_decide (d = ∅)); [reflexivity|].
    rewrite Hd. rewrite bool_decide_eq_false_2; [reflexivity|].
    by intros [? ?].
  - simpl. destruct items; [reflexivity|]. by rewrite (existsb_is_keyword _ Hi).
  - simpl. destruct (String.eqb s ""); [reflexivity|]. by rewrite Hs.
Qed.

Lemma missing_keyword_present (d : gmap string json) (k : json) :
  d !! "keyword" = Some k -> missing_keyword (BObject d) = Ok false.
Proof.
  intros Hk. unfold missing_keyword. simpl.
  rewrite bool_decide_eq_false_2.
  2:{ intros ->. by rewrite lookup_empty in Hk. }
  rewrite Hk. rewrite bool_decide_eq_true_2; [reflexivity | by eexists].
Qed.

(** C9 (as the code has it).  Both routes check only that the body is not
    empty and holds a 'keyword'.  A rejected body gets 400 and nothing is
    stored or scraped.  An object whose 'keyword' member is a text,
    whatever text (the empty one included), passes the check:
    [api_scrape_keyword] runs the scrape with it; [create_keyword] builds
    a [Keyword], which with the models as declared raises the mapper error,
    so the route answers 500 and stores nothing, and which with mappers
    that configure and a commit that goes through stores a pending record
    and answers 201.  A body that is [true] or a non-zero number makes both
    routes answer 500. *)
Theorem routes_check_presence_only
    (scrape : json -> json -> result nat) (orm session : result unit)
    (table : list Keyword) (data : posted) :
  (spec_rejected data ->
   create_keyword orm session table data
   = (Ok {| code := 400; body := {[ "error" := JStr "Keyword is required" ]} |},
      table)
   /\ api_scrape_keyword scrape data
      = Ok {| code := 400; body := {[ "error" := JStr "Keyword required" ]} |})
  /\ (forall d s, data = BObject d -> d !! "keyword" = Some (JStr s) ->
      create_keyword Orm.mappers session table data
      = (Raise (OtherException "NoForeignKeysError"), table)
      /\ status_code (create_keyword Orm.mappers session table data).1 = 500
      /\ create_keyword (Ok tt) (Ok tt) table data
         = (Ok {| code := 201;
                  body := {[ "keyword" := JStr s; "status" := JStr "pending" ]} |},
            (table ++ [{| keyword := JStr s; status := "pending" |}])%list)
      /\ (forall e, create_keyword (Ok tt) (Raise e) table data = (Raise e, table))
      /\ api_scrape_keyword scrape data
         = Ok match scrape (JStr s) (default (JNum 50) (d !! "max_results")) with
              | Ok n =>
                  {| code := 200;
                     body := {[ "success" := JBool true; "keyword" := JStr s;
                                "results_count" := JNum (Z.of_nat n) ]} |}
              | Raise _ => {| code := 500; body := {[ "success" := JBool false ]} |}
              end)
  /\ (data = BBool true \/ (exists n, n <> 0 /\ data = BNum n) ->
      (create_keyword orm session table data).2 = table
      /\ status_code (create_keyword orm session table data).1 = 500
      /\ status_code (api_scrape_keyword scrape data) = 500).
Proof.
  split; [|split].
  - intros Hmiss%missing_keyword_rejected.
    unfold create_keyword, api_scrape_keyword. rewrite Hmiss. auto.
  - intros d s -> Hk.
    pose proof (missing_keyword_present d (JStr s) Hk) as Hpresent.
    unfold create_keyword, api_scrape_keyword. rewrite Hpresent.
    unfold subscript_keyword, get_max_results. rewrite Hk, !bind_ok.
    repeat split. destruct (scrape _ _); reflexivity.
  - intros [->|(n & Hn & ->)].
    + repeat split.
    + unfold create_keyword, api_scrape_keyword, missing_keyword. simpl.
      apply Z.eqb_neq in Hn. rewrite Hn. repeat split.
Qed.

End RoutesFacts.

Lemma routes_check_presence_only_witness :
  let data := Routes.BObject {[ "keyword" := Routes.JStr "coffee shops in Denver" ]} in
  Routes.create_keyword (Ok tt) (Ok tt) [] (Routes.BObject ∅)
  = (Ok {| Routes.code := 400;
           Routes.body := {[ "error" := Routes.JStr "Keyword is required" ]} |}, [])
  /\ (Routes.create_keyword Orm.mappers (Ok tt) [] data).2 = []
  /\ (Routes.create_keyword (Ok tt) (Ok tt) [] data).2
     = [{| Routes.keyword := Routes.JStr "coffee shops in Denver";
           Routes.status := "pending" |}].
Proof.
  intros data. split; [|split].
  - apply (proj1 (routes_check_presence_only (fun _ _ => Ok 0%nat) (Ok tt) (Ok tt) []
                    (Routes.BObject ∅))).
    do 5 right. left. exists ∅. split; [reflexivity | apply lookup_empty].
  - destruct (proj1 (proj2 (routes_check_presence_only (fun _ _ => Ok 0%nat)
                              (Ok tt) (Ok tt) [] data))
                {[ "keyword" := Routes.JStr "coffee shops in Denver" ]}
                "coffee shops in Denver" eq_refl (lookup_singleton_eq _ _))
      as (Hdeclared & _).
    rewrite Hdeclared. reflexivity.
  - destruct (proj1 (proj2 (routes_check_presence_only (fun _ _ => Ok 0%nat)
                              (Ok tt) (Ok tt) [] data))
                {[ "keyword" := Routes.JStr "coffee shops in Denver" ]}
                "coffee shops in Denver" eq_refl (lookup_singleton_eq _ _))
      as (_ & _ & Hcreate & _).
    rewrite Hcreate. reflexivity.
Defined.

(** C9 (counterexample).  The empty keyword is not rejected.  The scrape
    route runs the collection with it and answers 200.  The creation route,
    with the models as declared, answers 500 and stores nothing, exactly as
    it does for a well-formed keyword; with mappers that configure it
    answers 201 and stores a pending record with the empty text. *)
Lemma create_keyword_accepts_empty :
  let h : @Scraper.Harness nat :=
    {| Scraper.create_stealth_driver := Ok tt; Scraper.driver_get := Ok tt;
       Scraper.captcha_elements := Ok 0%nat; Scraper.feed_located := true;
       Scraper.visible := fun k => ([k], 0) |} in
  let scrape (_ _ : Routes.json) :=
    Ok (length (Scraper.scrape_google_maps_advanced Scraper.class_methods
                  (Ok tt) id h 50).1) in
  let empty := Routes.BObject {[ "keyword" := Routes.JStr "" ]} in
  let well_formed := Routes.BObject {[ "keyword" := Routes.JStr "coffee shops" ]} in
  Routes.status_code (Routes.api_scrape_keyword scrape empty) = 200
  /\ Routes.create_keyword Orm.mappers (Ok tt) [] empty
     = (Raise (OtherException "NoForeignKeysError"), [])
  /\ Routes.create_keyword Orm.mappers (Ok tt) [] well_formed
     = (Raise (OtherException "NoForeignKeysError"), [])
  /\ Routes.create_keyword (Ok tt) (Ok tt) [] empty
     = (Ok {| Routes.code := 201;
              Routes.body := {[ "keyword" := Routes.JStr "";
                                "status" := Routes.JStr "pending" ]} |},
        [{| Routes.keyword := Routes.JStr ""; Routes.status := "pending" |}]).
Proof. vm_compute. repeat split; reflexivity. Qed.

Example api_scrape_accepts_empty :
  Routes.status_code (Routes.api_scrape_keyword (fun _ _ => Ok 0%nat)
                        (Routes.BObject {[ "keyword" := Routes.JStr "" ]})) = 200.
Proof. vm_compute. reflexivity. Qed.

Example create_keyword_rejects_missing :
  Routes.create_keyword (Ok tt) (Ok tt) [] (Routes.BObject {[ "priority" := Routes.JNum 2 ]})
  = (Ok {| Routes.code := 400;
           Routes.body := {[ "error" := Routes.JStr "Keyword is required" ]} |}, []).
Proof. vm_compute. reflexivity. Qed.

(** A text body that mentions 'keyword' passes the check and fails at the
    subscript; a null keyword fails at the commit. *)
Example create_keyword_server_errors :
  Routes.status_code
    (Routes.create_keyword (Ok tt) (Ok tt) [] (Routes.BText "my keyword")).1 = 500
  /\ Routes.status_code
       (Routes.api_scrape_keyword (fun _ _ => Ok 0%nat)
          (Routes.BArray [Routes.JStr "keyword"])) = 500
  /\ Routes.create_keyword (Ok tt) (Ok tt) []
       (Routes.BObject {[ "keyword" := Routes.JNull ]})
     = (Raise (OtherException "IntegrityError"), []).
Proof. vm_compute. repeat split; reflexivity. Qed.

(* ===================================================================== *)
(** * Further properties of the modelled code *)
(* ===================================================================== *)

(** ** The cache, continued *)

Section CacheMore.
Import Cache.

(** What a read returns depends on the two entries of its key only. *)
Lemma get_answer (self : CacheManager) now rr key :
  (get self now rr key).1
  = answer (local_cache self !! key)
      ((fun store => store !! key) <$> redis_client self) now rr.
Proof.
  unfold get, answer, redis_get.
  destruct (local_cache self !! key) as [[v [e|]]|]; [destruct (Qlt_le_dec now e)| |];
    try reflexivity;
    (destruct (redis_client self) as [store|]; [|reflexivity]; simpl;
     destruct rr; [by destruct (store !! key) as [[? ?]|]|];
     destruct (store !! key) as [[v' [e'|]]|]; try reflexivity;
     [destruct (Qlt_le_dec now e')|]; destruct (str_truthy v'); reflexivity).
Qed.

Lemma get_depends_on_key (s1 s2 : CacheManager) now rr key :
  local_cache s1 !! key = local_cache s2 !! key ->
  (fun store => store !! key) <$> redis_client s1
  = (fun store => store !! key) <$> redis_client s2 ->
  (get s1 now rr key).1 = (get s2 now rr key).1.
Proof. intros Hloc Hred. rewrite !get_answer, Hloc, Hred. reflexivity. Qed.

(** X1.  [set] on one key does not change what a read of another key
    returns, whether or not the Redis write goes through. *)
Theorem set_other_key (self : CacheManager) (now now' ttl : Q)
    (set_raises get_raises : bool) (key key' value : string) :
  key <> key' ->
  (get (set self now set_raises key value ttl) now' get_raises key').1
  = (get self now' get_raises key').1.
Proof.
  intros Hne. apply get_depends_on_key.
  - unfold set.
    destruct (redis_client self); [destruct set_raises; [|destruct (Qtruthy ttl)]|];
      simpl; by rewrite lookup_insert_ne.
  - unfold set, redis_setex, redis_set.
    destruct (redis_client self); [destruct set_raises; [|destruct (Qtruthy ttl)]|];
      simpl; try reflexivity; by rewrite lookup_insert_ne.
Qed.

Lemma set_other_key_witness :
  let self := set {| redis_client := Some ∅; local_cache := ∅ |} 0 false "a" "1" 60 in
  (get (set self 5 false "b" "2" 60) 10 false "a").1 = Some "1".
Proof.
  intros self.
  rewrite (set_other_key self 5 10 60 false false "b" "a" "2") by discriminate.
  reflexivity.
Defined.

(** X2.  After [delete(key)] a read of the key returns absent at any time,
    provided the Redis tier is absent or took the command; reads of other
    keys are not affected in any case. *)
Theorem delete_then_get (self : CacheManager) (now : Q)
    (delete_raises get_raises : bool) (key : string) :
  (redis_client self = None \/ delete_raises = false ->
   (get (delete self delete_raises key) now get_raises key).1 = None)
  /\ (forall key', key <> key' ->
        (get (delete self delete_raises key) now get_raises key').1
        = (get self now get_raises key').1).
Proof.
  split.
  - intros Hredis. unfold get, delete.
    destruct (redis_client self) as [store|] eqn:Hst.
    + destruct Hredis as [? | ->]; [discriminate|]. simpl.
      rewrite lookup_delete_eq. destruct get_raises; [reflexivity|].
      unfold redis_get. rewrite lookup_delete_eq. reflexivity.
    + simpl. rewrite lookup_delete_eq. reflexivity.
  - intros key' Hne. apply get_depends_on_key.
    + unfold delete. destruct (redis_client self); [destruct delete_raises|];
        simpl; by rewrite lookup_delete_ne.
    + unfold delete. destruct (redis_client self); [destruct delete_raises|];
        simpl; try reflexivity; by rewrite lookup_delete_ne.
Qed.

Lemma delete_then_get_witness :
  let self := set {| redis_client := Some ∅; local_cache := ∅ |} 0 false "a" "1" 60 in
  (get self 10 false "a").1 = Some "1"
  /\ (get (delete self false "a") 10 false "a").1 = None.
Proof.
  intros self. split; [reflexivity|].
  apply (proj1 (delete_then_get self 10 false false "a")). right. reflexivity.
Defined.

(** X3.  After [clear()] every read returns absent, provided the Redis
    tier is absent or took the flush; when the flush fails the values still
    in Redis remain readable. *)
Theorem clear_then_get (self : CacheManager) (now : Q)
    (clear_raises get_raises : bool) (key : string) :
  redis_client self = None \/ clear_raises = false ->
  (get (clear self clear_raises) now get_raises key).1 = None.
Proof.
  intros Hredis. unfold get, clear.
  destruct (redis_client self) as [store|] eqn:Hst.
  - destruct Hredis as [? | ->]; [discriminate|]. simpl.
    rewrite lookup_empty. destruct get_raises; [reflexivity|].
    unfold redis_get. rewrite lookup_empty. reflexivity.
  - simpl. rewrite lookup_empty. reflexivity.
Qed.

Lemma clear_then_get_witness :
  let self := set {| redis_client := Some ∅; local_cache := ∅ |} 0 false "a" "1" 60 in
  (get (clear self false) 10 false "a").1 = None
  /\ (get (clear self true) 10 false "a").1 = Some "1".
Proof.
  intros self. split; [|reflexivity].
  apply (clear_then_get self 10 false false "a"). right. reflexivity.
Defined.

(** X4.  [set] with [expire_seconds = 0] stores the value without expiry:
    zero is read as "no TTL", so every later read on that manager returns
    the value. *)
Theorem set_zero_ttl_never_expires (self : CacheManager) (now now' : Q)
    (set_raises get_raises : bool) (key value : string) :
  local_cache (set self now set_raises key value 0) !! key = Some (value, None)
  /\ (get (set self now set_raises key value 0) now' get_raises key).1 = Some value.
Proof.
  assert (Hloc : local_cache (set self now set_raises key value 0) !! key
                 = Some (value, None)).
  { unfold set. destruct (redis_client self); [destruct set_raises|];
      simpl; apply lookup_insert_eq. }
  split; [exact Hloc|]. unfold get. rewrite Hloc. reflexivity.
Qed.

(** X5.  A read that misses locally and finds a non-empty value in Redis
    returns it and keeps a local copy for 300 seconds from the read: until
    then further reads return the value without consulting Redis, even if
    Redis fails or has dropped the key. *)
Theorem redis_hit_is_kept_locally (self : CacheManager) (store : gmap string entry)
    (now now' : Q) (get_raises : bool) (key value : string) :
  local_cache self !! key = None ->
  redis_client self = Some store ->
  redis_get store now key = Some value ->
  value <> "" ->
  (get self now false key).1 = Some value
  /\ local_cache (get self now false key).2 !! key
     = Some (value, Some (now + 300)%Q)
  /\ ((now' < now + 300)%Q ->
      forall store',
        (get {| redis_client := store';
                local_cache := local_cache (get self now false key).2 |}
           now' get_raises key).1 = Some value).
Proof.
  intros Hmiss Hred Hhit Hne.
  assert (Htruthy : str_truthy value = true).
  { unfold str_truthy. apply negb_true_iff, String.eqb_neq, Hne. }
  assert (Hget : get self now false key
                 = (Some value,
                    {| redis_client := Some store;
                       local_cache := <[key := (value, Some (now + 300)%Q)]>
                                        (local_cache self) |})).
  { unfold get. unfold entry in *. rewrite Hmiss, Hred, Hhit, Htruthy. reflexivity. }
  rewrite Hget. simpl. split; [reflexivity|].
  split; [apply lookup_insert_eq|].
  intros Hlive store'. unfold get. simpl. rewrite lookup_insert_eq.
  destruct (Qlt_le_dec now' (now + 300)) as [_|Hle]; [reflexivity|].
  exfalso. apply (Qlt_not_le _ _ Hlive Hle).
Qed.

Lemma redis_hit_is_kept_locally_witness :
  let store : gmap string entry := {[ "k" := ("v", Some 10%Q) ]} in
  let self := {| redis_client := Some store; local_cache := ∅ |} in
  (get self 9 false "k").1 = Some "v"
  /\ (get {| redis_client := None;
             local_cache := local_cache (get self 9 false "k").2 |} 200 true "k").1
     = Some "v".
Proof.
  intros store self.
  destruct (redis_hit_is_kept_locally self store 9 200 true "k" "v")
    as (Hfirst & _ & Hkept); try reflexivity; [discriminate|].
  split; [exact Hfirst | apply Hkept; reflexivity].
Defined.

End CacheMore.

(** ** The scheduler, continued *)

Section SchedulerMore.
Import Scheduler.

(** A quotient of a bounded count by a positive count is bounded. *)
Lemma ratio_bounds (a c : Z) (n : nat) :
  (0 < n)%nat -> 0 <= a <= c * Z.of_nat n ->
  (0 <= inject_Z a / inject_Z (Z.of_nat n))%Q
  /\ (inject_Z a / inject_Z (Z.of_nat n) <= inject_Z c)%Q.
Proof.
  intros Hn [Ha Hc]. destruct n as [|n']; [lia|].
  unfold Qle, Qdiv, Qmult, Qinv, inject_Z. simpl.
  rewrite Pos.mul_1_l, Zpos_P_of_succ_nat. rewrite Nat2Z.inj_succ in Hc. split; nia.
Qed.

Lemma successes_le (rs : list SearchResult) : (successes rs <= length rs)%nat.
Proof. unfold successes. apply length_filter. Qed.

(** X7.  [calculate_success_rate] is 0 on an empty history and otherwise a
    fraction between 0 and 1. *)
Theorem calculate_success_rate_bounds (results : list SearchResult) :
  (0 <= calculate_success_rate results)%Q
  /\ (calculate_success_rate results <= 1)%Q
  /\ (results = [] -> calculate_success_rate results = 0%Q).
Proof.
  destruct results as [|r rs]; [repeat split; discriminate|].
  unfold calculate_success_rate. fold (successes (r :: rs)).
  pose proof (successes_le (r :: rs)) as Hle.
  destruct (ratio_bounds (Z.of_nat (successes (r :: rs))) 1 (length (r :: rs)))
    as [H0 H1]; [simpl; lia | lia |].
  repeat split; [exact H0 | exact H1 | discriminate].
Qed.

Lemma quality_points_bounds (r : QualityRow) : 0 <= quality_points r <= 100.
Proof.
  unfold quality_points.
  destruct (truthy (q_title r)), (truthy (q_website r)), (truthy (q_phone r)),
    (truthy_float (q_stars r)); lia.
Qed.

Lemma quality_total_bounds (rs : list QualityRow) :
  0 <= foldr Z.add 0 (quality_points <$> rs) <= 100 * Z.of_nat (length rs).
Proof.
  induction rs as [|r rs IH]; [simpl; lia|].
  pose proof (quality_points_bounds r). cbn [fmap list_fmap foldr length] in *.
  rewrite Nat2Z.inj_succ. lia.
Qed.

(** X8.  [calculate_average_quality] lies between 0 and 100, and is 0 on an
    empty list. *)
Theorem calculate_average_quality_bounds (results : list QualityRow) :
  (0 <= calculate_average_quality results)%Q
  /\ (calculate_average_quality results <= 100)%Q
  /\ (results = [] -> calculate_average_quality results = 0%Q).
Proof.
  destruct results as [|r rs]; [repeat split; discriminate|].
  unfold calculate_average_quality.
  pose proof (quality_total_bounds (r :: rs)) as Hb.
  destruct (ratio_bounds (foldr Z.add 0 (quality_points <$> r :: rs)) 100
              (length (quality_points <$> r :: rs))) as [H0 H1].
  - rewrite length_fmap. simpl. lia.
  - rewrite length_fmap. lia.
  - repeat split; [exact H0 | exact H1 | discriminate].
Qed.

(** X9.  [update_performance_metrics] appends the new record to the
    keyword's history and keeps the last ten: the history has
    [min 10 (old length + 1)] records, ends with the new one, is the tail of
    the old history followed by the new record, and no other keyword's
    history changes. *)
Theorem update_performance_metrics_keeps_ten
    (performance_metrics : gmap Z (list metric)) (now : Q) (kid : Z) (count : Z) :
  let old : list metric := default [] (performance_metrics !! kid) in
  let new := {| timestamp := now; result_count := count; success := 0 <? count |} in
  let after := update_performance_metrics performance_metrics now kid count in
  exists history,
    after !! kid = Some history
    /\ length history = Nat.min 10 (S (length old))
    /\ last history = Some new
    /\ history `suffix_of` (old ++ [new])%list
    /\ forall kid', kid <> kid' -> after !! kid' = performance_metrics !! kid'.
Proof.
  intros old new after. subst after. unfold update_performance_metrics.
  fold old. fold new.
  set (full := (old ++ [new])%list).
  assert (Hlen : length full = S (length old)).
  { subst full. rewrite length_app. simpl. lia. }
  eexists. split; [apply lookup_insert_eq|].
  destruct (Nat.ltb_spec 10 (length full)) as [Hlong|Hshort].
  - repeat split.
    + rewrite length_drop. lia.
    + subst full. rewrite drop_app_le by lia. apply last_snoc.
    + apply suffix_drop.
    + intros kid' Hne. by rewrite lookup_insert_ne.
  - repeat split.
    + lia.
    + subst full. apply last_snoc.
    + reflexivity.
    + intros kid' Hne. by rewrite lookup_insert_ne.
Qed.

(** The indices of [range_step] are below the stop. *)
Lemma range_step_lt fuel start stop step i :
  i ∈ range_step fuel start stop step -> (i < stop)%nat.
Proof.
  revert start. induction fuel as [|fuel IH]; intros start; simpl.
  - intros []%elem_of_nil.
  - destruct (Nat.ltb_spec start stop); [|intros []%elem_of_nil].
    intros [->|Hin]%elem_of_cons; [assumption | exact (IH _ Hin)].
Qed.

(** Slicing at the indices of [range_step] cuts the list into pieces. *)
Lemma range_step_slices (ids : list Z) (b fuel start : nat) :
  (0 < b)%nat -> (length ids <= start + fuel)%nat ->
  concat ((fun i => take b (drop i ids)) <$> range_step fuel start (length ids) b)
  = drop start ids.
Proof.
  intros Hb. revert start. induction fuel as [|fuel IH]; intros start Hfuel; simpl.
  - rewrite drop_ge by lia. reflexivity.
  - destruct (Nat.ltb_spec start (length ids)) as [Hlt|Hge].
    + cbn [fmap list_fmap concat]. rewrite IH by lia.
      rewrite <- drop_drop. apply take_drop.
    + rewrite drop_ge by lia. reflexivity.
Qed.

(** X10.  [schedule_batch_processing] with a positive batch size cuts the
    keyword list into consecutive batches: concatenated in order they give
    back the list, and each has between 1 and [batch_size] keywords.  The
    registered time of day of batch [i] is [now + i * delay] wrapped at
    midnight, so two batches whose offsets differ by a whole number of days
    are registered at the same time.  A batch size of 0 raises
    [ValueError]. *)
Theorem schedule_batch_processing_spec (now : nat -> Z) (keyword_ids : list Z)
    (batch_size : nat) (delay_minutes : Z) :
  (batch_size = O ->
   Py.is_raise (schedule_batch_processing now keyword_ids batch_size delay_minutes)
   = true)
  /\ ((0 < batch_size)%nat ->
      exists registered,
        schedule_batch_processing now keyword_ids batch_size delay_minutes
        = Ok registered
        /\ concat (snd <$> registered) = keyword_ids
        /\ Forall (fun batch => (0 < length batch <= batch_size)%nat)
             (snd <$> registered)
        /\ (forall i entry, registered !! i = Some entry ->
              entry.1 = time_str (now i) i delay_minutes)
        /\ (forall m i k, (Z.of_nat k * delay_minutes) mod 1440 = 0 ->
              time_str m (i + k) delay_minutes = time_str m i delay_minutes)).
Proof.
  split.
  - intros ->. reflexivity.
  - intros Hb. unfold schedule_batch_processing, batches.
    destruct batch_size as [|b]; [lia|]. rewrite bind_ok.
    set (bs := (fun i => take (S b) (drop i keyword_ids))
                 <$> range_step (length keyword_ids) 0 (length keyword_ids) (S b)).
    eexists. split; [reflexivity|].
    assert (Hsnd : forall (l : list (list Z)) (g : nat -> list Z -> string),
               snd <$> imap (fun i batch => (g i batch, batch)) l = l).
    { intros l. induction l as [|x l IH]; intros g; [reflexivity|].
      cbn [imap fmap list_fmap snd]. f_equal. apply (IH (fun i => g (S i))). }
    rewrite Hsnd. repeat split.
    + subst bs. rewrite range_step_slices by lia. apply drop_0.
    + subst bs. apply Forall_fmap, Forall_forall. intros i Hi%range_step_lt.
      simpl. rewrite length_take, length_drop. lia.
    + intros i entry Hi. rewrite list_lookup_imap in Hi.
      destruct (bs !! i); [|discriminate]. injection Hi as <-. reflexivity.
    + intros m i k Hk. unfold time_str.
      replace ((m + Z.of_nat (i + k) * delay_minutes) mod 1440)
        with ((m + Z.of_nat i * delay_minutes) mod 1440); [reflexivity|].
      rewrite Nat2Z.inj_add, Z.mul_add_distr_r, Z.add_assoc.
      rewrite (Z.add_mod (m + Z.of_nat i * delay_minutes)) by lia.
      rewrite Hk, Z.add_0_r, Z.mod_mod by lia. reflexivity.
Qed.

Lemma schedule_batch_processing_spec_witness :
  exists registered,
    schedule_batch_processing (fun _ => 23 * 60 + 50) [1; 2; 3; 4; 5; 6; 7] 3 30
    = Ok registered
    /\ concat (snd <$> registered) = [1; 2; 3; 4; 5; 6; 7].
Proof.
  destruct (proj2 (schedule_batch_processing_spec
                     (fun _ => 23 * 60 + 50) [1; 2; 3; 4; 5; 6; 7] 3 30))
    as (registered & Hrun & Hcat & _); [lia|].
  exists registered. split; assumption.
Defined.

Example schedule_batch_processing_run :
  schedule_batch_processing (fun _ => 23 * 60 + 50) [1; 2; 3; 4; 5; 6; 7] 3 30
  = Ok [("23:50", [1; 2; 3]); ("00:20", [4; 5; 6]); ("00:50", [7])].
Proof. reflexivity. Qed.

(** [update_first] changes nothing when no task has the id. *)
Lemma update_first_absent (tasks : list task) tid new_status now :
  Forall (fun t => task_id t <> tid) tasks ->
  update_first tasks tid new_status now = tasks.
Proof.
  induction 1 as [|t ts Ht _ IH]; [reflexivity|]. simpl.
  apply String.eqb_neq in Ht. rewrite Ht. by rewrite IH.
Qed.

Lemma update_first_ids (tasks : list task) tid new_status now :
  task_id <$> update_first tasks tid new_status now = task_id <$> tasks.
Proof.
  induction tasks as [|t ts IH]; [reflexivity|]. simpl.
  destruct (String.eqb (task_id t) tid); [reflexivity|].
  cbn [fmap list_fmap]. f_equal. exact IH.
Qed.

(** X11.  [cancel_scheduled_task] returns [False] and changes nothing for a
    keyword without an entry.  Otherwise it returns [True] (also when no
    task had the id), the keyword keeps exactly its tasks with another id,
    in order, other keywords are untouched, and a later
    [update_task_status] for the cancelled id has no effect. *)
Theorem cancel_scheduled_task_spec (scheduled_tasks : gmap Z (list task))
    (kid : Z) (tid : string) :
  (scheduled_tasks !! kid = None ->
   cancel_scheduled_task scheduled_tasks kid tid = (false, scheduled_tasks))
  /\ (forall tasks, scheduled_tasks !! kid = Some tasks ->
      let after := (cancel_scheduled_task scheduled_tasks kid tid).2 in
      (cancel_scheduled_task scheduled_tasks kid tid).1 = true
      /\ (exists kept,
            after !! kid = Some kept
            /\ kept `sublist_of` tasks
            /\ (forall t, t ∈ kept <-> t ∈ tasks /\ task_id t <> tid))
      /\ (forall kid', kid <> kid' -> after !! kid' = scheduled_tasks !! kid')
      /\ (forall new_status now,
            update_task_status after kid tid new_status now = after)).
Proof.
  split; [intros Hnone; unfold cancel_scheduled_task; by rewrite Hnone|].
  intros tasks Hsome after. subst after. unfold cancel_scheduled_task.
  rewrite Hsome. cbn [fst snd].
  set (keep := fun t : task => negb (String.eqb (task_id t) tid)).
  assert (Hkeep : forall t, keep t <-> task_id t <> tid).
  { intros t. unfold keep. rewrite <- String.eqb_neq.
    destruct (String.eqb (task_id t) tid); simpl; split; (done || discriminate). }
  split; [reflexivity|]. split; [|split].
  - exists (filter keep tasks). split; [apply lookup_insert_eq|].
    split; [apply sublist_filter|].
    intros t. rewrite list_elem_of_filter, Hkeep. tauto.
  - intros kid' Hne. by rewrite lookup_insert_ne.
  - intros new_status now. unfold update_task_status.
    rewrite lookup_insert_eq. cbn [default].
    rewrite update_first_absent.
    + apply insert_insert_eq.
    + apply Forall_forall. intros t [Ht%Hkeep _]%list_elem_of_filter. exact Ht.
Qed.

Lemma cancel_scheduled_task_spec_witness :
  let t id := {| task_id := id; scheduled_time := "02:15"; priority := "high";
                 status := "scheduled"; updated_at := None |} in
  (cancel_scheduled_task {[ 1 := [t "a"; t "b"; t "a"] ]} 1 "a").1 = true.
Proof.
  intros t.
  exact (proj1 (proj2 (cancel_scheduled_task_spec {[ 1 := [t "a"; t "b"; t "a"] ]} 1 "a")
                  [t "a"; t "b"; t "a"] (lookup_singleton_eq _ _))).
Defined.

(** X12.  [update_task_status] never adds or removes a task: the keyword's
    task ids are the same before and after, and other keywords are
    untouched.  For a keyword without an entry it leaves an empty list
    behind (the [defaultdict]), after which [cancel_scheduled_task] on that
    keyword answers [True]. *)
Theorem update_task_status_spec (scheduled_tasks : gmap Z (list task))
    (kid : Z) (tid new_status : string) (now : Q) :
  let after := update_task_status scheduled_tasks kid tid new_status now in
  (task_id <$> default [] (after !! kid))
  = (task_id <$> default [] (scheduled_tasks !! kid))
  /\ (forall kid', kid <> kid' -> after !! kid' = scheduled_tasks !! kid')
  /\ (scheduled_tasks !! kid = None ->
      after !! kid = Some []
      /\ forall tid', (cancel_scheduled_task after kid tid').1 = true).
Proof.
  intros after. subst after. unfold update_task_status. split; [|split].
  - rewrite lookup_insert_eq. cbn [default]. apply update_first_ids.
  - intros kid' Hne. by rewrite lookup_insert_ne.
  - intros Hnone. rewrite Hnone. cbn [default update_first].
    split; [apply lookup_insert_eq|].
    intros tid'. unfold cancel_scheduled_task. by rewrite lookup_insert_eq.
Qed.

(** Only the first task with the id is updated. *)
Example update_task_status_first_only :
  let t id st := {| task_id := id; scheduled_time := "02:15"; priority := "high";
                    status := st; updated_at := None |} in
  update_task_status {[ 1 := [t "a" "scheduled"; t "a" "scheduled"] ]} 1 "a" "running" 5
  !! 1
  = Some [ {| task_id := "a"; scheduled_time := "02:15"; priority := "high";
              status := "running"; updated_at := Some 5%Q |}; t "a" "scheduled" ].
Proof. vm_compute. reflexivity. Qed.

Lemma reschedule_keyword_undefined : "reschedule_keyword" ∉ class_methods.
Proof. decide_absent. Qed.

Lemma analyze_scraping_performance_configured table keywords :
  analyze_scraping_performance (Ok tt) table keywords
  = Ok ((fun kw => (id kw, calculate_success_rate (filter_by_keyword_id table (id kw))))
          <$> keywords).
Proof.
  unfold analyze_scraping_performance, Orm.query. rewrite !bind_ok.
  induction keywords as [|kw kws IH]; [reflexivity|].
  cbn [analyze_loop fmap list_fmap]. unfold Orm.query. rewrite !bind_ok.
  fold (@fmap list _ Keyword (Z * Q)). rewrite IH. reflexivity.
Qed.

(** X13.  As the models are declared, [Keyword.query.all()] raises in
    [analyze_scraping_performance], so
    [optimize_schedule_based_on_performance] raises the mapper error before
    any rate is computed, whatever the tables hold.  With mappers that
    configure, it calls [self.reschedule_keyword], which the class does not
    define: it returns normally exactly when every keyword has a success
    rate of at least 0.6, and raises [AttributeError] as soon as one is
    below, which includes every keyword that has no results yet. *)
Theorem optimize_schedule_raises (reschedule_keyword : Z -> result unit)
    (table : list SearchResult) (keywords : list Keyword) :
  optimize_schedule_based_on_performance class_methods reschedule_keyword
    Orm.mappers table keywords = Raise (OtherException "NoForeignKeysError")
  /\ (forall e,
        optimize_schedule_based_on_performance class_methods reschedule_keyword
          (Raise e) table keywords = Raise e)
  /\ (Forall (fun kw => (6 # 10 <= calculate_success_rate
                                     (filter_by_keyword_id table (id kw)))%Q) keywords ->
      optimize_schedule_based_on_performance class_methods reschedule_keyword
        (Ok tt) table keywords = Ok [])
  /\ (Exists (fun kw => (calculate_success_rate
                           (filter_by_keyword_id table (id kw)) < 6 # 10)%Q) keywords ->
      optimize_schedule_based_on_performance class_methods reschedule_keyword
        (Ok tt) table keywords = Raise (AttributeError "reschedule_keyword"))
  /\ (Exists (fun kw => filter_by_keyword_id table (id kw) = []) keywords ->
      optimize_schedule_based_on_performance class_methods reschedule_keyword
        (Ok tt) table keywords = Raise (AttributeError "reschedule_keyword")).
Proof.
  split; [reflexivity|]. split; [reflexivity|].
  unfold optimize_schedule_based_on_performance.
  rewrite analyze_scraping_performance_configured, bind_ok.
  assert (Hlow : Exists (fun kw => (calculate_success_rate
                           (filter_by_keyword_id table (id kw)) < 6 # 10)%Q) keywords ->
                 optimize_loop class_methods reschedule_keyword
                   ((fun kw => (id kw, calculate_success_rate
                                         (filter_by_keyword_id table (id kw))))
                      <$> keywords)
                 = Raise (AttributeError "reschedule_keyword")).
  { induction keywords as [|kw kws IH]; intros Hex; [by apply Exists_nil in Hex|].
    cbn [optimize_loop fmap list_fmap].
    destruct (Qlt_le_dec _ _) as [Hlt|Hge].
    - rewrite (getattr_undefined _ _ reschedule_keyword_undefined). reflexivity.
    - apply Exists_cons in Hex as [Hlt|Hex]; [|exact (IH Hex)].
      exfalso. apply (Qlt_not_le _ _ Hlt Hge). }
  split; [|split].
  - clear Hlow. induction 1 as [|kw kws Hge _ IH]; [reflexivity|].
    cbn [optimize_loop fmap list_fmap].
    destruct (Qlt_le_dec _ _) as [Hlt|_]; [|exact IH].
    exfalso. apply (Qlt_not_le _ _ Hlt Hge).
  - exact Hlow.
  - intros Hex. apply Hlow. eapply Exists_impl; [exact Hex|].
    intros kw Hnone. simpl in Hnone. rewrite Hnone. reflexivity.
Qed.

Lemma optimize_schedule_raises_witness :
  let keywords := [{| id := 1; keyword := Py.unicode_of "coffee" |}] in
  optimize_schedule_based_on_performance class_methods (fun _ => Ok tt)
    Orm.mappers [] keywords = Raise (OtherException "NoForeignKeysError")
  /\ optimize_schedule_based_on_performance class_methods (fun _ => Ok tt)
       (Ok tt) [] keywords = Raise (AttributeError "reschedule_keyword").
Proof.
  intros keywords.
  pose proof (optimize_schedule_raises (fun _ => Ok tt) [] keywords)
    as (Hraise & _ & _ & _ & Hnone).
  split; [exact Hraise|].
  apply Hnone. apply Exists_cons_hd. reflexivity.
Defined.

End SchedulerMore.

(** ** The collector and the enrichment, continued *)

Section CollectorMore.
Import Scraper.
Context {item : Type} `{EqDecision item}.
Implicit Types (f : @feed item) (st : @loop_state item).

Lemma scroll_step_collected f st :
  collected_from f st -> collected_from f (scroll_step f st).
Proof.
  intros Hinv r. unfold scroll_step. cbn [results steps].
  intros [Hold|Hnew]%elem_of_app.
  - destruct (Hinv r Hold) as (k & Hk & Hin). exists k. split; [lia | exact Hin].
  - apply list_elem_of_filter in Hnew as [_ Hin]. exists (steps st). split; [lia | exact Hin].
Qed.

Lemma scroll_step_NoDup f st :
  NoDup (f (steps st)).1 -> NoDup (results st) -> NoDup (results (scroll_step f st)).
Proof.
  intros Hbatch Hres. unfold scroll_step. cbn [results].
  apply NoDup_app. split; [exact Hres|]. split.
  - intros x Hx [Hnot _]%list_elem_of_filter. exact (Hnot Hx).
  - apply NoDup_filter, Hbatch.
Qed.

Lemma scroll_loop_invariant (P : loop_state -> Prop) f max_results :
  (forall st, P st -> P (scroll_step f st)) ->
  forall fuel st st', P st -> scroll_loop fuel f max_results st = Some st' -> P st'.
Proof.
  intros Hstep fuel. induction fuel as [|fuel IH]; intros st st' HP;
    rewrite scroll_loop_unfold; destruct (continue max_results st);
    try discriminate; try (by intros [= <-]).
  apply IH, Hstep, HP.
Qed.

(** X14.  Whatever [scroll_and_collect] returns was shown by the feed at
    one of the steps it made, and when no single batch shows a listing
    twice the returned listings are pairwise distinct. *)
Theorem scroll_and_collect_distinct f max_results rs n :
  scroll_and_collect f max_results = Some (rs, n) ->
  (forall r, r ∈ rs -> exists k, (k < n)%nat /\ r ∈ (f k).1)
  /\ ((forall k, NoDup (f k).1) -> NoDup rs).
Proof.
  unfold scroll_and_collect.
  destruct (scroll_loop _ f max_results initial) as [st'|] eqn:Hrun; [|discriminate].
  simpl. intros [= <- <-]. split.
  - intros r Hr%elem_of_take. destruct Hr as (i & Hi & _).
    assert (Hinv : collected_from f st').
    { apply (scroll_loop_invariant (collected_from f) f max_results
               (scroll_step_collected f) (budget max_results (@initial item))
               initial st');
        [|exact Hrun].
      intros r0 []%elem_of_nil. }
    apply Hinv. eapply list_elem_of_lookup_2, Hi.
  - intros Hbatches.
    assert (Hnd : NoDup (results st')).
    { apply (scroll_loop_invariant (fun st => NoDup (results st)) f max_results
               (fun st => scroll_step_NoDup f st (Hbatches _))
               (budget max_results (@initial item)) initial st');
        [apply NoDup_nil_2 | exact Hrun]. }
    exact (sublist_NoDup _ _ Hnd (sublist_take _ _)).
Qed.

End CollectorMore.

Lemma scroll_and_collect_distinct_witness :
  let f : @Scraper.feed nat := fun k => ([k; S k], Z.of_nat k) in
  exists rs n, Scraper.scroll_and_collect f 4 = Some (rs, n) /\ NoDup rs.
Proof.
  intros f.
  assert (Hrun : Scraper.scroll_and_collect f 4 = Some ([0; 1; 2; 3]%nat, 3%nat))
    by reflexivity.
  exists [0; 1; 2; 3]%nat, 3%nat. split; [exact Hrun|].
  apply (proj2 (scroll_and_collect_distinct f 4 _ _ Hrun)).
  intros k. apply NoDup_cons. split; [|apply NoDup_singleton].
  intros Hin%list_elem_of_singleton. lia.
Defined.

(** A batch that shows a listing twice gets it collected twice: the
    comprehension compares with what was collected before the batch. *)
Example scroll_and_collect_duplicate_in_batch :
  Scraper.scroll_and_collect (fun _ => ([7; 7]%nat, 0)) 5 = Some ([7; 7]%nat, 2%nat).
Proof. reflexivity. Qed.

Section ScrapeMore.
Import Scraper Tasks.
Context {item : Type} `{EqDecision item}.

Lemma handle_popups_undefined : "handle_popups" ∉ Scraper.class_methods.
Proof. decide_absent. Qed.

(** In the class as written the collection stops at [self.handle_popups]. *)
Lemma scrape_on_class (handle_popups : result unit)
    (enrich : list item -> list item) (h : @Harness item) (max_results : nat) :
  scrape_google_maps_advanced Scraper.class_methods handle_popups enrich h max_results
  = ([], match create_stealth_driver h with Ok _ => [Quit] | Raise _ => [] end).
Proof.
  unfold scrape_google_maps_advanced, scrape_body.
  destruct (create_stealth_driver h); [|reflexivity].
  destruct (driver_get h) as [?|[]]; [|reflexivity..].
  rewrite bind_ok, (getattr_undefined _ _ handle_popups_undefined). reflexivity.
Qed.

(** X15.  With the class as written, [scrape_google_maps_advanced] returns
    no listing for any page: the call of the undefined [handle_popups]
    raises, the handler returns the empty list, and the browser, if one was
    created, is quit.  A job on an existing keyword whose collaborators work
    therefore ends 'completed' with [total_results = 0] at its first
    attempt, whatever the page shows. *)
Theorem scrape_returns_nothing (handle_popups : result unit)
    (enrich : list item -> list item) (h : @Harness item) (max_results : nat)
    (envs : nat -> @attempt_env item) (db : gmap Z Tasks.Keyword)
    (keyword_id : Z) (kw : Tasks.Keyword) (fuel : nat) :
  (scrape_google_maps_advanced Scraper.class_methods handle_popups enrich
     h max_results).1 = []
  /\ (db !! keyword_id = Some kw ->
      collaborators_work try_steps (envs 0%nat) ->
      exists db' evs,
        run_job Scraper.class_methods handle_popups enrich (S fuel) 0%nat db envs
          keyword_id
        = Some (Ok {| ret_status := "completed"; results_count := Some 0%nat;
                      error := None |}, db', evs)
        /\ db' !! keyword_id
           = Some {| Tasks.keyword := Tasks.keyword kw; Tasks.status := "completed";
                     total_results := 0 |}
        /\ List.filter is_attempt evs = [Attempt 0]
        /\ retry_delays evs = []).
Proof.
  split; [by rewrite scrape_on_class|].
  intros Hkw Hwork. cbn [Tasks.run_job].
  unfold collaborators_work, try_steps in Hwork.
  apply Forall_cons in Hwork as (Hq & (Hc & (Hd & (Hn & _)%Forall_cons)%Forall_cons)%Forall_cons).
  unfold Tasks.scrape_keyword_task, Tasks.try_block.
  rewrite Hq, Hkw, Hc, scrape_on_class. cbn [fst snd length]. rewrite Hd, Hn.
  eexists _, _. split; [reflexivity|].
  split; [apply lookup_insert_eq|].
  destruct (create_stealth_driver _); split; reflexivity.
Qed.

End ScrapeMore.

Lemma scrape_returns_nothing_witness :
  let h : @Scraper.Harness nat :=
    {| Scraper.create_stealth_driver := Ok tt; Scraper.driver_get := Ok tt;
       Scraper.captcha_elements := Ok 0%nat; Scraper.feed_located := true;
       Scraper.visible := fun k => ([k], Z.of_nat k) |} in
  let kw := {| Tasks.keyword := "coffee"; Tasks.status := "pending";
               Tasks.total_results := 0 |} in
  exists db' evs,
    Tasks.run_job Scraper.class_methods (Ok tt) id 1 0%nat {[ 1 := kw ]}
      (fun _ => {| Tasks.harness := h; Tasks.collaborator := fun _ => Ok tt |}) 1
    = Some (Ok {| Tasks.ret_status := "completed"; Tasks.results_count := Some 0%nat;
                  Tasks.error := None |}, db', evs).
Proof.
  intros h kw.
  destruct (proj2 (scrape_returns_nothing (Ok tt) id h 50
                     (fun _ => {| Tasks.harness := h;
                                  Tasks.collaborator := fun _ => Ok tt |})
                     {[ 1 := kw ]} 1 kw 0%nat)
              (lookup_singleton_eq 1 kw)) as (db' & evs & Hrun & _).
  { repeat constructor. }
  exists db', evs. exact Hrun.
Defined.

(** With [handle_popups] defined, the same page yields its listings. *)
Example scrape_with_handle_popups :
  (Scraper.scrape_google_maps_advanced ("handle_popups" :: Scraper.class_methods)
     (Ok tt) id
     {| Scraper.create_stealth_driver := Ok tt; Scraper.driver_get := Ok tt;
        Scraper.captcha_elements := Ok 0%nat; Scraper.feed_located := true;
        Scraper.visible := fun k => ([k], Z.of_nat k) |} 3).1
  = [0; 1; 2]%nat.
Proof. reflexivity. Qed.

Lemma append_assoc (s1 s2 s3 : string) :
  ((s1 ++ s2) ++ s3 = s1 ++ (s2 ++ s3))%string.
Proof.
  induction s1 as [|c s1 IH]; [reflexivity|].
  change (String c ((s1 ++ s2) ++ s3) = String c (s1 ++ (s2 ++ s3)))%string.
  by rewrite IH.
Qed.

Lemma append_empty_r (s : string) : (s ++ "")%string = s.
Proof.
  induction s as [|c s IH]; [reflexivity|].
  change (String c (s ++ "") = String c s)%string. by rewrite IH.
Qed.

Section SocialFacts.
Import Scraper.
Variable import_search : result unit.
Variable search : string -> result (list string).

Lemma first_with_domain_spec domain urls url :
  first_with_domain domain urls = Some url ->
  url ∈ urls /\ Py.contains url domain = true.
Proof.
  induction urls as [|u us IH]; [discriminate|]. simpl.
  destruct (Py.contains u domain) eqn:Hc.
  - intros [= <-]. split; [left | exact Hc].
  - intros [Hin Hurl]%IH. split; [by right | exact Hurl].
Qed.

Lemma social_loop_spec platforms q (social_data : gmap string string) platform url :
  social_loop search platforms q social_data !! platform = Some url ->
  social_data !! platform = Some url
  \/ exists domain results,
       (platform, domain) ∈ platforms
       /\ search (q ++ " " ++ domain)%string = Ok results
       /\ first_with_domain domain results = Some url.
Proof.
  revert social_data. induction platforms as [|[p d] ps IH]; intros sd; simpl; [auto|].
  destruct (search (q ++ " " ++ d)%string) as [results|e] eqn:Hs.
  - destruct (first_with_domain d results) as [u|] eqn:Hf.
    + intros [Hsd|(domain & rs & Hin & Hq & Hfd)]%IH.
      * destruct (decide (p = platform)) as [->|Hne].
        -- rewrite lookup_insert_eq in Hsd. injection Hsd as ->.
           right. exists d, results. split; [left|]. split; assumption.
        -- rewrite lookup_insert_ne in Hsd by exact Hne. by left.
      * right. exists domain, rs. split; [by right|]. split; assumption.
    + intros [Hsd|(domain & rs & Hin & Hq & Hfd)]%IH; [by left|].
      right. exists domain, rs. split; [by right|]. split; assumption.
  - intros [Hsd|(domain & rs & Hin & Hq & Hfd)]%IH; [by left|].
    right. exists domain, rs. split; [by right|]. split; assumption.
Qed.

(** X16.  Every profile [discover_social_media] reports is for one of the
    five platforms, was among the results of that platform's own query
    ("<name> official <domain>"), and contains the platform's domain; a
    failing import of the search library gives no profile at all. *)
Theorem discover_social_media_spec (business_name platform url : string) :
  discover_social_media import_search search business_name !! platform = Some url ->
  exists domain results,
    (platform, domain) ∈ social_platforms
    /\ search (business_name ++ " official " ++ domain)%string = Ok results
    /\ url ∈ results
    /\ Py.contains url domain = true
    /\ import_search = Ok tt.
Proof.
  unfold discover_social_media. destruct import_search as [[]|e]; [|by rewrite lookup_empty].
  intros [Hempty|(domain & results & Hin & Hq & Hf)]%social_loop_spec;
    [by rewrite lookup_empty in Hempty|].
  exists domain, results. split; [exact Hin|].
  apply first_with_domain_spec in Hf as [Hurl Hc].
  rewrite append_assoc in Hq. auto.
Qed.

End SocialFacts.

Lemma discover_social_media_spec_witness :
  let search (q : string) : result (list string) :=
    if Py.contains q "facebook.com"
    then Ok ["https://example.com/cafe"; "https://www.facebook.com/cafe"]
    else Raise (OtherException "HTTP 429") in
  Scraper.discover_social_media (Ok tt) search "Cafe" !! "facebook"
  = Some "https://www.facebook.com/cafe"
  /\ exists domain,
       ("facebook", domain) ∈ Scraper.social_platforms
       /\ Py.contains "https://www.facebook.com/cafe" domain = true.
Proof.
  intros search.
  assert (Hrun : Scraper.discover_social_media (Ok tt) search "Cafe" !! "facebook"
                 = Some "https://www.facebook.com/cafe") by (vm_compute; reflexivity).
  split; [exact Hrun|].
  destruct (discover_social_media_spec (Ok tt) search "Cafe" "facebook" _ Hrun)
    as (domain & results & Hin & _ & _ & Hc & _).
  exists domain. split; assumption.
Defined.

Section EnrichFacts.
Import Scraper.

Lemma preliminary_website_analysis_undefined :
  "preliminary_website_analysis" ∉ Scraper.class_methods.
Proof. decide_absent. Qed.

Lemma categorize_business_undefined : "categorize_business" ∉ Scraper.class_methods.
Proof. decide_absent. Qed.

(** X17.  [enrich_business_data] returns one listing per listing it was
    given, in order.  With the class as written the only thing it adds is
    the social profiles found for a listing with a title: the calls of the
    undefined [preliminary_website_analysis] and [categorize_business]
    raise and are swallowed, so no website data and no category is ever
    set. *)
Theorem enrich_business_data_on_class
    (discover : field -> gmap string field)
    (preliminary_website_analysis : field -> result (gmap string field))
    (categorize_business : field -> result field)
    (results : list (gmap string field)) :
  let enriched :=
    enrich_business_data Scraper.class_methods discover
      preliminary_website_analysis categorize_business results in
  length enriched = length results
  /\ forall i listing, results !! i = Some listing ->
       enriched !! i
       = Some match listing !! "title" with
              | Some t => if field_truthy t then discover t ∪ listing else listing
              | None => listing
              end.
Proof.
  intros enriched. subst enriched. unfold enrich_business_data.
  split; [apply length_fmap|].
  intros i listing Hi. rewrite list_lookup_fmap, Hi. cbn [fmap option_fmap option_map].
  f_equal. unfold enrich_one.
  set (l1 := match listing !! "title" with
             | Some t => if field_truthy t then discover t ∪ listing else listing
             | None => listing
             end).
  rewrite (getattr_undefined _ _ preliminary_website_analysis_undefined).
  rewrite (getattr_undefined _ _ categorize_business_undefined).
  destruct (l1 !! "website") as [w|]; [destruct (field_truthy w)|]; reflexivity.
Qed.

Lemma enrich_business_data_on_class_witness :
  let listing : gmap string field :=
    {[ "title" := FText "Cafe"; "website" := FText "https://cafe.example" ]} in
  let discover (_ : field) : gmap string field :=
    {[ "facebook" := FText "https://www.facebook.com/cafe" ]} in
  (enrich_business_data Scraper.class_methods discover
     (fun _ => Ok ∅) (fun _ => Ok (FText "Restaurant")) [listing]) !! 0%nat
  = Some (discover (FText "Cafe") ∪ listing).
Proof.
  intros listing discover.
  exact (proj2 (enrich_business_data_on_class discover (fun _ => Ok ∅)
                  (fun _ => Ok (FText "Restaurant")) [listing]) 0%nat listing eq_refl).
Defined.

(** With the two methods defined the category is set. *)
Example enrich_with_methods :
  enrich_one ("categorize_business" :: "preliminary_website_analysis"
              :: Scraper.class_methods)
    (fun _ => ∅) (fun _ => Ok ∅) (fun _ => Ok (FText "Restaurant"))
    {[ "title" := FText "Cafe" ]} !! "category"
  = Some (FText "Restaurant").
Proof. vm_compute. reflexivity. Qed.

End EnrichFacts.

(** ** The batch task and the analysis task *)

Section BatchFacts.
Import Tasks.
Variable attributes : list string.
Variable get_priority_value : string -> result Z.
Variable apply_async : Z -> Z -> result string.

Lemma batch_loop_counts keyword_ids priority results completed failed :
  let out := batch_loop attributes get_priority_value apply_async keyword_ids
               priority (results, completed, failed) in
  out.1.2 = (completed + length keyword_ids)%nat
  /\ (out.2 + length out.1.1
      = failed + length results + length keyword_ids)%nat.
Proof.
  revert results completed failed.
  induction keyword_ids as [|k ks IH]; intros results completed failed;
    cbn [batch_loop]; [simpl; lia|].
  destruct (_ ≫= _) as [r|e]; cbn [length].
  - destruct (IH (results ++ [r])%list (S completed) failed) as [Hc Hf].
    rewrite length_app in Hf. simpl in *. split; lia.
  - destruct (IH results (S completed) (S failed)) as [Hc Hf].
    simpl in *. split; lia.
Qed.

Lemma batch_loop_attribute_missing keyword_ids priority results completed failed :
  "get_priority_value" ∉ attributes ->
  batch_loop attributes get_priority_value apply_async keyword_ids priority
    (results, completed, failed)
  = (results, (completed + length keyword_ids)%nat, (failed + length keyword_ids)%nat).
Proof.
  intros Hmiss. revert completed failed.
  induction keyword_ids as [|k ks IH]; intros completed failed; cbn [batch_loop].
  - simpl. by rewrite !Nat.add_0_r.
  - rewrite (getattr_undefined _ _ Hmiss), bind_raise, IH. simpl.
    repeat f_equal; lia.
Qed.

End BatchFacts.

(** X18.  [batch_scraping_task] reports [completed] equal to the number of
    keywords whatever happened, and [failed] plus the number of task ids
    equal to it.  As written, [self.get_priority_value] is not an attribute
    of the task, so no keyword is queued: [failed] is the number of
    keywords and [task_ids] is empty. *)
Theorem batch_scraping_task_counts (attributes : list string)
    (get_priority_value : string -> result Z) (apply_async : Z -> Z -> result string)
    (keyword_ids : list Z) (priority : string) :
  let generic := Tasks.batch_scraping_task attributes get_priority_value apply_async
                   keyword_ids priority in
  let written := Tasks.batch_scraping_task Tasks.task_attributes get_priority_value
                   apply_async keyword_ids priority in
  Tasks.total_keywords generic = length keyword_ids
  /\ Tasks.completed generic = length keyword_ids
  /\ (Tasks.failed generic + length (Tasks.task_ids generic))%nat = length keyword_ids
  /\ Tasks.failed written = length keyword_ids
  /\ Tasks.task_ids written = []
  /\ Tasks.completed written = length keyword_ids.
Proof.
  intros generic written. subst generic written. unfold Tasks.batch_scraping_task.
  pose proof (batch_loop_counts attributes get_priority_value apply_async
                keyword_ids priority [] O O) as [Hc Hf].
  rewrite (batch_loop_attribute_missing Tasks.task_attributes) by decide_absent.
  destruct (Tasks.batch_loop attributes _ _ _ _ _) as [[rs c] f].
  simpl in *. repeat split; lia.
Qed.

Example batch_scraping_task_run :
  Tasks.batch_scraping_task Tasks.task_attributes (fun _ => Ok 5)
    (fun k _ => Ok "queued") [1; 2; 3] "high"
  = {| Tasks.total_keywords := 3; Tasks.completed := 3; Tasks.failed := 3;
       Tasks.task_ids := [] |}.
Proof. reflexivity. Qed.

Section AnalysisFacts.
Import Analyzer Tasks.
Variables basic_website_analysis technical_analysis seo_analysis
  security_analysis performance_analysis business_credibility_analysis
  : string -> result (gmap string pyval).
Variable assign_grade : Z -> result pyval.
Variable get_fallback_analysis : string -> result (gmap string pyval).
Variable utcnow : pyval.
Variable hash : string -> Z.
Variable save_analysis : gmap string pyval -> result Z.
Variable clock : string -> Q * Q.

Local Abbreviation analyzer_call :=
  (new_analyzer_call basic_website_analysis technical_analysis seo_analysis
     security_analysis performance_analysis business_credibility_analysis
     assign_grade get_fallback_analysis utcnow clock).

Lemma analyzer_call_raises url :
  analyzer_call url = Raise (AttributeError "get_fallback_analysis").
Proof.
  unfold new_analyzer_call, comprehensive_analysis.
  destruct (fresh_analysis_raises basic_website_analysis technical_analysis
              seo_analysis security_analysis performance_analysis
              business_credibility_analysis assign_grade utcnow url) as [e ->].
  rewrite (getattr_undefined _ _ get_fallback_analysis_undefined), bind_raise.
  rewrite lookup_empty. reflexivity.
Qed.

Lemma analysis_try_raises website redis now redis_raises :
  Py.is_raise (analysis_try hash analyzer_call save_analysis website redis now
                 redis_raises) = true.
Proof.
  unfold analysis_try.
  destruct website as [[site|]|]; try reflexivity.
  destruct (String.eqb site ""); [reflexivity|].
  destruct (Cache.get _ _ _ _).1 as [cached|]; [destruct (Cache.str_truthy cached)|];
    try reflexivity; by rewrite analyzer_call_raises.
Qed.

(** X19.  With the analyzer as written, [analyze_website_task] cannot
    complete: a result without a website raises [ValueError], a cached
    analysis comes back from Redis as text on which [.get] raises, and a
    fresh analysis raises in [comprehensive_analysis].  Whatever the row,
    the Redis store and the clock at each attempt, the job makes exactly 3
    attempts, 30 seconds apart, and returns status 'failed'. *)
Theorem analyze_website_task_always_fails
    (world : nat -> option (option string) * option (gmap string Cache.entry) * Q * bool) :
  exists e,
    (forall fuel, (3 <= fuel)%nat ->
       run_analysis_job hash analyzer_call save_analysis fuel 0%nat world
       = Some ({| ret_status := "failed"; results_count := None; error := Some e |},
               [ Attempt 0; RetryScheduled 30; Attempt 1; RetryScheduled 30;
                 Attempt 2 ]))
    /\ (forall fuel, (fuel < 3)%nat ->
          run_analysis_job hash analyzer_call save_analysis fuel 0%nat world = None).
Proof.
  assert (Htask : forall retries, exists e,
    analyze_website_task hash analyzer_call save_analysis retries
      (world retries).1.1.1 (world retries).1.1.2 (world retries).1.2 (world retries).2
    = if (retries <? analysis_max_retries)%nat then Retry analysis_retry_delay e
      else Returned {| ret_status := "failed"; results_count := None;
                       error := Some e |}).
  { intros retries. unfold analyze_website_task.
    pose proof (analysis_try_raises (world retries).1.1.1 (world retries).1.1.2
                  (world retries).1.2 (world retries).2) as Hr.
    destruct (analysis_try _ _ _ _ _ _ _) as [[? ?]|e]; [discriminate|]. eauto. }
  destruct (Htask 0%nat) as [e0 H0], (Htask 1%nat) as [e1 H1], (Htask 2%nat) as [e2 H2].
  exists e2. split.
  - intros [|[|[|fuel]]] Hfuel; try lia. cbn [run_analysis_job].
    destruct (world 0%nat) as [[[w0 r0] n0] b0], (world 1%nat) as [[[w1 r1] n1] b1],
      (world 2%nat) as [[[w2 r2] n2] b2].
    cbn [fst snd] in *. rewrite H0, H1, H2. reflexivity.
  - intros [|[|[|fuel]]] Hfuel; try lia; cbn [run_analysis_job]; try reflexivity;
      destruct (world 0%nat) as [[[w0 r0] n0] b0], (world 1%nat) as [[[w1 r1] n1] b1];
      cbn [fst snd] in *; rewrite H0; try rewrite H1; reflexivity.
Qed.

End AnalysisFacts.

(** ** The persisted models *)

Section ModelsFacts.
Import Models.

Lemma points_mono (g g' : bool) (c score score' : Z) :
  (g = true -> g' = true) -> 0 <= c -> score <= score' ->
  (if g then score + c else score) <= (if g' then score' + c else score').
Proof. destruct g, g'; intros Hg; lia. Qed.

Lemma orb_mono (a b a' b' : bool) :
  (a = true -> a' = true) -> (b = true -> b' = true) ->
  a || b = true -> a' || b' = true.
Proof. destruct a, b; simpl; intros Ha Hb H; try discriminate; rewrite ?Ha, ?Hb by done;
  by rewrite ?orb_true_r. Qed.

(** X20.  [quality_score] lies between 0 and 100, is 100 exactly when the
    listing has a title, a website, a phone or an email, a rating and one of
    facebook, instagram, linkedin; it never decreases when fields are filled
    in, and [update_quality_flags] does not change it. *)
Theorem quality_score_spec (r r' : SearchResult) :
  0 <= quality_score r <= 100
  /\ (quality_score r = 100 <->
      truthy (title r) && truthy (website r)
      && (truthy (phone r) || truthy (email r)) && truthy_float (stars r)
      && (truthy (facebook r) || truthy (instagram r) || truthy (linkedin r)) = true)
  /\ quality_score (update_quality_flags r) = quality_score r
  /\ (fills r r' -> quality_score r <= quality_score r').
Proof.
  split; [|split; [|split]].
  - unfold quality_score.
    destruct (truthy (title r)), (truthy (website r)),
      (truthy (phone r) || truthy (email r)), (truthy_float (stars r)),
      (truthy (facebook r) || truthy (instagram r) || truthy (linkedin r)); lia.
  - unfold quality_score.
    destruct (truthy (title r)), (truthy (website r)),
      (truthy (phone r) || truthy (email r)), (truthy_float (stars r)),
      (truthy (facebook r) || truthy (instagram r) || truthy (linkedin r));
      simpl; split; (lia || discriminate || reflexivity).
  - reflexivity.
  - intros (Ht & Hw & Hp & He & Hs & Hf & Hi & Hl). unfold quality_score.
    apply points_mono; [|lia|].
    { apply orb_mono; [apply orb_mono|]; assumption. }
    apply points_mono; [assumption | lia |].
    apply points_mono; [apply orb_mono; assumption | lia |].
    apply points_mono; [assumption | lia |].
    apply points_mono; [assumption | lia | lia].
Qed.

Lemma quality_score_spec_witness :
  let base := {| title := Some "Cafe"; website := Some "https://cafe.example";
                 phone := None; email := None; stars := None; facebook := None;
                 instagram := None; linkedin := None; twitter := None;
                 has_website := false; has_contact := false; has_social := false |} in
  let more := {| title := Some "Cafe"; website := Some "https://cafe.example";
                 phone := None; email := Some "hi@cafe.example"; stars := None;
                 facebook := None; instagram := None; linkedin := None;
                 twitter := None;
                 has_website := false; has_contact := false; has_social := false |} in
  quality_score base <= quality_score more.
Proof.
  intros base more.
  apply (proj2 (proj2 (proj2 (quality_score_spec base more)))).
  repeat split; simpl; intros; (reflexivity || discriminate).
Defined.

(** A listing whose only profile is on twitter is flagged [has_social] and
    yet gets no points for social profiles. *)
Example twitter_only :
  let r := {| title := None; website := None; phone := None; email := None;
              stars := None; facebook := None; instagram := None; linkedin := None;
              twitter := Some "https://twitter.com/cafe";
              has_website := false; has_contact := false; has_social := false |} in
  has_social (update_quality_flags r) = true /\ quality_score r = 0.
Proof. split; reflexivity. Qed.

(** X21.  [Keyword.update_stats] sets [total_results] to the number of
    results and, when there is at least one, [success_rate] to a percentage
    between 0 and 100; with no results the stored rate is left as it was. *)
Theorem update_stats_spec (results : list SearchResult) (success_rate : Q) :
  (update_stats results success_rate).1 = length results
  /\ (results = [] -> (update_stats results success_rate).2 = success_rate)
  /\ (results <> [] ->
      (0 <= (update_stats results success_rate).2)%Q
      /\ ((update_stats results success_rate).2 <= 100)%Q).
Proof.
  unfold update_stats. destruct results as [|r rs].
  - split; [reflexivity|]. split; [intros _; reflexivity|]. intros Hne. by destruct Hne.
  - set (rows := r :: rs).
    set (ok := length (filter _ rows)).
    assert (Hok : (ok <= length rows)%nat) by apply length_filter.
    assert (Hpos : (0 <? length rows)%nat = true) by (apply Nat.ltb_lt; simpl; lia).
    rewrite Hpos. cbn [fst snd].
    split; [reflexivity|]. split; [discriminate|]. intros _.
    subst rows. cbn [length] in *.
    unfold Qle, Qdiv, Qmult, Qinv, inject_Z. simpl.
    rewrite Pos.mul_1_l, !Pos.mul_1_r, Zpos_P_of_succ_nat. split; nia.
Qed.

Lemma update_stats_spec_witness :
  let r := {| title := Some "Cafe"; website := Some ""; phone := None; email := None;
              stars := None; facebook := None; instagram := None; linkedin := None;
              twitter := None;
              has_website := false; has_contact := false; has_social := false |} in
  ((update_stats [r] 0).2 <= 100)%Q.
Proof.
  intros r.
  apply (proj2 (proj2 (update_stats_spec [r] 0))). discriminate.
Defined.

(** Reading a piece that has no separator, up to a following separator. *)
Lemma split_on_go_piece (sep : ascii) (x : string) (rest : string) (cur : list ascii) :
  forallb (fun c => negb (Ascii.eqb c sep)) (list_ascii_of_string x) = true ->
  Py.split_on_go sep (x ++ rest) cur
  = Py.split_on_go sep rest (rev (list_ascii_of_string x) ++ cur)%list.
Proof.
  revert cur. induction x as [|c x IH]; intros cur Hx; [reflexivity|].
  simpl in Hx. apply andb_true_iff in Hx as [Hc Hx].
  change (String c x ++ rest)%string with (String c (x ++ rest)).
  cbn [Py.split_on_go list_ascii_of_string rev].
  apply negb_true_iff in Hc. rewrite Hc, IH by exact Hx.
  by rewrite <- app_assoc.
Qed.

Lemma split_on_join (xs : list string) :
  xs <> [] -> Forall (fun x => no_bar x = true) xs ->
  Py.split_on "|"%char (Py.join "|" xs) = xs.
Proof.
  intros Hne Hall. induction Hall as [|x xs Hx Hxs IH]; [done|].
  unfold Py.split_on, Py.join in *. destruct xs as [|y ys].
  - change (String.concat "|" [x]) with x.
    rewrite <- (append_empty_r x) at 1.
    rewrite split_on_go_piece by exact Hx.
    cbn [Py.split_on_go]. rewrite app_nil_r, rev_involutive.
    by rewrite string_of_list_ascii_of_string.
  - change (String.concat "|" (x :: y :: ys))
      with (x ++ String "|" (String.concat "|" (y :: ys)))%string.
    rewrite split_on_go_piece by exact Hx.
    cbn [Py.split_on_go]. rewrite Ascii.eqb_refl, app_nil_r, rev_involutive.
    rewrite string_of_list_ascii_of_string. f_equal. apply IH. discriminate.
Qed.

(** X22.  The issues written by [analyze_website_task] with ['|'.join] are
    read back by [to_dict] unchanged, provided no issue contains '|' and the
    list is not the single empty text (which is read back as no issue). *)
Theorem issues_round_trip (issues : list string) :
  Forall (fun x => no_bar x = true) issues ->
  issues <> [""] ->
  load_issues (store_issues issues) = issues.
Proof.
  intros Hall Hne. unfold load_issues, store_issues.
  destruct issues as [|x xs]; [reflexivity|].
  destruct (String.eqb_spec (Py.join "|" (x :: xs)) "") as [Hempty|_].
  - exfalso. apply Hne. unfold Py.join in Hempty. destruct xs as [|y ys].
    + simpl in Hempty. by subst x.
    + change (String.concat "|" (x :: y :: ys))
        with (x ++ String "|" (String.concat "|" (y :: ys)))%string in Hempty.
      destruct x; discriminate.
  - apply split_on_join; [discriminate | exact Hall].
Qed.

Lemma issues_round_trip_witness :
  load_issues (store_issues ["Missing title tag"; ""; "Not mobile friendly"])
  = ["Missing title tag"; ""; "Not mobile friendly"].
Proof.
  apply issues_round_trip; [|discriminate].
  repeat constructor.
Defined.

Example issues_with_bar :
  load_issues (store_issues ["a|b"]) = ["a"; "b"]
  /\ load_issues (store_issues [""]) = [].
Proof. split; reflexivity. Qed.

End ModelsFacts.

(** ** The analysis route *)

Section ApiAnalyzeFacts.
Import Analyzer.

Lemma get_meta_description_undefined : "get_meta_description" ∉ class_methods.
Proof. decide_absent. Qed.

Lemma get_basic_fallback_data_undefined : "get_basic_fallback_data" ∉ class_methods.
Proof. decide_absent. Qed.

Variable get_meta_description : page -> result pyval.
Variable is_internal_link : string -> string -> result bool.
Variable get_basic_fallback_data : result (gmap string pyval).
Variable fetch : string -> result page.
Variables technical_analysis seo_analysis security_analysis performance_analysis
  business_credibility_analysis : string -> result (gmap string pyval).
Variable assign_grade : Z -> result pyval.
Variable get_fallback_analysis : string -> result (gmap string pyval).
Variable utcnow : pyval.
Variable clock : string -> Q * Q.

Local Abbreviation basic :=
  (basic_website_analysis class_methods get_meta_description is_internal_link
     get_basic_fallback_data fetch).

(** The basic pass of the class as written: the fetch fails or the body
    stops at the undefined [get_meta_description], and the handler calls the
    undefined [get_basic_fallback_data]. *)
Lemma basic_website_analysis_raises url :
  basic url = Raise (AttributeError "get_basic_fallback_data").
Proof.
  unfold basic_website_analysis.
  rewrite (getattr_undefined _ _ get_meta_description_undefined).
  rewrite (getattr_undefined _ _ get_basic_fallback_data_undefined).
  destruct (fetch url); reflexivity.
Qed.

Local Abbreviation service :=
  (fun cache url =>
     comprehensive_analysis class_methods basic technical_analysis seo_analysis
       security_analysis performance_analysis business_credibility_analysis
       assign_grade get_fallback_analysis utcnow cache (clock url).1 (clock url).2 url).

(** X23.  With the analyzer class as written and the service's cache as it
    is created (empty), [api_analyze_website] answers 400 to a body without
    'url' and 500 to every body with one, for the comprehensive and for the
    basic analysis alike; no analysis is returned and the cache stays empty,
    so the same holds for every later request. *)
Theorem api_analyze_website_never_succeeds (data : option (gmap string Routes.json)) :
  let out := Routes.api_analyze_website service basic ∅ data in
  out.2 = ∅
  /\ out.1.2 = None
  /\ ((data = None \/ exists d, data = Some d /\ d !! "url" = None) ->
      Routes.code out.1.1 = 400)
  /\ (forall d url, data = Some d -> d !! "url" = Some url ->
      Routes.code out.1.1 = 500).
Proof.
  intros out. subst out. unfold Routes.api_analyze_website.
  assert (Hservice : forall url,
            service ∅ url = (Raise (AttributeError "get_fallback_analysis"), ∅)).
  { intros url. unfold comprehensive_analysis.
    destruct (fresh_analysis_raises basic technical_analysis seo_analysis
                security_analysis performance_analysis
                business_credibility_analysis assign_grade utcnow url) as [e ->].
    rewrite (getattr_undefined _ _ get_fallback_analysis_undefined), bind_raise.
    rewrite lookup_empty. reflexivity. }
  destruct data as [d|].
  - destruct (d !! "url") as [url|] eqn:Hurl.
    + assert (Hout : (let '(analysis, analysis_cache) :=
                        if match default (Routes.JStr "comprehensive")
                                   (d !! "analysis_type") with
                           | Routes.JStr t => String.eqb t "comprehensive"
                           | _ => false
                           end
                        then service ∅ (Routes.json_text url)
                        else (basic (Routes.json_text url), ∅) in
                      match analysis with
                      | Ok a =>
                          ({| Routes.code := 200;
                              Routes.body := {[ "success" := Routes.JBool true;
                                                "url" := url ]} |}, Some a,
                           analysis_cache)
                      | Raise _ =>
                          ({| Routes.code := 500;
                              Routes.body := {[ "success" := Routes.JBool false ]} |},
                           None, analysis_cache)
                      end)
                     = ({| Routes.code := 500;
                           Routes.body := {[ "success" := Routes.JBool false ]} |},
                        None, ∅)).
      { destruct (match default (Routes.JStr "comprehensive") (d !! "analysis_type") with
                  | Routes.JStr t => String.eqb t "comprehensive"
                  | _ => false
                  end).
        - rewrite Hservice. reflexivity.
        - rewrite basic_website_analysis_raises. reflexivity. }
      rewrite Hout. cbn [fst snd Routes.code]. repeat split.
      intros [? | (d' & [= <-] & Hnone)]; congruence.
    + cbn [fst snd Routes.code]. repeat split.
      intros d' url [= <-] Hsome. congruence.
  - cbn [fst snd Routes.code]. repeat split. intros d url [=].
Qed.

End ApiAnalyzeFacts.

(** ** The SEO pass *)

Section SeoFacts.
Import Analyzer.

(** Points obtained plus points lost: a rule adds its points to the sum,
    whichever way it goes. *)
Lemma seo_rule_accounted ok pts issue st :
  seo_points issue = pts ->
  (seo_rule ok pts issue st).1
    + foldr Z.add 0 (seo_points <$> (seo_rule ok pts issue st).2)
  = st.1 + foldr Z.add 0 (seo_points <$> st.2) + pts.
Proof.
  intros Hpts. unfold seo_rule. destruct ok; cbn [fst snd]; [lia|].
  rewrite fmap_app, foldr_app. cbn [fmap list_fmap foldr]. rewrite Hpts.
  generalize (seo_points <$> st.2). intros l.
  induction l as [|x l IH]; cbn [foldr]; lia.
Qed.

Lemma seo_points_nonneg (issues : list seo_issue) :
  0 <= foldr Z.add 0 (seo_points <$> issues).
Proof.
  induction issues as [|i l IH]; cbn [fmap list_fmap foldr]; [lia|].
  assert (0 <= seo_points i) by (destruct i; simpl; lia). lia.
Qed.

(** When the rules run to the end, the nine of them account for 100
    points. *)
Lemma seo_rules_accounted methods gmd imf iil p url st :
  seo_rules methods gmd imf iil p url = Ok st ->
  st.1 + foldr Z.add 0 (seo_points <$> st.2) = 100.
Proof.
  unfold seo_rules.
  destruct (Py.getattr methods "get_meta_description"); [|discriminate].
  destruct (gmd p) as [meta|]; [|discriminate].
  destruct (Py.getattr methods "is_mobile_friendly"); [|discriminate].
  destruct (imf p) as [mobile|]; [|discriminate].
  destruct (count_links methods iil true (seo_hrefs p) url) as [n|]; [|discriminate].
  rewrite !bind_ok. intros Hst%ok_inj. subst st.
  destruct (title_length p), meta;
    repeat (rewrite seo_rule_accounted by reflexivity);
    cbn [fst snd fmap list_fmap foldr]; lia.
Qed.

(** The rules only add points. *)
Lemma seo_rule_score ok pts issue st :
  0 <= pts -> 0 <= st.1 -> 0 <= (seo_rule ok pts issue st).1.
Proof. intros Hpts Hst. unfold seo_rule. destruct ok; cbn [fst snd]; lia. Qed.

Lemma seo_rules_score methods gmd imf iil p url st :
  seo_rules methods gmd imf iil p url = Ok st -> 0 <= st.1.
Proof.
  unfold seo_rules.
  destruct (Py.getattr methods "get_meta_description"); [|discriminate].
  destruct (gmd p) as [meta|]; [|discriminate].
  destruct (Py.getattr methods "is_mobile_friendly"); [|discriminate].
  destruct (imf p) as [mobile|]; [|discriminate].
  destruct (count_links methods iil true (seo_hrefs p) url) as [n|]; [|discriminate].
  rewrite !bind_ok. intros Hst%ok_inj. subst st.
  destruct (title_length p), meta;
    repeat (apply seo_rule_score; [lia|]); cbn [fst snd]; lia.
Qed.

Lemma is_mobile_friendly_undefined : "is_mobile_friendly" ∉ class_methods.
Proof. decide_absent. Qed.

(** X6.  [seo_analysis] always returns a score between 0 and 100.  When
    it reports issues, every rule either gave its points or left one issue:
    the score is 100 minus the points of the issues listed, and it is 100
    exactly when no issue is listed.  With the class as written the rules
    stop at the undefined [get_meta_description], so the result is the bare
    [{'seo_score': 0}] for every page. *)
Theorem seo_analysis_spec (methods : list string)
    (get_meta_description : seo_page -> result (option nat))
    (is_mobile_friendly : seo_page -> result bool)
    (is_internal_link : string -> string -> result bool)
    (get_seo_grade : Z -> result pyval)
    (fetch : string -> result seo_page) (url : string) :
  let generic := seo_analysis methods get_meta_description is_mobile_friendly
                   is_internal_link get_seo_grade fetch url in
  0 <= seo_score generic <= 100
  /\ (forall issues, seo_issues generic = Some issues ->
      seo_score generic = 100 - foldr Z.add 0 (seo_points <$> issues)
      /\ (seo_score generic = 100 <-> issues = []))
  /\ seo_analysis class_methods get_meta_description is_mobile_friendly
       is_internal_link get_seo_grade fetch url
     = {| seo_score := 0; seo_issues := None; seo_grade := None |}.
Proof.
  intros generic. subst generic.
  assert (Hclass : seo_analysis class_methods get_meta_description is_mobile_friendly
                     is_internal_link get_seo_grade fetch url
                   = {| seo_score := 0; seo_issues := None; seo_grade := None |}).
  { unfold seo_analysis, seo_rules.
    rewrite (getattr_undefined _ _ get_meta_description_undefined).
    destruct (fetch url); reflexivity. }
  split; [|split; [|exact Hclass]].
  - unfold seo_analysis.
    destruct (fetch url ≫= _) as [[score issues]|e] eqn:Hrules; [|simpl; lia].
    destruct (fetch url) as [p|]; [|discriminate]. rewrite bind_ok in Hrules.
    pose proof (seo_rules_accounted _ _ _ _ _ _ _ Hrules) as Hacc.
    pose proof (seo_rules_score _ _ _ _ _ _ _ Hrules) as Hscore.
    pose proof (seo_points_nonneg issues) as Hnn.
    cbn [fst snd] in Hacc, Hscore.
    destruct (_ ≫= _); cbn [seo_score]; lia.
  - intros issues. unfold seo_analysis.
    destruct (fetch url ≫= _) as [[score issues']|e] eqn:Hrules; [|discriminate].
    destruct (fetch url) as [p|]; [|discriminate]. rewrite bind_ok in Hrules.
    pose proof (seo_rules_accounted _ _ _ _ _ _ _ Hrules) as Hacc.
    cbn [fst snd] in Hacc.
    assert (Hzero : foldr Z.add 0 (seo_points <$> issues') = 0 <-> issues' = []).
    { split; [|intros ->; reflexivity].
      destruct issues' as [|i l]; [reflexivity|]. cbn [fmap list_fmap foldr].
      pose proof (seo_points_nonneg l).
      assert (10 <= seo_points i) by (destruct i; simpl; lia). lia. }
    destruct (_ ≫= _); cbn [seo_score seo_issues]; intros [= <-];
      (split; [lia | rewrite <- Hzero; lia]).
Qed.

Example seo_analysis_with_helpers :
  let p := {| title_length := Some 42%nat; h1_count := 2; seo_image_count := 10;
              seo_images_with_alt := 8; path_length := 12; seo_hrefs := [];
              seo_word_count := 120; has_schema := true |} in
  seo_analysis ("get_meta_description" :: "is_mobile_friendly" :: class_methods)
    (fun _ => Ok None) (fun _ => Ok true) (fun _ _ => Ok true) (fun _ => Ok (VOther "C"))
    (fun _ => Ok p) "https://example.com/shop"
  = {| seo_score := 55;
       seo_issues := Some [MissingMeta; H1Count 2; FewInternalLinks 0; LowWordCount 120];
       seo_grade := None |}.
Proof. vm_compute. reflexivity. Qed.

End SeoFacts.

(** ** Keyset pagination *)

Section BatchProcessingFacts.
Import QueryOptimizer.

Lemma filter_keeps_all {A} (P : A -> Prop) `{!forall x, Decision (P x)} (l : list A) :
  Forall P l -> filter P l = l.
Proof.
  induction 1 as [|x l Hx _ IH]; [reflexivity|].
  rewrite filter_cons_True by exact Hx. by rewrite IH.
Qed.

Lemma filter_drops_all {A} (P : A -> Prop) `{!forall x, Decision (P x)} (l : list A) :
  Forall (fun x => ~ P x) l -> filter P l = [].
Proof.
  induction 1 as [|x l Hx _ IH]; [reflexivity|].
  by rewrite filter_cons_False by exact Hx.
Qed.

(** In a strictly increasing list, the rows after a non-empty prefix are
    those above the prefix's last row. *)
Lemma filter_above_last (batch rest : list Z) (m : Z) :
  StronglySorted Z.lt (batch ++ rest)%list ->
  last batch = Some m ->
  filter (fun i => m < i) (batch ++ rest)%list = rest.
Proof.
  intros Hsorted Hlast.
  apply last_Some in Hlast as [l' ->].
  apply StronglySorted_app in Hsorted as (Hcross & Hbatch & Hrest).
  apply StronglySorted_app in Hbatch as (Hbelow & _ & _).
  rewrite filter_app, filter_drops_all, filter_keeps_all; [reflexivity| |].
  - apply Forall_forall. intros x Hx. apply Hcross; [|exact Hx]. set_solver.
  - apply Forall_forall. intros x Hx.
    apply elem_of_app in Hx as [Hx|Hx].
    + assert (x < m) by (apply Hbelow; [exact Hx|set_solver]). lia.
    + apply list_elem_of_singleton in Hx as ->. lia.
Qed.

(** The rows above [last_id], in key order. *)
Local Abbreviation pending ids last_id :=
  (merge_sort Z.le (filter (fun i => last_id < i) ids)).

Lemma sorted_distinct_strict (l : list Z) :
  StronglySorted Z.le l -> NoDup l -> StronglySorted Z.lt l.
Proof.
  induction 1 as [|x l Hl IH Hx]; intros Hnd; [constructor|].
  apply NoDup_cons in Hnd as [Hnotin Hnd].
  constructor; [by apply IH|].
  apply Forall_forall. intros y Hy.
  rewrite Forall_forall in Hx. specialize (Hx y Hy).
  assert (x <> y) by (intros ->; contradiction). lia.
Qed.

Lemma pending_sorted (ids : list Z) (last_id : Z) :
  NoDup ids -> StronglySorted Z.lt (pending ids last_id).
Proof.
  intros Hnodup. apply sorted_distinct_strict.
  - apply StronglySorted_merge_sort; apply _.
  - rewrite merge_sort_Permutation. by apply NoDup_filter.
Qed.

(** After a batch, the pending rows are the ones the batch left. *)
Lemma pending_after_batch (ids : list Z) (last_id m : Z) (batch_size : nat) :
  NoDup ids ->
  last (take batch_size (pending ids last_id)) = Some m ->
  pending ids m = drop batch_size (pending ids last_id).
Proof.
  intros Hnodup Hlast.
  pose proof (pending_sorted ids last_id Hnodup) as Hsorted.
  assert (Hin : m ∈ pending ids last_id).
  { pose proof (last_Some_elem_of _ _ Hlast) as Hm.
    exact (subseteq_take _ _ _ Hm). }
  assert (Hlt : last_id < m).
  { rewrite merge_sort_Permutation in Hin. by apply list_elem_of_filter in Hin as [? _]. }
  apply (Sorted_unique Z.le).
  - apply Sorted_merge_sort; apply _.
  - assert (Hle : StronglySorted Z.le (pending ids last_id))
      by (apply StronglySorted_merge_sort; apply _).
    rewrite <- (take_drop batch_size (pending ids last_id)) in Hle.
    apply StronglySorted_app in Hle as (_ & _ & Hdrop).
    by apply StronglySorted_Sorted.
  - rewrite <- (filter_above_last (take batch_size (pending ids last_id))
                  (drop batch_size (pending ids last_id)) m);
      [|by rewrite take_drop|exact Hlast].
    rewrite take_drop, !merge_sort_Permutation, list_filter_filter.
    erewrite list_filter_iff; [reflexivity|]. intros i. simpl. lia.
Qed.

Lemma batch_loop_yields (ids : list Z) (batch_size : nat) :
  NoDup ids -> (0 < batch_size)%nat ->
  forall fuel last_id,
    (length (pending ids last_id) < fuel)%nat ->
    batch_loop fuel ids batch_size last_id = Some (pending ids last_id).
Proof.
  intros Hnodup Hsize fuel.
  induction fuel as [|fuel IH]; intros last_id Hfuel; [lia|].
  cbn [batch_loop]. unfold next_batch.
  destruct (take batch_size (pending ids last_id)) as [|x batch] eqn:Hbatch.
  - destruct (pending ids last_id) as [|y rest] eqn:Hpending; [reflexivity|].
    destruct batch_size; [lia|discriminate].
  - destruct (last (x :: batch)) as [m|] eqn:Hlast;
      [|by apply last_None in Hlast].
    rewrite <- Hbatch in Hlast. rewrite <- Hbatch.
    change (default last_id (Some m)) with m. rewrite IH.
    + cbn [mbind option_bind].
      rewrite (pending_after_batch ids last_id m batch_size Hnodup Hlast).
      rewrite take_drop. reflexivity.
    + rewrite (pending_after_batch ids last_id m batch_size Hnodup Hlast).
      rewrite length_drop.
      assert (0 < length (pending ids last_id))%nat.
      { destruct (pending ids last_id); [by rewrite take_nil in Hbatch|simpl; lia]. }
      lia.
Qed.

(** X24.  [batch_processing], consumed to the end on a table that does not
    change meanwhile, yields every row with a positive primary key exactly
    once, in key order, whatever the positive batch size; rows with key 0 or
    a negative key are never yielded.  With [batch_size = 0] it yields
    nothing. *)
Theorem batch_processing_yields_all (ids : list Z) (batch_size : nat) :
  NoDup ids ->
  (0 < batch_size)%nat ->
  exists yielded,
    batch_processing ids batch_size = Some yielded
    /\ (forall i, i ∈ yielded <-> i ∈ ids /\ 0 < i)
    /\ NoDup yielded
    /\ StronglySorted Z.lt yielded
    /\ batch_processing ids 0 = Some [].
Proof.
  intros Hnodup Hsize. exists (pending ids 0).
  assert (Hperm : pending ids 0 ≡ₚ filter (fun i => 0 < i) ids)
    by apply merge_sort_Permutation.
  split; [|split; [|split; [|split]]].
  - apply batch_loop_yields; [exact Hnodup|exact Hsize|].
    rewrite Hperm. pose proof (length_filter (fun i => 0 < i) ids). lia.
  - intros i. rewrite Hperm, list_elem_of_filter. tauto.
  - rewrite Hperm. by apply NoDup_filter.
  - by apply pending_sorted.
  - reflexivity.
Qed.

Lemma batch_processing_yields_all_witness :
  exists yielded,
    batch_processing [7; -2; 3; 12; 0; 5; 9] 3 = Some yielded
    /\ StronglySorted Z.lt yielded.
Proof.
  destruct (batch_processing_yields_all [7; -2; 3; 12; 0; 5; 9] 3)
    as (ys & Hys & _ & _ & Hsorted & _).
  - apply (bool_decide_unpack _). vm_compute. exact I.
  - lia.
  - exists ys. split; assumption.
Defined.

(** Three queries of three rows, and a fourth that finds nothing. *)
Example batch_processing_run :
  batch_processing [7; -2; 3; 12; 0; 5; 9] 3 = Some [3; 5; 7; 9; 12].
Proof. vm_compute. reflexivity. Qed.

(** Without the primary-key constraint a key repeated across a batch
    boundary would be yielded once only. *)
Example batch_processing_repeated_key :
  batch_processing [1; 2; 2; 3] 2 = Some [1; 2; 3].
Proof. vm_compute. reflexivity. Qed.

End BatchProcessingFacts.

(** ** Ratings *)

Section RatingsFacts.
Import Scraper.

Lemma append_cons (c : ascii) (a b : string) :
  (String c a ++ b)%string = String c (a ++ b)%string.
Proof. reflexivity. Qed.

(** The run read so far, once flushed. *)
Lemma flushed_run (c0 : ascii) (cur : list ascii) :
  Forall (fun c => number_char c = true) (c0 :: cur) ->
  string_of_list_ascii (rev (c0 :: cur)) <> ""
  /\ Forall (fun c => number_char c = true)
       (list_ascii_of_string (string_of_list_ascii (rev (c0 :: cur)))).
Proof.
  intros Hcur. split.
  - intros Hempty. apply (f_equal list_ascii_of_string) in Hempty.
    rewrite list_ascii_of_string_of_list_ascii in Hempty.
    apply (f_equal (@length _)) in Hempty. rewrite length_rev in Hempty. discriminate.
  - rewrite list_ascii_of_string_of_list_ascii. by apply Forall_rev.
Qed.

(** A run that [findall_numbers] returns is not empty and has characters
    of the class only. *)
Lemma findall_numbers_go_runs (s : string) (cur : list ascii) (x : string) :
  Forall (fun c => number_char c = true) cur ->
  x ∈ findall_numbers_go s cur ->
  x <> "" /\ Forall (fun c => number_char c = true) (list_ascii_of_string x).
Proof.
  revert cur. induction s as [|c s IH]; intros cur Hcur Hx; cbn [findall_numbers_go] in Hx.
  - destruct cur as [|c0 cur]; [by apply elem_of_nil in Hx|].
    apply list_elem_of_singleton in Hx as ->. by apply flushed_run.
  - destruct (number_char c) eqn:Hc.
    + apply (IH (c :: cur)); [by constructor|exact Hx].
    + destruct cur as [|c0 cur].
      * apply (IH []); [constructor|exact Hx].
      * apply elem_of_cons in Hx as [->|Hx]; [by apply flushed_run|].
        apply (IH []); [constructor|exact Hx].
Qed.

(** Removing commas from text that has none changes nothing. *)
Lemma remove_char_absent (old : ascii) (s : string) :
  Forall (fun c => Ascii.eqb c old = false) (list_ascii_of_string s) ->
  Py.remove_char old s = s.
Proof.
  induction s as [|c s IH]; intros Hs; [reflexivity|].
  cbn [list_ascii_of_string] in Hs. apply Forall_cons in Hs as [Hc Hs].
  cbn [Py.remove_char]. rewrite Hc. by rewrite IH.
Qed.

Lemma number_char_not_comma (c : ascii) :
  number_char c = true -> Ascii.eqb c "," = false.
Proof.
  destruct (Ascii.eqb c ",") eqn:Hc; [|reflexivity].
  apply Ascii.eqb_eq in Hc as ->. vm_compute. discriminate.
Qed.

(** A run of the class that ends at a character outside it is one match. *)
Lemma findall_numbers_go_run (a : string) (c : ascii) (s : string) (cur : list ascii) :
  forallb number_char (list_ascii_of_string a) = true ->
  number_char c = false ->
  a <> "" \/ cur <> [] ->
  findall_numbers_go (a ++ String c s) cur
  = string_of_list_ascii (rev cur ++ list_ascii_of_string a)
    :: findall_numbers_go s [].
Proof.
  revert cur. induction a as [|d a IH]; intros cur Ha Hc Hne.
  - change (("" ++ String c s)%string) with (String c s).
    cbn [findall_numbers_go list_ascii_of_string]. rewrite Hc, app_nil_r.
    destruct cur; [by destruct Hne|reflexivity].
  - rewrite append_cons. cbn [list_ascii_of_string forallb] in Ha.
    apply andb_true_iff in Ha as [Hd Ha].
    cbn [findall_numbers_go]. rewrite Hd.
    rewrite (IH (d :: cur) Ha Hc) by (right; discriminate).
    cbn [rev list_ascii_of_string]. by rewrite <- app_assoc.
Qed.

(** Characters outside the class between matches are skipped. *)
Lemma findall_numbers_go_skip (p s : string) :
  forallb (fun c => negb (number_char c)) (list_ascii_of_string p) = true ->
  findall_numbers_go (p ++ s) [] = findall_numbers_go s [].
Proof.
  induction p as [|c p IH]; intros Hp; [reflexivity|].
  rewrite append_cons. cbn [list_ascii_of_string forallb] in Hp.
  apply andb_true_iff in Hp as [Hc Hp]. apply negb_true_iff in Hc.
  cbn [findall_numbers_go]. rewrite Hc. by apply IH.
Qed.

Lemma prefix_append (needle rest : string) :
  String.prefix needle (needle ++ rest) = true.
Proof.
  induction needle as [|c needle IH]; [by destruct rest|].
  rewrite append_cons. cbn [String.prefix].
  destruct (ascii_dec c c); [exact IH|congruence].
Qed.

Lemma contains_middle (a needle b : string) :
  Py.contains (a ++ needle ++ b) needle = true.
Proof.
  induction a as [|c a IH].
  - change (("" ++ needle ++ b)%string) with ((needle ++ b)%string).
    destruct (needle ++ b)%string eqn:Hs; cbn [Py.contains];
      rewrite <- Hs, prefix_append; reflexivity.
  - rewrite append_cons. cbn [Py.contains]. rewrite IH. apply orb_true_r.
Qed.

Lemma lower_append (a b : string) :
  Py.lower (a ++ b) = (Py.lower a ++ Py.lower b)%string.
Proof.
  induction a as [|c a IH]; [reflexivity|].
  rewrite append_cons. cbn [Py.lower]. rewrite IH. reflexivity.
Qed.

Lemma isdigit_number_char (c : ascii) : Py.isdigit c = true -> number_char c = true.
Proof. unfold number_char. by intros ->. Qed.

Lemma rate_reviews_needs_stars (aria_label : string) :
  is_Some (rate aria_label !! "reviews") -> is_Some (rate aria_label !! "stars").
Proof.
  unfold rate.
  destruct (findall_numbers aria_label) as [|first more];
    [rewrite lookup_empty; intros H; by apply is_Some_None in H|].
  destruct (Py.float_of_text first) as [q|];
    [|rewrite lookup_empty; intros H; by apply is_Some_None in H].
  intros _.
  destruct more as [|second more]; [by rewrite lookup_singleton|].
  destruct (Py.int_of_text _); [|by rewrite lookup_singleton].
  rewrite lookup_insert_ne by discriminate. by rewrite lookup_singleton.
Qed.

Lemma ratings_loop_reviews_needs_stars labels :
  is_Some (ratings_loop labels !! "reviews") -> is_Some (ratings_loop labels !! "stars").
Proof.
  assert (Hempty : is_Some ((∅ : gmap string field) !! "reviews") ->
                   is_Some ((∅ : gmap string field) !! "stars")).
  { rewrite lookup_empty. intros H. by apply is_Some_None in H. }
  induction labels as [|[[label|]|] labels IH]; cbn [ratings_loop];
    [exact Hempty| |exact IH|exact Hempty].
  destruct (_ && _); [apply rate_reviews_needs_stars|exact IH].
Qed.

(** X25.  [extract_ratings] sets a review count only together with a
    rating.  The text it converts to the count is a run of digits and dots,
    so its [.replace(',', '')] never changes anything: from a label such as
    "4.5 stars 1,234 Reviews" the count stored is the group before the
    first comma. *)
Theorem extract_ratings_grouped_count
    (rating_elements : result (list (result (option string))))
    (rating count rest : string) (stars : Q) :
  (is_Some (extract_ratings rating_elements !! "reviews") ->
   is_Some (extract_ratings rating_elements !! "stars"))
  /\ (forall s x, x ∈ findall_numbers s -> Py.remove_char "," x = x)
  /\ (forallb number_char (list_ascii_of_string rating) = true ->
      Py.float_of_text rating = Ok stars ->
      count <> "" ->
      forallb Py.isdigit (list_ascii_of_string count) = true ->
      extract_ratings
        (Ok [Ok (Some (rating ++ " stars " ++ count ++ "," ++ rest)%string)])
      = <["reviews" := FNum (inject_Z (Py.digits_value count 0))]>
          {[ "stars" := FNum stars ]}).
Proof.
  split; [|split].
  - destruct rating_elements as [labels|]; cbn [extract_ratings];
      [apply ratings_loop_reviews_needs_stars|].
    rewrite lookup_empty. intros H. by apply is_Some_None in H.
  - intros s x Hx.
    apply findall_numbers_go_runs in Hx as [_ Hx]; [|constructor].
    apply remove_char_absent.
    eapply Forall_impl; [exact Hx|]. intros c. apply number_char_not_comma.
  - intros Hrating Hfloat Hcount Hdigits.
    assert (Hne : rating <> "") by (intros ->; discriminate).
    cbn [extract_ratings ratings_loop].
    assert (Hlabel : negb (String.eqb (rating ++ " stars " ++ count ++ "," ++ rest) "")
                     && Py.contains
                          (Py.lower (rating ++ " stars " ++ count ++ "," ++ rest))
                          "stars" = true).
    { apply andb_true_iff. split.
      - destruct rating; [done|reflexivity].
      - rewrite lower_append.
        change (" stars " ++ count ++ "," ++ rest)%string
          with (" " ++ "stars" ++ " " ++ count ++ "," ++ rest)%string.
        rewrite !lower_append.
        change (Py.lower "stars") with "stars".
        rewrite <- append_assoc. apply contains_middle. }
    rewrite Hlabel. unfold rate, findall_numbers.
    change (" stars " ++ count ++ "," ++ rest)%string
      with (String " " ("stars " ++ count ++ String "," rest))%string.
    rewrite findall_numbers_go_run by (try done; by left).
    rewrite findall_numbers_go_skip by reflexivity.
    rewrite findall_numbers_go_run.
    + cbn [rev app]. rewrite !string_of_list_ascii_of_string, Hfloat.
      rewrite remove_char_absent.
      * unfold Py.int_of_text. rewrite Hdigits.
        destruct (String.eqb count "") eqn:Hempty;
          [by apply String.eqb_eq in Hempty|reflexivity].
      * apply List.Forall_forall. intros c Hc. apply number_char_not_comma.
        apply isdigit_number_char.
        rewrite forallb_forall in Hdigits. by apply Hdigits.
    + rewrite forallb_forall in Hdigits |- *. intros c Hc.
      by apply isdigit_number_char, Hdigits.
    + reflexivity.
    + by left.
Qed.

Lemma extract_ratings_grouped_count_witness :
  extract_ratings (Ok [Ok None; Ok (Some "4.5 stars 1,234 Reviews")])
  = <["reviews" := FNum 1]> {[ "stars" := FNum (45 # 10) ]}.
Proof.
  pose proof (extract_ratings_grouped_count (Ok []) "4.5" "1" "234 Reviews" (45 # 10))
    as (_ & _ & H).
  cbn [extract_ratings ratings_loop]. apply H; reflexivity || discriminate.
Defined.

(** A full stop after "stars" is itself a match, and not a number. *)
Example extract_ratings_sentence :
  extract_ratings (Ok [Ok (Some "Rated 4 stars. 120 reviews")])
  = {[ "stars" := FNum 4 ]}.
Proof. vm_compute. reflexivity. Qed.

Example extract_ratings_leading_dot :
  extract_ratings (Ok [Ok (Some "No. 1 in town, 4.5 stars")]) = ∅.
Proof. vm_compute. reflexivity. Qed.

End RatingsFacts.

(** ** What a listing carries *)

Section ExtractFacts.
Import Scraper.

Lemma extract_metadata_undefined : "extract_metadata" ∉ class_methods.
Proof. decide_absent. Qed.

Lemma first_outside_google_spec (hrefs : list (option string)) (href : string) :
  first_outside_google hrefs = Some href ->
  Some href ∈ hrefs /\ href <> "" /\ Py.contains href "google.com" = false.
Proof.
  induction hrefs as [|[h|] hrefs IH]; cbn [first_outside_google]; [discriminate| |].
  - destruct (negb (String.eqb h "") && negb (Py.contains h "google.com")) eqn:Hh.
    + intros [= ->]. apply andb_true_iff in Hh as [Hne Hg].
      apply negb_true_iff in Hne, Hg. apply String.eqb_neq in Hne.
      repeat split; [apply elem_of_cons; by left|exact Hne|exact Hg].
    + intros H. destruct (IH H) as (? & ? & ?).
      repeat split; [apply elem_of_cons; by right|done|done].
  - intros H. destruct (IH H) as (? & ? & ?).
    repeat split; [apply elem_of_cons; by right|done|done].
Qed.

Lemma rate_keys (aria_label key : string) :
  is_Some (rate aria_label !! key) -> key = "stars" \/ key = "reviews".
Proof.
  unfold rate.
  destruct (findall_numbers aria_label) as [|first more];
    [rewrite lookup_empty; intros H; by apply is_Some_None in H|].
  destruct (Py.float_of_text first) as [q|];
    [|rewrite lookup_empty; intros H; by apply is_Some_None in H].
  assert (Hstars : is_Some (({[ "stars" := FNum q ]} : gmap string field) !! key) ->
                   key = "stars" \/ key = "reviews").
  { intros [v Hv]. apply lookup_singleton_Some in Hv as [<- _]. by left. }
  destruct more as [|second more]; [exact Hstars|].
  destruct (Py.int_of_text _); [|exact Hstars].
  intros [v Hv]. apply lookup_insert_Some in Hv as [[<- _]|[_ Hv]]; [by right|].
  apply Hstars. by exists v.
Qed.

Lemma extract_ratings_keys rating_elements (key : string) :
  is_Some (extract_ratings rating_elements !! key) -> key = "stars" \/ key = "reviews".
Proof.
  assert (Hempty : is_Some ((∅ : gmap string field) !! key) ->
                   key = "stars" \/ key = "reviews").
  { rewrite lookup_empty. intros H. by apply is_Some_None in H. }
  destruct rating_elements as [labels|]; cbn [extract_ratings]; [|exact Hempty].
  induction labels as [|[[label|]|] labels IH]; cbn [ratings_loop];
    [exact Hempty| |exact IH|exact Hempty].
  destruct (_ && _); [apply rate_keys|exact IH].
Qed.

(** The listing with the class and the module as written. *)
Local Abbreviation written re_findall extract_metadata :=
  (extract_business_data class_methods module_globals re_findall extract_metadata).

Lemma plain_entry_insert (item : element) (keyword_id : string)
    (d : gmap string field) (k : string) (w : field) :
  plain_entry item keyword_id k w ->
  (forall key v, d !! key = Some v -> plain_entry item keyword_id key v) ->
  forall key v, <[k := w]> d !! key = Some v -> plain_entry item keyword_id key v.
Proof.
  intros Hnew Hd key v Hv.
  apply lookup_insert_Some in Hv as [[<- <-]|[_ Hv]]; [exact Hnew|by apply Hd].
Qed.

Lemma plain_entry_keys (item : element) (keyword_id key : string) (v : field) :
  plain_entry item keyword_id key v ->
  key ∈ ["keyword_id"; "title"; "link"; "website"].
Proof. intros [[-> _]|[[-> _]|[->|[-> _]]]]; decide_present. Qed.

(** With the class and the module as written, a listing is its plain
    entries, with the ratings on top when the element got that far. *)
Lemma extract_business_data_shape re_findall extract_metadata item keyword_id :
  exists base : gmap string field,
    (forall k w, base !! k = Some w -> plain_entry item keyword_id k w)
    /\ base !! "keyword_id" = Some (FText keyword_id)
    /\ (written re_findall extract_metadata item keyword_id = base
        \/ written re_findall extract_metadata item keyword_id
           = extract_ratings (rating_labels item) ∪ base).
Proof.
  unfold extract_business_data.
  rewrite (getattr_undefined _ _ extract_metadata_undefined), bind_raise.
  assert (Hcontact : forall text,
            extract_contact_info module_globals re_findall text = ∅).
  { intros [text|e]; [|reflexivity]. unfold extract_contact_info, phone_patterns.
    cbn [phone_loop]. by rewrite (load_global_unbound _ _ re_unbound), bind_raise. }
  rewrite Hcontact, fmap_empty.
  assert (H0 : forall k w,
            ({[ "keyword_id" := FText keyword_id ]} : gmap string field) !! k = Some w ->
            plain_entry item keyword_id k w).
  { intros k w Hk. apply lookup_singleton_Some in Hk as [<- <-]. by left. }
  destruct (title_text item) as [t|e] eqn:Htitle;
    [|eexists; split; [exact H0|split; [apply lookup_singleton_eq|by left]]].
  pose proof (plain_entry_insert item keyword_id _ "title" (FText t)
                ltac:(right; left; eauto) H0) as H1.
  set (d1 := <["title" := FText t]> {[ "keyword_id" := FText keyword_id ]}) in *.
  assert (Hid1 : d1 !! "keyword_id" = Some (FText keyword_id))
    by (subst d1; by rewrite lookup_insert_ne, lookup_singleton_eq).
  assert (Hsited : forall d : gmap string field,
            (forall k w, d !! k = Some w -> plain_entry item keyword_id k w) ->
            d !! "keyword_id" = Some (FText keyword_id) ->
            exists base : gmap string field,
              (forall k w, base !! k = Some w -> plain_entry item keyword_id k w)
              /\ base !! "keyword_id" = Some (FText keyword_id)
              /\ (match
                    match website_hrefs item with
                    | Ok hrefs =>
                        Ok match first_outside_google hrefs with
                           | Some href => <["website" := FText href]> d
                           | None => d
                           end
                    | Raise e =>
                        if is_no_such_element e then Ok (<["website" := FNone]> d)
                        else Raise e
                    end
                  with
                  | Ok data => ∅ ∪ (extract_ratings (rating_labels item) ∪ data)
                  | Raise _ => d
                  end = base
                  \/ match
                       match website_hrefs item with
                       | Ok hrefs =>
                           Ok match first_outside_google hrefs with
                              | Some href => <["website" := FText href]> d
                              | None => d
                              end
                       | Raise e =>
                           if is_no_such_element e then Ok (<["website" := FNone]> d)
                           else Raise e
                       end
                     with
                     | Ok data => ∅ ∪ (extract_ratings (rating_labels item) ∪ data)
                     | Raise _ => d
                     end = extract_ratings (rating_labels item) ∪ base)).
  { intros d Hd Hid.
    destruct (website_hrefs item) as [hrefs|e];
      [|destruct (is_no_such_element e); [|exists d; by auto]].
    - destruct (first_outside_google hrefs) as [href|] eqn:Hfirst.
      + exists (<["website" := FText href]> d). rewrite (left_id_L ∅ (∪)).
        split; [|split; [by rewrite lookup_insert_ne|by right]].
        apply plain_entry_insert; [|exact Hd].
        destruct (first_outside_google_spec _ _ Hfirst) as (_ & ? & ?).
        right; right; right. split; [reflexivity|]. right. eauto.
      + exists d. rewrite (left_id_L ∅ (∪)). auto.
    - exists (<["website" := FNone]> d). rewrite (left_id_L ∅ (∪)).
      split; [|split; [by rewrite lookup_insert_ne|by right]].
      apply plain_entry_insert; [|exact Hd].
      right; right; right. split; [reflexivity|]. by left. }
  destruct (link_href item) as [href|e];
    [|destruct (is_no_such_element e); [|exists d1; by auto]];
    (apply Hsited;
     [apply plain_entry_insert; [right; right; by left|exact H1]
     |by rewrite lookup_insert_ne]).
Qed.

(** X26.  With the class and the module as written, every listing that
    [extract_visible_results] returns has a non-empty title and the keyword,
    and beyond these only a link, a website and a rating: never a phone or an
    address ([re] is unbound where they are extracted) and no metadata
    ([extract_metadata] is undefined).  A website, when set to an address,
    is an address outside google.com; a rating is recorded whenever a review
    count is.  At most one listing per element is returned. *)
Theorem extract_visible_results_written
    (re_findall : string -> string -> list re_match)
    (extract_metadata : element -> result (gmap string field))
    (items : list element) (keyword_id : string) :
  exists listings,
    extract_visible_results class_methods module_globals re_findall extract_metadata
      (Ok items) keyword_id = Ok listings
    /\ (length listings <= length items)%nat
    /\ forall listing, listing ∈ listings ->
         (exists t, listing !! "title" = Some (FText t) /\ t <> "")
         /\ listing !! "keyword_id" = Some (FText keyword_id)
         /\ listing !! "phone" = None
         /\ listing !! "address" = None
         /\ (forall key, is_Some (listing !! key) ->
               key ∈ ["keyword_id"; "title"; "link"; "website"; "stars"; "reviews"])
         /\ (forall href, listing !! "website" = Some (FText href) ->
               href <> "" /\ Py.contains href "google.com" = false)
         /\ (is_Some (listing !! "reviews") -> is_Some (listing !! "stars")).
Proof.
  eexists. split; [reflexivity|]. split.
  - etrans; [apply length_filter|]. by rewrite length_fmap.
  - intros listing Hin.
    apply list_elem_of_filter in Hin as [Htruthy Hin].
    apply list_elem_of_fmap in Hin as (item & -> & _).
    destruct (extract_business_data_shape re_findall extract_metadata item keyword_id)
      as (base & Hbase & Hid & Hshape).
    set (ratings := extract_ratings (rating_labels item)) in *.
    assert (Hratings : forall key, is_Some (ratings !! key) ->
                                   key = "stars" \/ key = "reviews")
      by apply extract_ratings_keys.
    assert (Hentry : forall key v,
              written re_findall extract_metadata item keyword_id !! key = Some v ->
              rated_entry item keyword_id key v).
    { intros key v Hv. destruct Hshape as [Hs|Hs]; rewrite Hs in Hv.
      - left. by apply Hbase.
      - apply lookup_union_Some_raw in Hv as [Hv|[_ Hv]]; [|left; by apply Hbase].
        right. apply Hratings. by exists v. }
    assert (Hkeys : forall key,
              is_Some (written re_findall extract_metadata item keyword_id !! key) ->
              key ∈ ["keyword_id"; "title"; "link"; "website"; "stars"; "reviews"]).
    { intros key [v Hv].
      destruct (Hentry key v Hv) as [[[-> _]|[[-> _]|[->|[-> _]]]]|[->| ->]];
        decide_present. }
    assert (Habsent : forall key,
              key ∉ ["keyword_id"; "title"; "link"; "website"; "stars"; "reviews"] ->
              written re_findall extract_metadata item keyword_id !! key = None).
    { intros key Hkey. apply eq_None_not_Some. intros Hsome. by apply Hkey, Hkeys. }
    split; [|split; [|split; [|split; [|split; [|split]]]]].
    + destruct (written re_findall extract_metadata item keyword_id !! "title")
        as [v|] eqn:Hv; [|done].
      destruct (Hentry "title" v Hv)
        as [[[? _]|[(_ & t & -> & _)|[?|[? _]]]]|[?|?]]; try discriminate.
      exists t. split; [reflexivity|]. cbn in Htruthy. intros ->. done.
    + destruct Hshape as [-> | ->]; [exact Hid|].
      rewrite lookup_union_r; [exact Hid|].
      apply eq_None_not_Some. intros H. by destruct (Hratings _ H).
    + apply Habsent. decide_absent.
    + apply Habsent. decide_absent.
    + exact Hkeys.
    + intros href Hv.
      destruct (Hentry "website" _ Hv)
        as [[[? _]|[[? _]|[?|(_ & [?|(h & [= <-] & ? & ?)])]]]|[?|?]];
        try discriminate. done.
    + destruct Hshape as [-> | ->].
      * intros [v Hv]. apply Hbase, plain_entry_keys in Hv.
        exfalso. revert Hv. decide_absent.
      * intros Hrev. apply lookup_union_is_Some in Hrev as [Hrev|[v Hv]].
        -- apply lookup_union_is_Some. left.
           subst ratings. destruct (rating_labels item); cbn [extract_ratings] in *;
             [by apply ratings_loop_reviews_needs_stars|].
           rewrite lookup_empty in Hrev. by apply is_Some_None in Hrev.
        -- apply Hbase, plain_entry_keys in Hv. exfalso. revert Hv. decide_absent.
Qed.

(** A listing with a phone number in its text, and one without a title. *)
Example extract_visible_results_run :
  let cafe :=
    {| title_text := Ok "Cafe";
       link_href := Ok (Some "https://www.google.com/maps/place/cafe");
       website_hrefs := Ok [Some "https://www.google.com/maps/place/cafe";
                            Some "https://cafe.example"];
       rating_labels := Ok [Ok (Some "4.5 stars 1,234 Reviews")];
       element_text := Ok "Cafe 4.5 (1,234) 234-567-8900" |} in
  let untitled :=
    {| title_text := Raise (OtherException "NoSuchElementException");
       link_href := Ok None; website_hrefs := Ok []; rating_labels := Ok [];
       element_text := Ok "" |} in
  extract_visible_results class_methods module_globals
    (fun _ _ => [MStr "234-567-8900"]) (fun _ => Ok ∅) (Ok [cafe; untitled]) "coffee"
  = Ok [ {[ "keyword_id" := FText "coffee"; "title" := FText "Cafe";
            "link" := FText "https://www.google.com/maps/place/cafe";
            "website" := FText "https://cafe.example";
            "stars" := FNum (45 # 10); "reviews" := FNum 1 ]} ].
Proof. vm_compute. reflexivity. Qed.

End ExtractFacts.

(** ** Batch operations and the dashboard *)

Section ApiMore.
Import Routes.

Lemma batch_analyze_websites_unbound : "batch_analyze_websites" ∉ api_globals.
Proof. decide_absent. Qed.

Lemma generate_batch_reports_unbound : "generate_batch_reports" ∉ api_globals.
Proof. decide_absent. Qed.

Lemma calculate_scraping_success_rate_unbound :
  "calculate_scraping_success_rate" ∉ api_globals.
Proof. decide_absent. Qed.

(** X27.  As written, [api_batch_operations] can only schedule: a body
    without 'operation' and an unknown operation get 400; 'analyze' and
    'report' always get 500, because the functions they call are not
    defined, and register nothing; 'scrape' gets 200 and registers the
    posted keyword ids with the scheduler in batches of at most five, in
    order and none left out.  [api_dashboard_analytics] answers 500 to
    every request, since the first helper of [get_performance_metrics] is
    not defined. *)
Theorem api_batch_operations_written
    (batch_analyze_websites generate_batch_reports : list Z -> result Z)
    (now : nat -> Z) (data : option (gmap string json)) (keyword_ids : option (list Z))
    (get_system_summary get_recent_activity : result unit) (r1 r2 r3 r4 : result Q) :
  let out := api_batch_operations api_globals batch_analyze_websites
               generate_batch_reports now data keyword_ids in
  (data ≫= (.!! "operation") = None -> code out.1 = 400 /\ out.2 = [])
  /\ (data ≫= (.!! "operation") = Some (JStr "scrape") ->
      code out.1 = 200
      /\ concat (snd <$> out.2) = default [] keyword_ids
      /\ Forall (fun batch => (0 < length batch <= 5)%nat) (snd <$> out.2))
  /\ (data ≫= (.!! "operation") = Some (JStr "analyze")
      \/ data ≫= (.!! "operation") = Some (JStr "report") ->
      code out.1 = 500 /\ out.2 = [])
  /\ (forall operation, data ≫= (.!! "operation") = Some operation ->
      operation <> JStr "scrape" -> operation <> JStr "analyze" ->
      operation <> JStr "report" ->
      code out.1 = 400 /\ out.2 = [])
  /\ api_dashboard_analytics api_globals get_system_summary r1 r2 r3 r4
       get_recent_activity = 500.
Proof.
  intros out. subst out. unfold api_batch_operations.
  split; [|split; [|split; [|split]]].
  - intros ->. split; reflexivity.
  - intros ->. cbn [String.eqb Ascii.eqb Bool.eqb].
    unfold Scheduler.schedule_batch_processing, Scheduler.batches. rewrite bind_ok.
    cbn [fst snd code].
    assert (Hsnd : forall (l : list (list Z)) (g : nat -> list Z -> string),
               snd <$> imap (fun i batch => (g i batch, batch)) l = l).
    { intros l. induction l as [|x l IH]; intros g; [reflexivity|].
      cbn [imap fmap list_fmap snd]. f_equal. apply (IH (fun i => g (S i))). }
    rewrite Hsnd. repeat split.
    + rewrite range_step_slices by lia. apply drop_0.
    + apply Forall_fmap, Forall_forall. intros i Hi%range_step_lt.
      simpl. rewrite length_take, length_drop. lia.
  - intros [-> | ->]; cbn [String.eqb Ascii.eqb Bool.eqb].
    + rewrite (load_global_unbound _ _ batch_analyze_websites_unbound), bind_raise.
      split; reflexivity.
    + rewrite (load_global_unbound _ _ generate_batch_reports_unbound), bind_raise.
      split; reflexivity.
  - intros operation -> Hs Ha Hr.
    destruct operation as [| |n|s]; try (split; reflexivity).
    destruct (String.eqb s "scrape") eqn:H1;
      [apply String.eqb_eq in H1; congruence|].
    destruct (String.eqb s "analyze") eqn:H2;
      [apply String.eqb_eq in H2; congruence|].
    destruct (String.eqb s "report") eqn:H3;
      [apply String.eqb_eq in H3; congruence|].
    split; reflexivity.
  - unfold api_dashboard_analytics, get_performance_metrics.
    rewrite (load_global_unbound _ _ calculate_scraping_success_rate_unbound).
    destruct get_system_summary; reflexivity.
Qed.

Lemma api_batch_operations_written_witness :
  let out := api_batch_operations api_globals (fun _ => Ok 0) (fun _ => Ok 0)
               (fun _ => 600) (Some {[ "operation" := JStr "scrape" ]})
               (Some [1; 2; 3; 4; 5; 6; 7]) in
  code out.1 = 200 /\ concat (snd <$> out.2) = [1; 2; 3; 4; 5; 6; 7].
Proof.
  pose proof (api_batch_operations_written (fun _ => Ok 0) (fun _ => Ok 0)
                (fun _ => 600) (Some {[ "operation" := JStr "scrape" ]})
                (Some [1; 2; 3; 4; 5; 6; 7]) (Ok tt) (Ok tt)
                (Ok 0%Q) (Ok 0%Q) (Ok 0%Q) (Ok 0%Q)) as (_ & H & _).
  destruct (H eq_refl) as (Hcode & Hids & _). split; assumption.
Defined.

Example api_batch_operations_run :
  (api_batch_operations api_globals (fun _ => Ok 0) (fun _ => Ok 0)
     (fun _ => 600) (Some {[ "operation" := JStr "scrape" ]})
     (Some [1; 2; 3; 4; 5; 6; 7])).2
  = [("10:00", [1; 2; 3; 4; 5]); ("10:30", [6; 7])].
Proof. vm_compute. reflexivity. Qed.

End ApiMore.

(** ** The credibility pass *)

Section CredibilityFacts.
Import Analyzer.

Lemma prefix_weaken (a b s : string) :
  String.prefix (a ++ b) s = true -> String.prefix a s = true.
Proof.
  revert s. induction a as [|c a IH]; intros s; [by destruct s|].
  rewrite append_cons. destruct s as [|d s]; cbn [String.prefix]; [done|].
  destruct (ascii_dec c d); [apply IH|done].
Qed.

(** Text that contains a phrase contains each beginning of the phrase. *)
Lemma contains_weaken (a b s : string) :
  Py.contains s (a ++ b) = true -> Py.contains s a = true.
Proof.
  induction s as [|c s IH]; cbn [Py.contains]; intros H.
  - apply orb_true_iff in H as [H|H]; [|done].
    by rewrite (prefix_weaken _ _ _ H).
  - apply orb_true_iff in H as [H|H].
    + by rewrite (prefix_weaken _ _ _ H).
    + rewrite (IH H). apply orb_true_r.
Qed.

Lemma has_professional_design_undefined : "has_professional_design" ∉ class_methods.
Proof. decide_absent. Qed.

Ltac credibility_cases :=
  unfold credibility_rule;
  repeat match goal with
         | |- context [if ?b then _ else _] => destruct b
         end;
  cbn [fst snd length app]; lia.

(** What the rules give when they run to the end. *)
Lemma credibility_rules_spec methods hpd text st :
  credibility_rules methods hpd text = Ok st ->
  0 <= st.1 <= 100
  /\ length st.2 = 6%nat
  /\ (Py.contains (Py.lower text) "about us" = true -> 35 <= st.1).
Proof.
  unfold credibility_rules.
  destruct (Py.getattr methods "has_professional_design"); [|discriminate].
  destruct (hpd text) as [professional|]; [|discriminate].
  rewrite !bind_ok. intros Hst%ok_inj. subst st.
  split; [credibility_cases|]. split; [credibility_cases|].
  intros Habout.
  assert (Hcontact : any_in (Py.lower text)
                       ["contact"; "about"; "phone"; "email"; "address"] = true).
  { unfold any_in. cbn [existsb].
    rewrite (contains_weaken "about" " us" _ Habout). by rewrite orb_true_r. }
  assert (Hcompany : any_in (Py.lower text)
                       ["about us"; "our story"; "company"; "team"] = true).
  { unfold any_in. cbn [existsb]. by rewrite Habout. }
  rewrite Hcontact, Hcompany. credibility_cases.
Qed.

(** X28.  [business_credibility_analysis] always returns a score between 0
    and 100.  When it reports trust indicators there are exactly six, one per
    check, and a page whose text mentions "about us" in any letter case has
    at least 35 points: the phrase counts as company information and, since
    it contains "about", as contact information too.  With the class as
    written the checks stop at the undefined [has_professional_design], so
    the result is the bare [{'credibility_score': 0}] for every page. *)
Theorem business_credibility_analysis_spec (methods : list string)
    (has_professional_design : string -> result bool)
    (get_credibility_grade : Z -> result pyval)
    (fetch : string -> result string) (url : string) :
  let generic := business_credibility_analysis methods has_professional_design
                   get_credibility_grade fetch url in
  0 <= credibility_score generic <= 100
  /\ (forall indicators, trust_indicators generic = Some indicators ->
      length indicators = 6%nat
      /\ forall text, fetch url = Ok text ->
           Py.contains (Py.lower text) "about us" = true ->
           35 <= credibility_score generic)
  /\ business_credibility_analysis class_methods has_professional_design
       get_credibility_grade fetch url
     = {| credibility_score := 0; trust_indicators := None;
          credibility_grade := None |}.
Proof.
  intros generic. subst generic. split; [|split].
  - unfold business_credibility_analysis.
    destruct (fetch url) as [text|]; [|simpl; lia]. rewrite bind_ok.
    destruct (credibility_rules _ _ text) as [[score indicators]|] eqn:Hrules;
      [|simpl; lia].
    destruct (credibility_rules_spec _ _ _ _ Hrules) as (Hscore & _).
    cbn [fst] in Hscore. destruct (_ ≫= _); cbn [credibility_score]; lia.
  - intros indicators. unfold business_credibility_analysis.
    destruct (fetch url) as [text|]; [|discriminate]. rewrite bind_ok.
    destruct (credibility_rules _ _ text) as [[score inds]|] eqn:Hrules;
      [|discriminate].
    destruct (credibility_rules_spec _ _ _ _ Hrules) as (_ & Hlen & Habout).
    cbn [fst snd] in Hlen, Habout.
    destruct (_ ≫= _); cbn [trust_indicators credibility_score]; intros [= <-];
      (split; [exact Hlen|intros text' [= <-]; exact Habout]).
  - unfold business_credibility_analysis, credibility_rules.
    rewrite (getattr_undefined _ _ has_professional_design_undefined).
    destruct (fetch url); reflexivity.
Qed.

Example business_credibility_analysis_about_us :
  business_credibility_analysis ("has_professional_design" :: class_methods)
    (fun _ => Ok false) (fun _ => Ok (VOther "F"))
    (fun _ => Ok "<h1>About Us</h1>") "https://example.com"
  = {| credibility_score := 35;
       trust_indicators :=
         Some [ "Contact information present"; "No privacy policy found";
                "No terms of service found"; "No social proof elements";
                "Unprofessional design detected"; "Company information available" ];
       credibility_grade := None |}.
Proof. vm_compute. reflexivity. Qed.

End CredibilityFacts.

(** ** The performance pass *)

Section PerformanceFacts.
Import Analyzer.

Lemma analyze_page_resources_undefined : "analyze_page_resources" ∉ class_methods.
Proof. decide_absent. Qed.

Lemma measure_load_time_defined : "measure_load_time" ∈ class_methods.
Proof. decide_present. Qed.

Lemma load_time_points_bounds (t : Q) :
  0 <= (load_time_points t).1 <= 40
  /\ ((load_time_points t).2 = [] -> 20 <= (load_time_points t).1).
Proof.
  unfold load_time_points.
  repeat match goal with
         | |- context [if ?b then _ else _] => destruct b
         end; cbn [fst snd]; split; try lia; discriminate.
Qed.

Lemma performance_rule_spec ok issue st :
  (performance_rule ok issue st).1 + (if ok then 0 else 20) = st.1 + 20
  /\ ((performance_rule ok issue st).2 = [] <-> ok = true /\ st.2 = []).
Proof.
  unfold performance_rule. destruct ok; cbn [fst snd]; split; try lia.
  - tauto.
  - split; [intros H; by apply app_nil in H as [_ ?]|intros [? _]; discriminate].
Qed.

(** What the resource checks add to the points of the load time. *)
Lemma resource_rules_spec resource_data st st' :
  resource_rules resource_data st = Ok st' ->
  st.1 <= st'.1 <= st.1 + 60
  /\ (st'.2 = [] -> st.2 = [] /\ st'.1 = st.1 + 60)
  /\ (st'.1 = st.1 + 60 -> st'.2 = st.2).
Proof.
  unfold resource_rules.
  destruct (percentage_at_least resource_data "optimized_images_percentage" 80)
    as [b1|]; [|discriminate].
  destruct (percentage_at_least resource_data "cached_resources_percentage" 70)
    as [b2|]; [|discriminate].
  destruct (percentage_at_least resource_data "minified_resources_percentage" 80)
    as [b3|]; [|discriminate].
  rewrite !bind_ok. intros Hst%ok_inj. subst st'.
  unfold performance_rule.
  destruct b1, b2, b3; cbn [fst snd]; (split; [lia|split]);
    first [ by (intros H; split; [exact H|lia])
          | by (intros H; apply app_nil in H as [_ H]; discriminate)
          | reflexivity
          | intros H; exfalso; lia ].
Qed.

(** X29.  With the class as written, [performance_analysis] returns the
    score 0 together with the measured load time, and nothing else: the
    load time is stored before the call of the undefined
    [analyze_page_resources] raises.  A request that fails counts as 10
    seconds, so with all three failing the stored load time is 10.  Where
    the helpers exist and the pass runs to the end, the score is between 0
    and 100, a report without issues has at least 80 points, and 100 points
    come without issues. *)
Theorem performance_analysis_spec (methods : list string)
    (analyze_page_resources : string -> result (gmap string pyval))
    (get_performance_grade : Z -> result pyval)
    (requests : result Q * result Q * result Q) (url : string) :
  (exists load_time,
     measure_load_time [requests.1.1; requests.1.2; requests.2] = Ok load_time
     /\ performance_analysis class_methods analyze_page_resources
          get_performance_grade requests url
        = {[ "performance_score" := PVal (VNum 0);
             "load_time" := PVal (VNum load_time) ]}
     /\ (Py.is_raise requests.1.1 = true -> Py.is_raise requests.1.2 = true ->
         Py.is_raise requests.2 = true -> (load_time == 10)%Q))
  /\ (forall issues,
        performance_analysis methods analyze_page_resources get_performance_grade
          requests url !! "performance_issues" = Some (PIssues issues) ->
        exists score,
          performance_analysis methods analyze_page_resources get_performance_grade
            requests url !! "performance_score"
          = Some (PVal (VNum (inject_Z score)))
          /\ 0 <= score <= 100
          /\ (issues = [] -> 80 <= score)
          /\ (score = 100 -> issues = [])).
Proof.
  split.
  - destruct requests as [[r1 r2] r3]. cbn [fst snd].
    eexists. split; [reflexivity|]. split.
    + unfold performance_analysis. cbn [fst snd measure_load_time fmap list_fmap].
      rewrite (getattr_undefined _ _ analyze_page_resources_undefined), bind_raise.
      apply map_eq. intros k.
      destruct (decide (k = "load_time")) as [->|Hk];
        [by rewrite lookup_insert_eq, lookup_insert_ne, lookup_singleton_eq|].
      rewrite lookup_insert_ne by done.
      destruct (decide (k = "performance_score")) as [->|Hk'];
        [by rewrite lookup_singleton_eq, lookup_insert_eq|].
      by rewrite lookup_singleton_ne, lookup_insert_ne, lookup_singleton_ne.
    + destruct r1, r2, r3; try discriminate. intros _ _ _. vm_compute. reflexivity.
  - intros issues. unfold performance_analysis.
    destruct (measure_load_time _) as [load_time|];
      [|by rewrite lookup_singleton_ne].
    destruct (_ ≫= _) as [resource_data|];
      [|by rewrite lookup_insert_ne, lookup_singleton_ne].
    destruct (resource_rules resource_data (load_time_points load_time))
      as [[score iss]|] eqn:Hrules.
    + intros Hissues.
      assert (iss = issues) as ->.
      { destruct (_ ≫= _) in Hissues.
        - rewrite lookup_insert_ne, lookup_insert_eq in Hissues by done. congruence.
        - rewrite lookup_insert_eq in Hissues. congruence. }
      exists score. split.
      { destruct (_ ≫= _);
          by rewrite ?(lookup_insert_ne _ "performance_grade") by done;
             rewrite lookup_insert_ne, lookup_insert_eq. }
      destruct (resource_rules_spec _ _ _ Hrules) as (Hb & Hnil & Hfull).
      destruct (load_time_points_bounds load_time) as (Hl & Hlnil).
      cbn [fst snd] in *. split; [lia|]. split.
      * intros ->. destruct (Hnil eq_refl) as [Hl0 ->]. specialize (Hlnil Hl0). lia.
      * intros ->. assert (Hs : 100 = (load_time_points load_time).1 + 60) by lia.
        rewrite (Hfull Hs). unfold load_time_points in *.
        repeat match goal with
               | H : context [if ?b then _ else _] |- _ => destruct b
               end; cbn [fst snd] in *; try reflexivity; lia.
    + intros Hissues. exfalso.
      apply lookup_union_Some_raw in Hissues as [H|[_ H]].
      * rewrite lookup_fmap in H. destruct (resource_data !! _); discriminate.
      * rewrite lookup_insert_ne, lookup_singleton_ne in H by done. discriminate.
Qed.

Example performance_analysis_with_helpers :
  performance_analysis
    ("analyze_page_resources" :: "get_performance_grade" :: class_methods)
    (fun _ => Ok {[ "optimized_images_percentage" := VNum 85;
                    "cached_resources_percentage" := VNum 75;
                    "minified_resources_percentage" := VNum 90 ]})
    (fun _ => Ok (VOther "A")) (Ok 4%Q, Ok 4%Q, Ok 4%Q) "https://example.com"
  !! "performance_score"
  = Some (PVal (VNum 90)).
Proof. vm_compute. reflexivity. Qed.


End PerformanceFacts.

(** ** The security pass *)

Section SecurityFacts.
Import Analyzer.

Lemma get_security_headers_undefined : "get_security_headers" ∉ class_methods.
Proof. decide_absent. Qed.

Lemma count_security_headers_le (headers : gmap string string) :
  (count_security_headers headers <= 4)%nat.
Proof.
  unfold count_security_headers.
  etrans; [apply List.filter_length_le|]. reflexivity.
Qed.

(** What the rules give when they run to the end: the score is a number
    of sixteenths of 100, and full exactly when nothing is reported. *)
Lemma security_rules_spec methods hostname ssl_valid gsh hsid url st :
  security_rules methods hostname ssl_valid gsh hsid url = Ok st ->
  exists sixteenths : Z,
    st.1 == inject_Z sixteenths * (625 # 100)
    /\ 0 <= sixteenths <= 16
    /\ (sixteenths = 16 <-> st.2 = []).
Proof.
  unfold security_rules.
  destruct (hostname url) as [host|]; [|discriminate].
  destruct (Py.getattr methods "get_security_headers"); [|discriminate].
  destruct (gsh url) as [headers|]; [|discriminate].
  destruct (Py.getattr methods "has_sensitive_info_disclosure"); [|discriminate].
  destruct (hsid url) as [disclosure|]; [|discriminate].
  rewrite !bind_ok. intros Hst%ok_inj. subst st.
  pose proof (count_security_headers_le headers) as Hle.
  generalize dependent (count_security_headers headers). intros n Hle.
  exists ((if String.prefix "https://" url then 4 else 0)
          + (if ssl_valid host then 4 else 0) + Z.of_nat n
          + (if disclosure then 0 else 4)).
  unfold security_rule.
  assert (Hn : (n = 0 \/ n = 1 \/ n = 2 \/ n = 3 \/ n = 4)%nat) by lia.
  destruct (String.prefix "https://" url), (ssl_valid host), disclosure;
    destruct Hn as [->|[->|[->|[->| ->]]]];
    cbn [negb fst snd Nat.ltb Nat.leb Nat.sub];
    (split; [vm_compute; reflexivity|]); (split; [cbn; lia|]); split; intros H;
    first [ reflexivity
          | exfalso; cbn in H; lia
          | exfalso; apply app_nil in H as [_ H]; discriminate ].
Qed.

Lemma sixteenths_bounds (q : Q) (n : Z) :
  (q == inject_Z n * (625 # 100))%Q -> 0 <= n <= 16 ->
  (0 <= q)%Q /\ (q <= 100)%Q /\ ((q == 100)%Q <-> n = 16).
Proof.
  intros Hq Hn. rewrite Hq. unfold Qle, Qeq. cbn. repeat split; lia.
Qed.

(** X30.  [security_analysis] always returns a score between 0 and 100.
    When it reports issues, the score is a whole number of steps of 6.25,
    and it is 100 exactly when no issue is reported.  With the class as
    written the pass stops at the undefined [get_security_headers], so the
    result is the bare [{'security_score': 0}] for every URL, https with a
    valid certificate or not. *)
Theorem security_analysis_spec (methods : list string)
    (hostname : string -> result (option string)) (ssl_valid : option string -> bool)
    (get_security_headers : string -> result (gmap string string))
    (has_sensitive_info_disclosure : string -> result bool)
    (get_security_grade : Q -> result pyval) (url : string) :
  let generic := security_analysis methods hostname ssl_valid get_security_headers
                   has_sensitive_info_disclosure get_security_grade url in
  (0 <= security_score generic /\ security_score generic <= 100)%Q
  /\ (forall issues, security_issues generic = Some issues ->
      (exists steps : Z,
         0 <= steps <= 16
         /\ (security_score generic == inject_Z steps * (625 # 100))%Q)
      /\ ((security_score generic == 100)%Q <-> issues = []))
  /\ security_analysis class_methods hostname ssl_valid get_security_headers
       has_sensitive_info_disclosure get_security_grade url
     = {| security_score := 0; security_issues := None; security_grade := None |}.
Proof.
  intros generic. subst generic. split; [|split].
  - unfold security_analysis.
    destruct (security_rules _ _ _ _ _ url) as [[score issues]|] eqn:Hrules;
      [|split; reflexivity || discriminate].
    destruct (security_rules_spec _ _ _ _ _ _ _ Hrules) as (n & Hq & Hn & _).
    destruct (sixteenths_bounds _ _ Hq Hn) as (? & ? & _).
    destruct (_ ≫= _); cbn [security_score]; split; assumption.
  - intros issues. unfold security_analysis.
    destruct (security_rules _ _ _ _ _ url) as [[score iss]|] eqn:Hrules;
      [|discriminate].
    destruct (security_rules_spec _ _ _ _ _ _ _ Hrules) as (n & Hq & Hn & Hfull).
    destruct (sixteenths_bounds _ _ Hq Hn) as (_ & _ & H100).
    cbn [fst snd] in *.
    destruct (_ ≫= _); cbn [security_score security_issues]; intros [= <-];
      (split; [exists n; by split|by rewrite H100]).
  - unfold security_analysis, security_rules.
    rewrite (getattr_undefined _ _ get_security_headers_undefined).
    destruct (hostname url); reflexivity.
Qed.

Example security_analysis_with_helpers :
  security_analysis
    ("get_security_headers" :: "has_sensitive_info_disclosure" :: class_methods)
    (fun _ => Ok (Some "example.com")) (fun _ => true)
    (fun _ => Ok {[ "X-Frame-Options" := "DENY";
                    "Strict-Transport-Security" := "max-age=63072000" ]})
    (fun _ => Ok false) (fun _ => Ok (VOther "B")) "https://example.com"
  = {| security_score := 8750 # 100;
       security_issues := Some [MissingSecurityHeaders 2];
       security_grade := None |}.
Proof. vm_compute. reflexivity. Qed.

End SecurityFacts.
